(** * SAJ R5 MQTT integration: register decoder, poll coordinators, setup,
      number entity and transport bridge.

    A shallow embedding of the Python sources under
    [custom_components/saj_r5_mqtt] together with the part of the Python
    runtime they rely on (exceptions, [int], [float], [str], [round],
    [format], [struct.unpack_from], [datetime]) and the part of Home
    Assistant's [DataUpdateCoordinator] that decides what a refresh does
    with the value or exception of [_async_update_data]. *)

From Stdlib Require Import ZArith List Bool Ascii String Lia.
From Stdlib Require Import Floats.SpecFloat.
From stdpp Require Import base option list strings gmap.

Import ListNotations.
Local Open Scope string_scope.
Local Open Scope Z_scope.

(* ===================================================================== *)
(** * The Python runtime, as far as the sources use it *)
(* ===================================================================== *)

Module Py.

(** Exceptions.  All of them are subclasses of [Exception]; the base
    exceptions that [except Exception] does not catch (KeyboardInterrupt,
    SystemExit, CancelledError) are raised by none of the modelled code. *)
Inductive exn : Type :=
  | TypeError
  | ValueError
  | StructError          (* struct.error *)
  | OverflowError
  | IndexError
  | KeyError
  | ImportError
  | TimeoutError
  | NotImplementedError
  | HomeAssistantError
  | ConfigEntryNotReady
  | OtherError (name : string).

(** A computation that returns or raises. *)
Inductive res (A : Type) : Type :=
  | Ok (a : A)
  | Raise (e : exn).
Arguments Ok {A} a.
Arguments Raise {A} e.

Definition bind {A B} (m : res A) (k : A -> res B) : res B :=
  match m with
  | Ok a => k a
  | Raise e => Raise e
  end.

(** IEEE 754 binary64, the representation of a Python [float]. *)
Definition prec : Z := 53.
Definition emax : Z := 1024.
Definition float : Type := spec_float.

(** Python values that reach the decoder. *)
Inductive value : Type :=
  | PyNone
  | PyInt (z : Z)
  | PyFloat (f : float)
  | PyStr (s : string)
  | PyBytes (b : list Byte.byte).

#[export] Instance res_bind : MBind res := fun A B k m => bind m k.
#[export] Instance res_ret : MRet res := fun A a => Ok a.

(** ** Strings *)

Definition chars (s : string) : list ascii := list_ascii_of_string s.
Definition str_of (l : list ascii) : string := string_of_list_ascii l.

Definition ascii_eqb (a b : ascii) : bool := Ascii.eqb a b.

(** [s.endswith(c)] for a one-character suffix. *)
Definition endswith_char (s : string) (c : ascii) : bool :=
  match rev (chars s) with
  | x :: _ => ascii_eqb x c
  | [] => false
  end.

(** [s.replace(c, "")] for a one-character pattern. *)
Definition remove_char (s : string) (c : ascii) : string :=
  str_of (List.filter (fun x => negb (ascii_eqb x c)) (chars s)).

(** [s[::-1]] *)
Definition reversed (s : string) : string := str_of (rev (chars s)).

(** [s.find(c)]: index of the first occurrence, [-1] when there is none. *)
Fixpoint find_from (l : list ascii) (c : ascii) (i : Z) : Z :=
  match l with
  | [] => -1
  | x :: l' => if ascii_eqb x c then i else find_from l' c (i + 1)
  end.
Definition find_char (s : string) (c : ascii) : Z := find_from (chars s) c 0.

Definition NUL : ascii := Ascii.zero.

(** [s.rstrip("\x00")] *)
Fixpoint lstrip_nul (l : list ascii) : list ascii :=
  match l with
  | x :: l' => if ascii_eqb x NUL then lstrip_nul l' else l
  | [] => []
  end.
Definition rstrip_nul (s : string) : string :=
  str_of (rev (lstrip_nul (rev (chars s)))).

(** [b.decode("ascii", errors="ignore")]: bytes above 0x7f are dropped. *)
Definition is_ascii_byte (b : Byte.byte) : bool := (Byte.to_N b <? 128)%N.
Definition decode_ascii_ignore (b : list Byte.byte) : string :=
  str_of (map ascii_of_byte (List.filter is_ascii_byte b)).

(** ** Slices: [l[start:stop]] with Python's clamping of the bounds. *)
Definition clamp_index (len i : Z) : Z :=
  if i <? 0 then Z.max 0 (i + len) else Z.min i len.

Definition slice {A} (l : list A) (start stop : Z) : list A :=
  let len := Z.of_nat (length l) in
  let a := clamp_index len start in
  let b := clamp_index len stop in
  take (Z.to_nat (b - a)) (drop (Z.to_nat a) l).

(** ** Decimal digits *)

Definition is_digit (c : ascii) : bool :=
  let n := N_of_ascii c in ((48 <=? n) && (n <=? 57))%N.
Definition digit_val (c : ascii) : Z := Z.of_N (N_of_ascii c) - 48.
Definition digit_char (d : Z) : ascii := ascii_of_N (Z.to_N (d + 48)).

Fixpoint digits_val (acc : Z) (l : list ascii) : Z :=
  match l with
  | [] => acc
  | c :: l' => digits_val (10 * acc + digit_val c) l'
  end.

(** Decimal digits of a natural number, most significant first; [fuel]
    bounds the number of digits produced. *)
Fixpoint digits_of_fuel (fuel : nat) (n : Z) (acc : list ascii) : list ascii :=
  match fuel with
  | O => acc
  | S fuel' =>
      let acc' := digit_char (n mod 10) :: acc in
      if n <? 10 then acc' else digits_of_fuel fuel' (n / 10) acc'
  end.
Definition digits_of (n : Z) : list ascii :=
  digits_of_fuel (S (Z.to_nat (Z.log2 n))) n [].
Definition str_of_nat (n : Z) : string := str_of (digits_of n).

(** Whitespace stripped by [int()] and [float()]. *)
Definition is_space (c : ascii) : bool :=
  let n := N_of_ascii c in
  (((9 <=? n) && (n <=? 13)) || ((28 <=? n) && (n <=? 32)))%N.
Fixpoint lstrip_space (l : list ascii) : list ascii :=
  match l with
  | x :: l' => if is_space x then lstrip_space l' else l
  | [] => []
  end.
Definition strip_space (l : list ascii) : list ascii :=
  rev (lstrip_space (rev (lstrip_space l))).

(** [digitpart ::= digit (["_"] digit)*]: the digits read and the rest of
    the input; no digits when the input does not start with a digit. *)
Fixpoint digitpart_more (l : list ascii) (acc : list ascii)
  : list ascii * list ascii :=
  match l with
  | c :: l' =>
      if is_digit c then digitpart_more l' (c :: acc)
      else if ascii_eqb c "_" then
        match l' with
        | d :: l'' =>
            if is_digit d then digitpart_more l'' (d :: acc) else (rev acc, l)
        | [] => (rev acc, l)
        end
      else (rev acc, l)
  | [] => (rev acc, [])
  end.
Definition digitpart (l : list ascii) : list ascii * list ascii :=
  match l with
  | c :: l' => if is_digit c then digitpart_more l' [c] else ([], l)
  | [] => ([], [])
  end.

(** Optional sign: [true] for "-". *)
Definition read_sign (l : list ascii) : bool * list ascii :=
  match l with
  | c :: l' =>
      if ascii_eqb c "-" then (true, l')
      else if ascii_eqb c "+" then (false, l')
      else (false, l)
  | [] => (false, [])
  end.

(** [int(s)] in base 10. *)
Definition int_of_str (s : string) : res Z :=
  let '(neg, l) := read_sign (strip_space (chars s)) in
  match digitpart l with
  | (d :: ds, []) =>
      let n := digits_val 0 (d :: ds) in Ok (if neg then - n else n)
  | _ => Raise ValueError
  end.

(** ** Floats *)

Definition fmul (x y : float) : float := SFmul prec emax x y.

(** The float nearest to [num / den] (ties to even), with sign [s]. *)
Definition float_of_ratio (s : bool) (num den : positive) : float :=
  let '(q, e, l) := SFdiv_core_binary prec emax (Zpos num) 0 (Zpos den) 0 in
  binary_round_aux prec emax s q e l.

(** The float nearest to [m * 10 ^ e], for [m >= 0]. *)
Definition float_of_decimal (s : bool) (m e : Z) : float :=
  match m * 10 ^ Z.max e 0, 10 ^ Z.max (- e) 0 with
  | Zpos num, Zpos den => float_of_ratio s num den
  | _, _ => S754_zero s
  end.

(** Conversion of an [int] operand of [int * float]. *)
Definition float_of_int (z : Z) : res float :=
  match binary_normalize prec emax z 0 false with
  | S754_infinity _ => Raise OverflowError
  | f => Ok f
  end.


(** Structural equality of floats in canonical form. *)
Definition float_same (x y : float) : bool :=
  match x, y with
  | S754_zero a, S754_zero b => Bool.eqb a b
  | S754_infinity a, S754_infinity b => Bool.eqb a b
  | S754_nan, S754_nan => true
  | S754_finite a m e, S754_finite b m' e' =>
      Bool.eqb a b && Pos.eqb m m' && Z.eqb e e'
  | _, _ => false
  end.

(** Rounding of the quotient of two naturals to the nearest integer, ties
    to even. *)
Definition div_half_even (num den : Z) : Z :=
  let q := num / den in
  let r := num mod den in
  match Z.compare (2 * r) den with
  | Lt => q
  | Gt => q + 1
  | Eq => if Z.even q then q else q + 1
  end.

(** [m * 2^e * 10^n] as an exact fraction. *)
Definition scaled (m : positive) (e n : Z) : Z * Z :=
  (Zpos m * 2 ^ Z.max e 0 * 10 ^ Z.max n 0,
   2 ^ Z.max (- e) 0 * 10 ^ Z.max (- n) 0).

(** The integer nearest to [m * 2^e * 10^n]: the digits that correctly
    rounded conversion to [n] places after the point produces. *)
Definition decimal_at (m : positive) (e n : Z) : Z :=
  let '(a, b) := scaled m e n in div_half_even a b.

(** [round(x, ndigits)] for a float [x]. *)
Definition round_float (x : float) (ndigits : Z) : res float :=
  match x with
  | S754_finite s m e =>
      if 323 <? ndigits then Ok x
      else if ndigits <? -308 then Ok (S754_zero s)
      else
        match float_of_decimal s (decimal_at m e ndigits) (- ndigits) with
        | S754_infinity _ => Raise OverflowError
        | f => Ok f
        end
  | _ => Ok x
  end.

Definition zeros (n : nat) : list ascii := repeat "0"%char n.

(** Left padding with zeros up to [n] characters. *)
Definition zfill (n : nat) (l : list ascii) : list ascii :=
  zeros (n - length l) ++ l.

(** ["{:.{precision}f}".format(x, precision=p)] for a float [x]. *)
Definition format_fixed (x : float) (p : Z) : string :=
  let body (s : bool) (N : Z) :=
    let ip := digits_of (N / 10 ^ p) in
    let fp := zfill (Z.to_nat p) (digits_of (N mod 10 ^ p)) in
    str_of ((if s then ["-"%char] else []) ++ ip
            ++ (if 0 <? p then "."%char :: fp else [])) in
  match x with
  | S754_nan => "nan"
  | S754_infinity s => if s then "-inf" else "inf"
  | S754_zero s => body s 0
  | S754_finite s m e => body s (decimal_at m e p)
  end.

(** *** [repr] of a float: the shortest digit string that reads back as
    the same float, in fixed notation for decimal exponents between [-4]
    and [16] and in exponent notation outside. *)

(** [num / den < 10 ^ d] *)
Definition below_pow10 (num den d : Z) : bool :=
  num * 10 ^ Z.max (- d) 0 <? den * 10 ^ Z.max d 0.

Fixpoint decpt_search (fuel : nat) (num den d : Z) : Z :=
  match fuel with
  | O => d
  | S fuel' =>
      if below_pow10 num den d then d else decpt_search fuel' num den (d + 1)
  end.

(** The [d] with [10 ^ (d - 1) <= m * 2 ^ e < 10 ^ d]. *)
Definition decpt_of (m : positive) (e : Z) : Z :=
  let num := Zpos m * 2 ^ Z.max e 0 in
  let den := 2 ^ Z.max (- e) 0 in
  let b := Z.log2 num - Z.log2 den in
  decpt_search 6 num den (((b - 1) * 30103) / 100000 - 1).

(** The [p]-digit candidates next to [m * 2 ^ e] that read back as it,
    nearest first. *)
Definition repr_candidates (m : positive) (e d p : Z) : list Z :=
  let '(a, b) := scaled m e (p - d) in
  let lo := a / b in
  let r := a mod b in
  let back c := float_same (float_of_decimal false c (d - p))
                           (S754_finite false m e) in
  List.filter back (if 2 * r <=? b then [lo; lo + 1] else [lo + 1; lo]).

Fixpoint repr_search (fuel : nat) (m : positive) (e d p : Z) : Z * Z :=
  match fuel with
  | O => (decimal_at m e (p - d), p)
  | S fuel' =>
      match repr_candidates m e d p with
      | c :: _ => (c, p)
      | [] => repr_search fuel' m e d (p + 1)
      end
  end.

Fixpoint rstrip_zeros (l : list ascii) : list ascii :=
  match l with
  | x :: l' => if ascii_eqb x "0" then rstrip_zeros l' else l
  | [] => []
  end.

(** Shortest digits and position of the decimal point of a positive
    finite float. *)
Definition repr_digits (m : positive) (e : Z) : list ascii * Z :=
  let d := decpt_of m e in
  let '(c, p) := repr_search 17 m e d 1 in
  let ds := digits_of c in
  (rev (rstrip_zeros (rev ds)), d + (Z.of_nat (length ds) - p)).

Definition repr_finite (s : bool) (m : positive) (e : Z) : string :=
  let '(ds, decpt) := repr_digits m e in
  let n := Z.of_nat (length ds) in
  let sign := if s then ["-"%char] else [] in
  str_of (sign ++
    if (decpt <=? -4) || (16 <? decpt) then
      let x := decpt - 1 in
      take 1 ds
      ++ (match drop 1 ds with [] => [] | fr => "."%char :: fr end)
      ++ ["e"%char; if x <? 0 then "-"%char else "+"%char]
      ++ zfill 2 (digits_of (Z.abs x))
    else if decpt <=? 0 then
      ["0"; "."]%char ++ zeros (Z.to_nat (- decpt)) ++ ds
    else if n <=? decpt then
      ds ++ zeros (Z.to_nat (decpt - n)) ++ ["."; "0"]%char
    else
      take (Z.to_nat decpt) ds ++ "."%char :: drop (Z.to_nat decpt) ds).

(** [str(x)] for a float [x]. *)
Definition str_of_float (x : float) : string :=
  match x with
  | S754_nan => "nan"
  | S754_infinity s => if s then "-inf" else "inf"
  | S754_zero s => if s then "-0.0" else "0.0"
  | S754_finite s m e => repr_finite s m e
  end.

(** *** [float(s)] for a string [s]. *)

Definition lower (c : ascii) : ascii :=
  let n := N_of_ascii c in
  if ((65 <=? n) && (n <=? 90))%N then ascii_of_N (n + 32) else c.

Definition exponent_part (l : list ascii) : option Z :=
  match l with
  | [] => Some 0
  | c :: l' =>
      if ascii_eqb (lower c) "e" then
        let '(neg, l'') := read_sign l' in
        match digitpart l'' with
        | (d :: ds, []) =>
            let x := digits_val 0 (d :: ds) in Some (if neg then - x else x)
        | _ => None
        end
      else None
  end.

Definition float_of_str (s : string) : res float :=
  let '(neg, l) := read_sign (strip_space (chars s)) in
  let word := str_of (map lower l) in
  if String.eqb word "inf" || String.eqb word "infinity"
  then Ok (S754_infinity neg)
  else if String.eqb word "nan" then Ok S754_nan
  else
    let '(ip, l1) := digitpart l in
    let '(fp, l2) :=
      match l1 with
      | c :: l1' => if ascii_eqb c "." then digitpart l1' else ([], l1)
      | [] => ([], [])
      end in
    match (ip ++ fp)%list, exponent_part l2 with
    | _ :: _, Some x =>
        let m := digits_val 0 (ip ++ fp)%list in
        let e := x - Z.of_nat (length fp) in
        if 400 <? e then Ok (if m =? 0 then S754_zero neg else S754_infinity neg)
        else if e + Z.log2 m + 1 <? -330 then Ok (S754_zero neg)
        else Ok (float_of_decimal neg m e)
    | _, _ => Raise ValueError
    end.

End Py.

Import Py.

(** What the modules write to [LOGGER]. *)
Module Log.

Inductive level : Type := DEBUG | INFO | WARNING | ERROR.

(** A record: its level, the fixed part of its message, and the exception
    the message renders, when there is one. *)
Record record : Type := mk {
  lvl : level;
  msg : string;
  cause : option exn
}.

End Log.

(** A computation together with the log records it wrote. *)
Definition logged (A : Type) : Type := res A * list Log.record.

(* ===================================================================== *)
(** * [struct.unpack_from] *)
(* ===================================================================== *)

Module Struct.

Inductive byte_order : Type := BigEndian | LittleEndian.

Definition order_of (c : ascii) : option byte_order :=
  if ascii_eqb c ">" || ascii_eqb c "!" then Some BigEndian
  else if ascii_eqb c "<" then Some LittleEndian
  else None.

(** Signedness and standard size in bytes of an integer format code. *)
Definition code_of (c : ascii) : option (bool * nat) :=
  if ascii_eqb c "b" then Some (true, 1%nat)
  else if ascii_eqb c "B" then Some (false, 1%nat)
  else if ascii_eqb c "h" then Some (true, 2%nat)
  else if ascii_eqb c "H" then Some (false, 2%nat)
  else if ascii_eqb c "i" || ascii_eqb c "l" then Some (true, 4%nat)
  else if ascii_eqb c "I" || ascii_eqb c "L" then Some (false, 4%nat)
  else if ascii_eqb c "q" then Some (true, 8%nat)
  else if ascii_eqb c "Q" then Some (false, 8%nat)
  else None.

(** Formats of an explicit byte order and one integer code, the family
    the descriptors of sensor.py are written in ([>H], [>h], [>I]).  For
    every other format (native order, repeat counts, several codes,
    floats, pad bytes) the model answers [struct.error]. *)
Definition parse_format (fmt : string) : res (byte_order * bool * nat) :=
  match chars fmt with
  | [o; c] =>
      match order_of o, code_of c with
      | Some ord, Some (sg, size) => Ok (ord, sg, size)
      | _, _ => Raise StructError
      end
  | _ => Raise StructError
  end.

(** The natural number a big-endian byte string denotes. *)
Definition be_nat (bs : list Byte.byte) : Z :=
  fold_left (fun acc b => acc * 256 + Z.of_N (Byte.to_N b)) bs 0.

(** Two's complement reading of a [bits]-bit natural. *)
Definition to_signed (bits u : Z) : Z :=
  if u <? 2 ^ (bits - 1) then u else u - 2 ^ bits.

Definition unpack_from (fmt : string) (buffer : list Byte.byte) (offset : Z)
  : res (list value) :=
  p ← parse_format fmt;
  let '(ord, sg, size) := (p : byte_order * bool * nat) in
  let len := Z.of_nat (length buffer) in
  let off := if offset <? 0 then offset + len else offset in
  if off <? 0 then Raise StructError
  else if len - off <? Z.of_nat size then Raise StructError
  else
    let bs := take size (drop (Z.to_nat off) buffer) in
    let u := be_nat (match ord with BigEndian => bs | LittleEndian => rev bs end) in
    Ok [PyInt (if sg then to_signed (8 * Z.of_nat size) u else u)].

End Struct.

(* ===================================================================== *)
(** * entity.py *)
(* ===================================================================== *)

Module Entity.

(** [modbus_register_scale: float | str | None] *)
Inductive scale : Type :=
  | ScaleFloat (f : float)
  | ScaleStr (s : string).

Record SajR5MqttEntityDescription : Type := {
  key : string;
  modbus_register_offset : Z;
  modbus_register_data_type : string;
  modbus_register_scale : option scale;
  value_fn : option (value -> res value)
}.

(** [str(scale)] *)
Definition str_of_scale (sc : scale) : string :=
  match sc with
  | ScaleFloat f => str_of_float f
  | ScaleStr s => s
  end.

(** [float(scale)] *)
Definition float_of_scale (sc : scale) : res float :=
  match sc with
  | ScaleFloat f => Ok f
  | ScaleStr s => float_of_str s
  end.

(** [max(0, str(scale)[::-1].find("."))] *)
Definition scale_digits (sc : scale) : Z :=
  Z.max 0 (find_char (reversed (str_of_scale sc)) ".").

(** [value * f] for a float [f]: a float, or [TypeError] for an operand
    that is no number. *)
Definition mul_float (v : value) (f : float) : res float :=
  match v with
  | PyInt z => g ← float_of_int z; Ok (fmul g f)
  | PyFloat g => Ok (fmul g f)
  | _ => Raise TypeError
  end.

(** The raw value: a fixed-length text for a data type ending in "s", a
    number otherwise. *)
Definition raw_value (payload : list Byte.byte) (d : SajR5MqttEntityDescription)
  : res value :=
  let dt := modbus_register_data_type d in
  let off := modbus_register_offset d in
  if endswith_char dt "s" then
    reg_length ← int_of_str (remove_char dt "s");
    let span := slice payload off (off + reg_length) in
    Ok (PyStr (rstrip_nul (decode_ascii_ignore span)))
  else
    vs ← Struct.unpack_from dt payload off;
    match vs with
    | [v] => Ok v
    | _ => Raise ValueError
    end.

(** The body of [if description.modbus_register_scale is not None:]. *)
Definition apply_scale (v : value) (sc : scale) : res value :=
  let digits := scale_digits sc in
  f ← float_of_scale sc;
  x ← mul_float v f;
  r ← round_float x digits;
  match sc with
  | ScaleStr _ => Ok (PyStr (format_fixed r digits))
  | ScaleFloat _ => Ok (PyFloat r)
  end.

(** The body of the [try] block of [get_entity_description]. *)
Definition decode (payload : list Byte.byte) (d : SajR5MqttEntityDescription)
  : res value :=
  v ← raw_value payload d;
  v ← match modbus_register_scale d with
      | Some sc => apply_scale v sc
      | None => Ok v
      end;
  match value_fn d with
  | Some fn => fn v
  | None => Ok v
  end.

Definition unable_to_get_value (d : SajR5MqttEntityDescription) (e : exn)
  : Log.record :=
  Log.mk Log.ERROR ("Unable to get value for " ++ key d) (Some e).

(** [except Exception as e]: every exception of the model is caught. *)
Definition get_entity_description
  (payload : option (list Byte.byte)) (d : SajR5MqttEntityDescription)
  : logged value :=
  match payload with
  | None => (Ok PyNone, [])
  | Some p =>
      match decode p d with
      | Ok v => (Ok v, [])
      | Raise e => (Ok PyNone, [unable_to_get_value d e])
      end
  end.

End Entity.

(* ===================================================================== *)
(** * [datetime.datetime] *)
(* ===================================================================== *)

Module Datetime.

Record datetime : Type := mk {
  year : Z;
  month : Z;
  day : Z;
  hour : Z;
  minute : Z;
  second : Z;
  tzinfo : option string
}.

Definition MINYEAR : Z := 1.
Definition MAXYEAR : Z := 9999.

Definition is_leap (y : Z) : bool :=
  (y mod 4 =? 0) && (negb (y mod 100 =? 0) || (y mod 400 =? 0)).

Definition days_in_month (y m : Z) : Z :=
  if m =? 2 then (if is_leap y then 29 else 28)
  else if (m =? 4) || (m =? 6) || (m =? 9) || (m =? 11) then 30
  else 31.

Definition between (lo x hi : Z) : bool := (lo <=? x) && (x <=? hi).

(** The checks of the constructor, in its order: date fields, then time
    fields. *)
Definition fields_ok (y mo d h mi s : Z) : bool :=
  between MINYEAR y MAXYEAR && between 1 mo 12
  && between 1 d (days_in_month y mo)
  && between 0 h 23 && between 0 mi 59 && between 0 s 59.

(** [datetime(y, mo, d, h, mi, s)]: naive, or [ValueError]. *)
Definition new (y mo d h mi s : Z) : res datetime :=
  if fields_ok y mo d h mi s then Ok (mk y mo d h mi s None)
  else Raise ValueError.

(** [dt.replace(tzinfo=ZoneInfo(zone))] *)
Definition replace_tzinfo (dt : datetime) (zone : string) : datetime :=
  mk (year dt) (month dt) (day dt) (hour dt) (minute dt) (second dt) (Some zone).

End Datetime.

(* ===================================================================== *)
(** * sensor.py *)
(* ===================================================================== *)

Module Sensor.

Import Entity.

(** [SajR5MqttSensorEntity.native_value] *)
Definition native_value
  (data : option (list Byte.byte)) (d : SajR5MqttEntityDescription)
  : logged value :=
  match data with
  | None => (Ok PyNone, [])
  | Some _ => get_entity_description data d
  end.

(** [l[i]] for [0 <= i]. *)
Definition getitem (l : list Byte.byte) (i : nat) : res Z :=
  match l !! i with
  | Some b => Ok (Z.of_N (Byte.to_N b))
  | None => Raise IndexError
  end.

(** The body of the [try] block of
    [SajR5MqttInverterTimeSensorEntity.native_value]. *)
Definition inverter_time (data : list Byte.byte) (d : SajR5MqttEntityDescription)
  : res (option Datetime.datetime) :=
  let offset := modbus_register_offset d in
  let time_data := slice data offset (offset + 8) in
  if (length time_data <? 8)%nat then Ok None
  else
    b0 ← getitem time_data 0;
    b1 ← getitem time_data 1;
    let year := Z.lor (Z.shiftl b0 8) b1 in
    month ← getitem time_data 2;
    day ← getitem time_data 3;
    hour ← getitem time_data 4;
    minute ← getitem time_data 5;
    second ← getitem time_data 6;
    dt ← Datetime.new year month day hour minute second;
    Ok (Some (Datetime.replace_tzinfo dt "UTC")).

Definition failed_to_parse (e : exn) : Log.record :=
  Log.mk Log.WARNING "Failed to parse inverter time" (Some e).

(** [SajR5MqttInverterTimeSensorEntity.native_value]:
    [except (ValueError, IndexError)] catches these two and lets every
    other exception through. *)
Definition inverter_time_native_value
  (data : option (list Byte.byte)) (d : SajR5MqttEntityDescription)
  : logged (option Datetime.datetime) :=
  match data with
  | None => (Ok None, [])
  | Some p =>
      match inverter_time p d with
      | Ok v => (Ok v, [])
      | Raise ValueError => (Ok None, [failed_to_parse ValueError])
      | Raise IndexError => (Ok None, [failed_to_parse IndexError])
      | Raise e => (Raise e, [])
      end
  end.

(** [lambda x: x.rstrip("\x00")], the [value_fn] of the text descriptors
    [serial_number] and [product_code]. *)
Definition rstrip_fn (x : value) : res value :=
  match x with
  | PyStr s => Ok (PyStr (rstrip_nul s))
  | PyBytes _ => Raise TypeError
  | _ => Raise (OtherError "AttributeError")
  end.

(** [serial_number] of [SAJ_INVERTER_DATA_SENSOR_DESCRIPTIONS]. *)
Definition serial_number : SajR5MqttEntityDescription :=
  {| key := "serial_number";
     modbus_register_offset := 0x6;
     modbus_register_data_type := "20s";
     modbus_register_scale := None;
     value_fn := Some rstrip_fn |}.

(** The descriptor [async_setup_entry] builds for the inverter time. *)
Definition inverter_time_description : SajR5MqttEntityDescription :=
  {| key := "inverter_time";
     modbus_register_offset := 0x6E;
     modbus_register_data_type := "8s";
     modbus_register_scale := None;
     value_fn := None |}.

End Sensor.

(* ===================================================================== *)
(** * The mqtt client, as its callers see it *)
(* ===================================================================== *)

Module Client.

(** client.py is not among the sources.  Its callers use two awaited
    methods: [read_registers(start, count)], whose result the coordinators
    return as [bytearray | None], and [write_register(register, value)],
    whose result number.py compares with [None].  A client is any state
    type with these two operations; each returns, or raises, and leaves a
    new client state. *)
Class MqttClient (C : Type) : Type := {
  read_registers : Z -> Z -> C -> res (option (list Byte.byte)) * C;
  write_register : Z -> Z -> C -> res (option Z) * C
}.

(** The calls made on the client, in order. *)
Inductive call : Type :=
  | ReadRegisters (start count : Z)
  | WriteRegister (register val : Z).

(** The client object shared by the coordinators and the entities, with
    the record of the calls it received. *)
Record world (C : Type) : Type := mkWorld {
  client : C;
  calls : list call
}.
Arguments mkWorld {C} _ _.
Arguments client {C} _.
Arguments calls {C} _.

Definition do_read {C} `{MqttClient C} (start count : Z) (w : world C)
  : res (option (list Byte.byte)) * world C :=
  let '(r, c) := read_registers start count (client w) in
  (r, mkWorld c (calls w ++ [ReadRegisters start count])).

Definition do_write {C} `{MqttClient C} (register val : Z) (w : world C)
  : res (option Z) * world C :=
  let '(r, c) := write_register register val (client w) in
  (r, mkWorld c (calls w ++ [WriteRegister register val])).

(** A client that answers from a script: the state is the list of the
    answers still to give, to reads and to writes; when one is exhausted
    the call returns [None]. *)
Record script : Type := mkScript {
  reads : list (res (option (list Byte.byte)));
  writes : list (res (option Z))
}.

#[export] Instance scripted : MqttClient script := {
  read_registers _ _ s :=
    match reads s with
    | r :: rs => (r, mkScript rs (writes s))
    | [] => (Ok None, s)
    end;
  write_register _ _ s :=
    match writes s with
    | r :: rs => (r, mkScript (reads s) rs)
    | [] => (Ok None, s)
    end
}.

End Client.

(* ===================================================================== *)
(** * coordinator.py *)
(* ===================================================================== *)

Module Coordinator.

Import Client.

(** The concrete coordinator classes coordinator.py defines. *)
Inductive kind : Type := Realtime | Inverter.

#[export] Instance kind_eq_dec : EqDecision kind.
Proof. solve_decision. Defined.

(** A coordinator: the attributes set by [__init__] ([data], [ready]),
    the interval handed to the base class, and the base class's
    [last_update_success]. *)
Record coordinator : Type := mk {
  cls : kind;
  update_interval : Z;
  data : option (list Byte.byte);
  ready : bool;
  last_update_success : bool
}.

(** [SajR5MqttDataCoordinator.__init__] *)
Definition init (k : kind) (scan_interval : Z) : coordinator :=
  mk k scan_interval None false true.

Definition set_ready (c : coordinator) (b : bool) : coordinator :=
  mk (cls c) (update_interval c) (data c) b (last_update_success c).

(** [reg_start] and [reg_count] of each class's [_async_fetch_data]. *)
Definition block (k : kind) : Z * Z :=
  match k with
  | Realtime => (0x0100, 0x38)
  | Inverter => (0x8F00, 0x1D)
  end.

Section WithClient.
Context {C : Type} `{MqttClient C}.

(** [_async_fetch_data] *)
Definition _async_fetch_data (c : coordinator) (w : world C)
  : res (option (list Byte.byte)) * world C :=
  let '(reg_start, reg_count) := block (cls c) in
  do_read reg_start reg_count w.

(** [_async_update_data] *)
Definition _async_update_data (c : coordinator) (w : world C)
  : res (option (list Byte.byte)) * world C :=
  if negb (ready c) then (Ok None, w)
  else _async_fetch_data c w.

(** Home Assistant's [DataUpdateCoordinator.async_refresh], which a
    scheduled tick runs too, as far as it handles the outcome of
    [_async_update_data]: a returned value is assigned to [data]; an
    exception leaves [data] as it is, clears [last_update_success] and is
    not raised again, except [NotImplementedError], which is. *)
Definition async_refresh (c : coordinator) (w : world C)
  : res unit * coordinator * world C :=
  let '(r, w') := _async_update_data c w in
  match r with
  | Ok d => (Ok tt, mk (cls c) (update_interval c) d (ready c) true, w')
  | Raise NotImplementedError => (Raise NotImplementedError, c, w')
  | Raise _ =>
      (Ok tt, mk (cls c) (update_interval c) (data c) (ready c) false, w')
  end.

(** [SajR5MqttData]: the dataclass of the runtime data.  The client is
    the one object every coordinator refers to; it lives in the world. *)
Record SajR5MqttData : Type := mkData {
  mqtt_client : world C;
  coordinator_realtime_data : coordinator;
  coordinator_inverter_data : option coordinator
}.

(** [mark_coordinators_ready] *)
Definition mark_coordinators_ready (s : SajR5MqttData) : SajR5MqttData :=
  mkData (mqtt_client s)
         (set_ready (coordinator_realtime_data s) true)
         (match coordinator_inverter_data s with
          | Some c => Some (set_ready c true)
          | None => None
          end).

(** [async_refresh_coordinators]: the realtime coordinator, then the
    inverter coordinator when there is one. *)
Definition async_refresh_coordinators (s : SajR5MqttData)
  : res unit * SajR5MqttData :=
  let '(r, rt, w) := async_refresh (coordinator_realtime_data s) (mqtt_client s) in
  match r, coordinator_inverter_data s with
  | Raise e, inv => (Raise e, mkData w rt inv)
  | Ok _, None => (Ok tt, mkData w rt None)
  | Ok _, Some c =>
      let '(r', c', w') := async_refresh c w in
      (r', mkData w' rt (Some c'))
  end.

(** [async_first_refresh] *)
Definition async_first_refresh (s : SajR5MqttData) : res unit * SajR5MqttData :=
  async_refresh_coordinators (mark_coordinators_ready s).

(** A scheduled tick of the coordinator of class [k]: its refresh, when
    the runtime data has such a coordinator. *)
Definition tick (k : kind) (s : SajR5MqttData) : res unit * SajR5MqttData :=
  match k with
  | Realtime =>
      let '(r, rt, w) := async_refresh (coordinator_realtime_data s) (mqtt_client s) in
      (r, mkData w rt (coordinator_inverter_data s))
  | Inverter =>
      match coordinator_inverter_data s with
      | Some c =>
          let '(r, c', w) := async_refresh c (mqtt_client s) in
          (r, mkData w (coordinator_realtime_data s) (Some c'))
      | None => (Ok tt, s)
      end
  end.

(** A run of scheduled ticks, whatever each one's outcome. *)
Fixpoint ticks (ks : list kind) (s : SajR5MqttData) : SajR5MqttData :=
  match ks with
  | [] => s
  | k :: ks' => ticks ks' (snd (tick k s))
  end.

(** The coordinator of class [k], when the runtime data has one. *)
Definition coordinator_of (k : kind) (s : SajR5MqttData) : option coordinator :=
  match k with
  | Realtime => Some (coordinator_realtime_data s)
  | Inverter => coordinator_inverter_data s
  end.

(** No coordinator of the runtime data is ready. *)
Definition none_ready (s : SajR5MqttData) : Prop :=
  ready (coordinator_realtime_data s) = false
  /\ forall c, coordinator_inverter_data s = Some c -> ready c = false.

End WithClient.

Arguments SajR5MqttData C : clear implicits.

End Coordinator.

(* ===================================================================== *)
(** * __init__.py *)
(* ===================================================================== *)

Module Setup.

Import Client Coordinator.

Definition CONF_SCAN_INTERVAL_REALTIME_DATA : string := "scan_interval_realtime_data".
Definition CONF_SCAN_INTERVAL_INVERTER_DATA : string := "scan_interval_inverter_data".
Definition CONF_SCAN_INTERVAL_CONFIG_DATA : string := "scan_interval_config_data".

(** The names coordinator.py binds at module level: its imports and its
    four classes. *)
Definition coordinator_py : list string :=
  [ "annotations"; "ABC"; "abstractmethod"; "dataclass"; "timedelta";
    "HomeAssistant"; "DataUpdateCoordinator"; "SajR5MqttClient"; "DOMAIN";
    "LOGGER"; "log_hex";
    "SajR5MqttData"; "SajR5MqttDataCoordinator";
    "SajR5MqttRealtimeDataCoordinator"; "SajR5MqttInverterDataCoordinator" ].

(** [from .coordinator import (...)] of __init__.py. *)
Definition imported_from_coordinator : list string :=
  [ "SajR5MqttConfigDataCoordinator"; "SajR5MqttData";
    "SajR5MqttInverterDataCoordinator"; "SajR5MqttRealtimeDataCoordinator" ].

(** [from module import names]: [ImportError] for a name the module does
    not bind. *)
Definition import_from (module_names wanted : list string) : res unit :=
  if forallb (fun n => bool_decide (n ∈ module_names)) wanted
  then Ok tt else Raise ImportError.

(** The coordinator class a name of coordinator.py stands for. *)
Definition coordinator_class (name : string) : option kind :=
  if String.eqb name "SajR5MqttRealtimeDataCoordinator" then Some Realtime
  else if String.eqb name "SajR5MqttInverterDataCoordinator" then Some Inverter
  else None.

(** A call [Name(hass, mqtt_client, scan_interval, name)] of a class
    imported from coordinator.py; a name that module does not define is
    bound by no import. *)
Definition instantiate (name : string) (scan_interval : Z) : res coordinator :=
  match coordinator_class name with
  | Some k => Ok (init k scan_interval)
  | None => Raise ImportError
  end.

Section WithClient.
Context {C : Type} `{MqttClient C}.

(** Keyword arguments of the dataclass constructor. *)
Inductive arg : Type :=
  | AClient (w : world C)
  | ACoordinator (c : option coordinator).

(** The fields the dataclass [SajR5MqttData] declares. *)
Definition SajR5MqttData_fields : list string :=
  [ "mqtt_client"; "coordinator_realtime_data"; "coordinator_inverter_data" ].

Fixpoint kwarg (k : string) (kwargs : list (string * arg)) : option arg :=
  match kwargs with
  | [] => None
  | (k', a) :: rest => if String.eqb k k' then Some a else kwarg k rest
  end.

(** [SajR5MqttData(k=v, ...)]: [TypeError] for a keyword that is no
    field, and for a missing field. *)
Definition SajR5MqttData_new (kwargs : list (string * arg))
  : res (SajR5MqttData C) :=
  if forallb (fun kv => bool_decide (fst kv ∈ SajR5MqttData_fields)) kwargs then
    match kwarg "mqtt_client" kwargs,
          kwarg "coordinator_realtime_data" kwargs,
          kwarg "coordinator_inverter_data" kwargs with
    | Some (AClient w), Some (ACoordinator (Some rt)), Some (ACoordinator inv) =>
        Ok (mkData w rt inv)
    | _, _, _ => Raise TypeError
    end
  else Raise TypeError.

(** What setup reads of [hass]: whether the MQTT integration is there,
    [hass.data[DOMAIN][MQTT_READY]], and the birth topic. *)
Record hass_t : Type := mkHass {
  mqtt_available : bool;
  mqtt_ready : bool;
  birth_topic : option string
}.

(** The config entry: the interval options in seconds, the runtime data,
    and whether a birth message subscription is pending. *)
Record entry_t : Type := mkEntry {
  options : gmap string Z;
  runtime_data : option (SajR5MqttData C);
  awaiting_birth : bool
}.

(** [timedelta(seconds=interval) if interval else None] over
    [entry.options.get(key, None)] *)
Definition optional_interval (opts : gmap string Z) (k : string) : option Z :=
  match opts !! k with
  | Some i => if i =? 0 then None else Some i
  | None => None
  end.

(** [X(...) if scan_interval else None] *)
Definition optional_coordinator (name : string) (scan_interval : option Z)
  : res (option coordinator) :=
  match scan_interval with
  | Some i => c ← instantiate name i; Ok (Some c)
  | None => Ok None
  end.

(** [async_setup_entry], with the connected client [w], up to the call
    that forwards to the platforms. *)
Definition async_setup_entry (hass : hass_t) (entry : entry_t) (w : world C)
  : res entry_t :=
  if negb (mqtt_available hass) then Raise ConfigEntryNotReady
  else
    match options entry !! CONF_SCAN_INTERVAL_REALTIME_DATA with
    | None => Raise KeyError
    | Some scan_interval_realtime_data =>
        let scan_interval_inverter_data :=
          optional_interval (options entry) CONF_SCAN_INTERVAL_INVERTER_DATA in
        let scan_interval_config_data :=
          optional_interval (options entry) CONF_SCAN_INTERVAL_CONFIG_DATA in
        rt ← instantiate "SajR5MqttRealtimeDataCoordinator"
                         scan_interval_realtime_data;
        inv ← optional_coordinator "SajR5MqttInverterDataCoordinator"
                                   scan_interval_inverter_data;
        cfg ← optional_coordinator "SajR5MqttConfigDataCoordinator"
                                   scan_interval_config_data;
        rd ← SajR5MqttData_new
               [ ("mqtt_client", AClient w);
                 ("coordinator_realtime_data", ACoordinator (Some rt));
                 ("coordinator_inverter_data", ACoordinator inv);
                 ("coordinator_config_data", ACoordinator cfg) ];
        if mqtt_ready hass || negb (bool_decide (is_Some (birth_topic hass))) then
          let '(r, rd') := async_first_refresh rd in
          _ ← r;
          Ok (mkEntry (options entry) (Some rd') false)
        else
          Ok (mkEntry (options entry) (Some rd) true)
    end.

(** Loading the integration and setting the entry up: the module-level
    imports of __init__.py run before [async_setup_entry] can be called.
    The entry as it is afterwards comes with the outcome. *)
Definition setup (hass : hass_t) (entry : entry_t) (w : world C)
  : res bool * entry_t :=
  match import_from coordinator_py imported_from_coordinator with
  | Raise e => (Raise e, entry)
  | Ok _ =>
      match async_setup_entry hass entry w with
      | Ok entry' => (Ok true, entry')
      | Raise e => (Raise e, entry)
      end
  end.

End WithClient.

Arguments entry_t C : clear implicits.
Arguments arg C : clear implicits.

End Setup.

(* ===================================================================== *)
(** * number.py *)
(* ===================================================================== *)

Module Number.

Import Client.

Record SajR5MqttNumberEntityDescription : Type := {
  key : string;
  native_min_value : Z;
  native_max_value : Z;
  native_step : Z;
  modbus_register : Z;
  value_scale : float
}.

(** The float [10.0]. *)
Definition ten : float := Eval vm_compute in float_of_decimal false 10 0.

(** The one entry of [NUMBER_TYPES]. *)
Definition power_limit : SajR5MqttNumberEntityDescription :=
  {| key := "power_limit";
     native_min_value := 0;
     native_max_value := 110;
     native_step := 1;
     modbus_register := 0x801F;
     value_scale := ten |}.

Definition NUMBER_TYPES : list SajR5MqttNumberEntityDescription := [power_limit].






End Number.

(* ===================================================================== *)
(** * The Transport Bridge *)
(* ===================================================================== *)

Module Bridge.

(** Modelled from the spec: the Transport Bridge of sections 4.2 and 5
    (client.py, which implements it, is not among the sources).  The
    bridge is a state machine over the events the spec names: a caller
    submits a request; a message arrives on the response channel; the
    deadline of the outstanding request elapses; the connection is lost;
    the bridge is torn down.  One request is in flight at a time, the
    others wait in arrival order, and the trace records what the bridge
    publishes and how each request resolves. *)

Inductive function_code : Type := Read | Write.

#[export] Instance function_code_eq_dec : EqDecision function_code.
Proof. solve_decision. Defined.

Record RequestFrame : Type := mkRequest {
  functionCode : function_code;
  registerStart : Z;
  countOrValue : Z
}.

(** A response echoes the function code, and for a write the register. *)
Record ResponseFrame : Type := mkResponse {
  echoedFunction : function_code;
  echoedRegister : Z;
  body : list Byte.byte
}.

(** A submitted request: the frame and the caller waiting on it. *)
Record request : Type := mkReq {
  caller : nat;
  frame : RequestFrame
}.

(** Modelled from the spec: the matching rule of section 4.2. *)
Definition matches (rq : RequestFrame) (m : ResponseFrame) : bool :=
  bool_decide (echoedFunction m = functionCode rq)
  && match functionCode rq with
     | Write => echoedRegister m =? registerStart rq
     | Read => true
     end.

Inductive outcome : Type :=
  | Response (m : ResponseFrame)
  | Timeout
  | TransportDown
  | Cancelled.

Inductive action : Type :=
  | Publish (r : request)
  | Resolve (r : request) (o : outcome)
  | Discard (m : ResponseFrame).

Inductive event : Type :=
  | Submit (r : request)
  | Deliver (m : ResponseFrame)
  | Deadline
  | ConnectionLost
  | Disconnect.

Record state : Type := mkState {
  in_flight : option request;
  queue : list request;
  trace : list action
}.

Definition initial : state := mkState None [] [].

(** Modelled from the spec: after a request resolves, the head of the
    queue is published and becomes the request in flight. *)
Definition start_next (q : list request) (tr : list action) : state :=
  match q with
  | [] => mkState None [] tr
  | r :: q' => mkState (Some r) q' (tr ++ [Publish r])
  end.

(** Modelled from the spec: one event of the bridge. *)
Definition step (s : state) (e : event) : state :=
  match e, in_flight s with
  | Submit r, None => start_next (queue s ++ [r]) (trace s)
  | Submit r, Some _ => mkState (in_flight s) (queue s ++ [r]) (trace s)
  | Deliver m, Some r =>
      if matches (frame r) m
      then start_next (queue s) (trace s ++ [Resolve r (Response m)])
      else mkState (in_flight s) (queue s) (trace s ++ [Discard m])
  | Deliver m, None => mkState None (queue s) (trace s ++ [Discard m])
  | Deadline, Some r => start_next (queue s) (trace s ++ [Resolve r Timeout])
  | Deadline, None => s
  | ConnectionLost, Some r =>
      mkState None []
        (trace s ++ Resolve r TransportDown
                    :: map (fun q => Resolve q TransportDown) (queue s))
  | ConnectionLost, None => s
  | Disconnect, Some r => mkState None [] (trace s ++ [Resolve r Cancelled])
  | Disconnect, None => mkState None [] (trace s)
  end.

Definition run (evs : list event) : state := fold_left step evs initial.

(** A resolution by a response is by one that matches the request. *)
Definition sound (a : action) : Prop :=
  match a with
  | Resolve r (Response m) => matches (frame r) m = true
  | _ => True
  end.

#[export] Instance RequestFrame_eq_dec : EqDecision RequestFrame.
Proof. solve_decision. Defined.
#[export] Instance request_eq_dec : EqDecision request.
Proof. solve_decision. Defined.

(** Scanning a trace for the request it leaves in flight, from the
    request in flight before it: a publish needs the slot free; a
    resolution frees the slot, and while a request is in flight only that
    request resolves.  [None] for a trace that breaks this. *)
Fixpoint scan (slot : option request) (tr : list action) : option (option request) :=
  match tr with
  | [] => Some slot
  | Publish r :: tr' =>
      match slot with
      | None => scan (Some r) tr'
      | Some _ => None
      end
  | Resolve r _ :: tr' =>
      match slot with
      | None => scan None tr'
      | Some r' => if bool_decide (r = r') then scan None tr' else None
      end
  | Discard _ :: tr' => scan slot tr'
  end.

(** What holds of every reachable state: the trace is serialized and
    leaves in flight the request the state has in flight; nothing waits
    while the slot is free; every resolution by a response matches. *)
Definition consistent (s : state) : Prop :=
  scan None (trace s) = Some (in_flight s)
  /\ (in_flight s = None -> queue s = [])
  /\ List.Forall sound (trace s).

End Bridge.

(* ===================================================================== *)
(** * The decoder, in the words of the specification *)
(* ===================================================================== *)

Module DecoderSpec.

(** The digits at the head of a text. *)
Fixpoint leading_digits (l : list ascii) : nat :=
  match l with
  | c :: l' => if is_digit c then S (leading_digits l') else O
  | [] => O
  end.

Fixpoint digits_after_point (l : list ascii) : nat :=
  match l with
  | [] => O
  | c :: l' => if ascii_eqb c "." then leading_digits l' else digits_after_point l'
  end.

(** The number of decimal digits in a textual form: the digits that
    follow its decimal point; none without a point. *)
Definition decimal_digits (text : string) : Z :=
  Z.of_nat (digits_after_point (chars text)).

(** The text before and after the first point. *)
Fixpoint split_at_point (l : list ascii) : option (list ascii * list ascii) :=
  match l with
  | [] => None
  | c :: l' =>
      if ascii_eqb c "." then Some ([], l')
      else match split_at_point l' with
           | Some (a, b) => Some (c :: a, b)
           | None => None
           end
  end.

(** Plain decimal notation: integer digits, a point, fraction digits,
    after an optional minus sign.  [Some n] for a text in it with [n]
    fraction digits. *)
Definition fraction_digits (text : string) : option nat :=
  let l := chars text in
  let unsigned :=
    match l with
    | c :: l' => if ascii_eqb c "-" then l' else l
    | [] => []
    end in
  match split_at_point unsigned with
  | Some (ip, fp) =>
      if forallb is_digit ip && forallb is_digit fp then Some (length fp)
      else None
  | None => None
  end.


(** Leap years of the proleptic Gregorian calendar. *)
Definition leap_year (y : Z) : Prop :=
  (4 | y) /\ (~ (100 | y) \/ (400 | y)).

(** The number of days of a month of a year. *)
Inductive month_days (y : Z) : Z -> Z -> Prop :=
  | days_31 (m : Z) :
      m = 1 \/ m = 3 \/ m = 5 \/ m = 7 \/ m = 8 \/ m = 10 \/ m = 12 ->
      month_days y m 31
  | days_30 (m : Z) :
      m = 4 \/ m = 6 \/ m = 9 \/ m = 11 -> month_days y m 30
  | days_29 : leap_year y -> month_days y 2 29
  | days_28 : ~ leap_year y -> month_days y 2 28.

(** The fields of a timestamp form a valid calendar date and time of day:
    a year from 1 to 9999, a month, a day of that month, and a time. *)
Definition valid_calendar_date (y mo d h mi s : Z) : Prop :=
  1 <= y <= 9999
  /\ (exists len, month_days y mo len /\ 1 <= d <= len)
  /\ 0 <= h <= 23 /\ 0 <= mi <= 59 /\ 0 <= s <= 59.

(** The number a byte holds. *)
Definition byte_val (b : Byte.byte) : Z := Z.of_N (Byte.to_N b).

(** The raw value multiplied by the scale and rounded to [n] places. *)
Definition scaled_and_rounded (raw : Z) (f : float) (n : Z) : res value :=
  x ← float_of_int raw;
  r ← round_float (fmul x f) n;
  Ok (PyFloat r).

(** The float nearest to [raw / 10 ^ places]: the product of the raw
    value and the scale [10 ^ - places], taken exactly. *)
Definition exact_scaled (raw places : Z) : value :=
  PyFloat (float_of_decimal (raw <? 0) (Z.abs raw) (- places)).

(** The raw values from -1024 to 1023. *)
Definition small_raw_values : list Z := map (fun n => Z.of_nat n - 1024) (seq 0 2048).

(** What the decoder answers for a computation of the value. *)
Definition answer (key : string) (m : res value) : logged value :=
  match m with
  | Ok v => (Ok v, [])
  | Raise e => (Ok PyNone, [Log.mk Log.ERROR ("Unable to get value for " ++ key) (Some e)])
  end.

End DecoderSpec.

(* ===================================================================== *)
(** * Sample descriptors and buffers *)
(* ===================================================================== *)

Module Samples.

Import Entity.

(** The floats [0.1] and [2.5e-05]. *)
Definition tenth : float := Eval vm_compute in float_of_decimal false 1 (-1).
Definition f_25e_6 : float := Eval vm_compute in float_of_decimal false 25 (-6).

(** [pv1_voltage] of [SAJ_REALTIME_DATA_SENSOR_DESCRIPTIONS]. *)
Definition pv1_voltage : SajR5MqttEntityDescription :=
  {| key := "pv1_voltage";
     modbus_register_offset := 0xE;
     modbus_register_data_type := ">H";
     modbus_register_scale := Some (ScaleFloat tenth);
     value_fn := None |}.

(** An unsigned 16-bit field at offset 0 with the given scale. *)
Definition u16_field (sc : option scale) : SajR5MqttEntityDescription :=
  {| key := "field";
     modbus_register_offset := 0;
     modbus_register_data_type := ">H";
     modbus_register_scale := sc;
     value_fn := None |}.


(** The floats [0.01] and [0.001]. *)
Definition hundredth : float := Eval vm_compute in float_of_decimal false 1 (-2).
Definition thousandth : float := Eval vm_compute in float_of_decimal false 1 (-3).

(** A realtime buffer of zeros with 1234 in the register of
    [pv1_voltage]. *)
Definition pv1_buffer : list Byte.byte :=
  (repeat Byte.x00 14 ++ [Byte.x04; Byte.xd2] ++ repeat Byte.x00 96)%list.

(** The float [123.4]. *)
Definition f_123_4 : float := Eval vm_compute in float_of_decimal false 1234 (-1).

(** The two bytes of 1234, big-endian. *)
Definition raw_1234 : list Byte.byte := [Byte.x04; Byte.xd2].

(** The two bytes of 1, big-endian. *)
Definition raw_1 : list Byte.byte := [Byte.x00; Byte.x01].

(** A realtime buffer of zeros up to the inverter time, then the eight
    bytes of year 2024 (0x07E8), month 13, day 1, 00:00:00. *)
Definition month_13_buffer : list Byte.byte :=
  (repeat Byte.x00 110
   ++ [Byte.x07; Byte.xe8; Byte.x0d; Byte.x01;
       Byte.x00; Byte.x00; Byte.x00; Byte.x00])%list.


(** A client whose next read fails: it returns [None]. *)
Definition next_read_null : Client.world Client.script :=
  Client.mkWorld (Client.mkScript [Ok None] []) [].


(** Runtime data as setup leaves it before the readiness signal: both
    coordinators built, none ready, a client that answers two reads. *)
Definition fresh_data : Coordinator.SajR5MqttData Client.script :=
  Coordinator.mkData
    (Client.mkWorld (Client.mkScript [Ok (Some raw_1234); Ok (Some raw_1)] []) [])
    (Coordinator.init Coordinator.Realtime 60)
    (Some (Coordinator.init Coordinator.Inverter 300)).

(** Two read requests of different callers. *)
Definition first_request : Bridge.request :=
  Bridge.mkReq 1 (Bridge.mkRequest Bridge.Read 0x0100 0x38).
Definition second_request : Bridge.request :=
  Bridge.mkReq 2 (Bridge.mkRequest Bridge.Read 0x8F00 0x1D).

(** Options with the realtime and the configuration-data intervals. *)
Definition options_with_config : gmap string Z :=
  {[ Setup.CONF_SCAN_INTERVAL_REALTIME_DATA := 60;
     Setup.CONF_SCAN_INTERVAL_CONFIG_DATA := 300 ]}.


(** [b"ABC\x00\x00"] *)
Definition abc_padded : list Byte.byte :=
  [Byte.x41; Byte.x42; Byte.x43; Byte.x00; Byte.x00].

End Samples.


(* ===================================================================== *)
(** * Text of integers and of bytes *)
(* ===================================================================== *)

Module Text.

(** [str(z)] for an [int]. *)
Definition str_of_int (z : Z) : string :=
  if z <? 0 then ("-" ++ str_of_nat (- z))%string else str_of_nat z.

(** A hexadecimal digit, in upper or in lower case. *)
Definition hex_char (upper : bool) (d : Z) : ascii :=
  if d <? 10 then digit_char d
  else ascii_of_N (Z.to_N (d - 10 + (if upper then 65 else 97))).

(** Hexadecimal digits of a natural number, most significant first. *)
Fixpoint hex_of_fuel (fuel : nat) (upper : bool) (n : Z) (acc : list ascii)
  : list ascii :=
  match fuel with
  | O => acc
  | S fuel' =>
      let acc' := hex_char upper (n mod 16) :: acc in
      if n <? 16 then acc' else hex_of_fuel fuel' upper (n / 16) acc'
  end.
Definition hex_of (upper : bool) (n : Z) : list ascii :=
  hex_of_fuel (S (Z.to_nat (Z.log2 n))) upper n [].

(** [format(z, "0<width>X")] and [format(z, "0<width>x")]: the sign, then
    zeros up to the width, then the digits. *)
Definition format_hex (upper : bool) (width : nat) (z : Z) : string :=
  let sign := if z <? 0 then ["-"%char] else [] in
  let ds := hex_of upper (Z.abs z) in
  str_of (sign ++ zeros (width - length sign - length ds) ++ ds)%list.

Definition quote1 : ascii := "'".
Definition quote2 : ascii := ascii_of_N 34.
Definition backslash : ascii := "\".

(** One byte in the [repr] of a bytes object. *)
Definition repr_byte (quote : ascii) (b : Byte.byte) : list ascii :=
  let c := ascii_of_byte b in
  let n := Byte.to_N b in
  if ascii_eqb c quote || ascii_eqb c backslash then [backslash; c]
  else if (n =? 9)%N then [backslash; "t"%char]
  else if (n =? 10)%N then [backslash; "n"%char]
  else if (n =? 13)%N then [backslash; "r"%char]
  else if ((n <? 32) || (127 <=? n))%N then
    [backslash; "x"%char; hex_char false (Z.of_N n / 16);
     hex_char false (Z.of_N n mod 16)]
  else [c].

(** [repr(b)] for a bytes object. *)
Definition repr_bytes (bs : list Byte.byte) : string :=
  let has q := existsb (fun b => ascii_eqb (ascii_of_byte b) q) bs in
  let quote := if has quote1 && negb (has quote2) then quote2 else quote1 in
  str_of ("b"%char :: quote :: concat (map (repr_byte quote) bs) ++ [quote])%list.

(** [str(x)], as an f-string renders a value. *)
Definition str_of_value (x : value) : string :=
  match x with
  | PyNone => "None"
  | PyInt z => str_of_int z
  | PyFloat f => str_of_float f
  | PyStr s => s
  | PyBytes b => repr_bytes b
  end.

(** White space of strings over the code points below 256. *)
Definition is_space (c : ascii) : bool :=
  let n := N_of_ascii c in
  (((9 <=? n) && (n <=? 13)) || ((28 <=? n) && (n <=? 32))
   || (n =? 133) || (n =? 160))%N.
Fixpoint lstrip (l : list ascii) : list ascii :=
  match l with
  | x :: l' => if is_space x then lstrip l' else l
  | [] => []
  end.
Definition strip (l : list ascii) : list ascii := rev (lstrip (rev (lstrip l))).

(** The value of a digit in a base up to 36, when it is one. *)
Definition digit_in (base : Z) (c : ascii) : option Z :=
  let n := Z.of_N (N_of_ascii c) in
  let d := if (48 <=? n) && (n <=? 57) then n - 48
           else if (97 <=? n) && (n <=? 122) then n - 87
           else if (65 <=? n) && (n <=? 90) then n - 55
           else 36 in
  if d <? base then Some d else None.

(** Digits with single underscores between them: their value, or [None]
    when the text is not of this form.  [seen] tells whether a digit has
    been read; [after_underscore] whether the last character was one. *)
Fixpoint digits_in (base : Z) (l : list ascii) (acc : Z)
         (seen after_underscore : bool) : option Z :=
  match l with
  | [] => if seen && negb after_underscore then Some acc else None
  | c :: l' =>
      if ascii_eqb c "_" then
        if seen && negb after_underscore then digits_in base l' acc seen true
        else None
      else
        match digit_in base c with
        | Some d => digits_in base l' (base * acc + d) true false
        | None => None
        end
  end.

(** [int(s, 16)] and [int(s)]: white space around, a sign, for base 16
    an optional prefix [0x] or [0X] that one underscore may follow, then
    digits with single underscores between them. *)
Definition int_base (base : Z) (s : string) : res Z :=
  let '(neg, l) := read_sign (strip (chars s)) in
  let body :=
    match l with
    | z :: x :: l' =>
        if (base =? 16) && ascii_eqb z "0"
           && (ascii_eqb x "x" || ascii_eqb x "X") then
          match l' with
          | u :: l'' => if ascii_eqb u "_" then l'' else l'
          | [] => []
          end
        else l
    | _ => l
    end in
  match digits_in base body 0 false false with
  | Some n => Ok (if neg then - n else n)
  | None => Raise ValueError
  end.


End Text.

(* ===================================================================== *)
(** * sensor.py: the descriptor tables and the platform setup *)
(* ===================================================================== *)

Module SensorTables.

Import Entity Client Coordinator.

(** [WorkingMode] of const.py. *)
Inductive WorkingMode : Type := WAIT | NORMAL | FAULT | UPDATE.

Definition WorkingMode_value (m : WorkingMode) : Z :=
  match m with WAIT => 1 | NORMAL => 2 | FAULT => 3 | UPDATE => 4 end.

Definition WorkingMode_name (m : WorkingMode) : string :=
  match m with
  | WAIT => "WAIT" | NORMAL => "NORMAL" | FAULT => "FAULT" | UPDATE => "UPDATE"
  end.

Definition WorkingMode_members : list WorkingMode := [WAIT; NORMAL; FAULT; UPDATE].

(** Whether a value equals an [int], as [==] compares them. *)
Definition equals_int (x : value) (k : Z) : bool :=
  match x with
  | PyInt z => z =? k
  | PyFloat f => SFeqb f (binary_normalize prec emax k 0 false)
  | _ => false
  end.

(** [lambda x: WorkingMode(x).name if x in [e.value for e in WorkingMode]
    else f"UNKNOWN_{x}"] *)
Definition working_mode_fn (x : value) : res value :=
  match List.find (fun m => equals_int x (WorkingMode_value m)) WorkingMode_members with
  | Some m => Ok (PyStr (WorkingMode_name m))
  | None => Ok (PyStr ("UNKNOWN_" ++ Text.str_of_value x))
  end.

(** [lambda x: f"0x{x:04X}"] *)
Definition hex4_fn (x : value) : res value :=
  match x with
  | PyInt z => Ok (PyStr ("0x" ++ Text.format_hex true 4 z))
  | PyFloat _ => Raise ValueError
  | PyStr _ => Raise ValueError
  | PyNone => Raise TypeError
  | PyBytes _ => Raise TypeError
  end.

(** [lambda x: f"{(x >> 8) & 0xFF}.{x & 0xFF}"] *)
Definition version_fn (x : value) : res value :=
  match x with
  | PyInt z =>
      Ok (PyStr (Text.str_of_int (Z.land (Z.shiftr z 8) 0xFF) ++ "."
                 ++ Text.str_of_int (Z.land z 0xFF)))
  | _ => Raise TypeError
  end.

(** The float [1.0]. *)
Definition one : float := Eval vm_compute in float_of_decimal false 1 0.

Definition mk := Build_SajR5MqttEntityDescription.

Definition SAJ_REALTIME_DATA_SENSOR_DESCRIPTIONS : list SajR5MqttEntityDescription :=
  [ mk "inverter_working_mode" 0x0 ">H" (None) (Some working_mode_fn);
    mk "pv1_voltage" 0xE ">H" (Some (ScaleFloat Samples.tenth)) (None);
    mk "pv1_current" 0x10 ">H" (Some (ScaleFloat Samples.hundredth)) (None);
    mk "pv1_power" 0x12 ">H" (Some (ScaleFloat one)) (None);
    mk "pv2_voltage" 0x14 ">H" (Some (ScaleFloat Samples.tenth)) (None);
    mk "pv2_current" 0x16 ">H" (Some (ScaleFloat Samples.hundredth)) (None);
    mk "pv2_power" 0x18 ">H" (Some (ScaleFloat one)) (None);
    mk "pv3_voltage" 0x1A ">H" (Some (ScaleFloat Samples.tenth)) (None);
    mk "pv3_current" 0x1C ">H" (Some (ScaleFloat Samples.hundredth)) (None);
    mk "pv3_power" 0x1E ">H" (Some (ScaleFloat one)) (None);
    mk "bus_voltage" 0x20 ">H" (Some (ScaleFloat Samples.tenth)) (None);
    mk "inverter_temperature" 0x22 ">h" (Some (ScaleFloat Samples.tenth)) (None);
    mk "gfci" 0x24 ">H" (Some (ScaleFloat one)) (None);
    mk "total_power" 0x26 ">H" (Some (ScaleFloat one)) (None);
    mk "reactive_power" 0x28 ">h" (Some (ScaleFloat one)) (None);
    mk "power_factor" 0x2A ">h" (Some (ScaleFloat Samples.tenth)) (None);
    mk "l1_voltage" 0x2C ">H" (Some (ScaleFloat Samples.tenth)) (None);
    mk "l1_current" 0x2E ">h" (Some (ScaleFloat Samples.hundredth)) (None);
    mk "l1_frequency" 0x30 ">H" (Some (ScaleFloat Samples.hundredth)) (None);
    mk "l1_dci" 0x32 ">h" (Some (ScaleFloat Samples.thousandth)) (None);
    mk "l1_power" 0x34 ">h" (Some (ScaleFloat one)) (None);
    mk "l1_power_factor" 0x36 ">h" (Some (ScaleFloat Samples.tenth)) (None);
    mk "l2_voltage" 0x38 ">H" (Some (ScaleFloat Samples.tenth)) (None);
    mk "l2_current" 0x3A ">h" (Some (ScaleFloat Samples.hundredth)) (None);
    mk "l2_frequency" 0x3C ">H" (Some (ScaleFloat Samples.hundredth)) (None);
    mk "l2_dci" 0x3E ">h" (Some (ScaleFloat Samples.thousandth)) (None);
    mk "l2_power" 0x40 ">h" (Some (ScaleFloat one)) (None);
    mk "l2_power_factor" 0x42 ">h" (Some (ScaleFloat Samples.tenth)) (None);
    mk "l3_voltage" 0x44 ">H" (Some (ScaleFloat Samples.tenth)) (None);
    mk "l3_current" 0x46 ">h" (Some (ScaleFloat Samples.hundredth)) (None);
    mk "l3_frequency" 0x48 ">H" (Some (ScaleFloat Samples.hundredth)) (None);
    mk "l3_dci" 0x4A ">h" (Some (ScaleFloat Samples.thousandth)) (None);
    mk "l3_power" 0x4C ">h" (Some (ScaleFloat one)) (None);
    mk "l3_power_factor" 0x4E ">h" (Some (ScaleFloat Samples.tenth)) (None);
    mk "iso1" 0x50 ">H" (Some (ScaleFloat one)) (None);
    mk "iso2" 0x52 ">H" (Some (ScaleFloat one)) (None);
    mk "iso3" 0x54 ">H" (Some (ScaleFloat one)) (None);
    mk "iso4" 0x56 ">H" (Some (ScaleFloat one)) (None);
    mk "today_pv_energy" 0x58 ">H" (Some (ScaleFloat Samples.hundredth)) (None);
    mk "month_pv_energy" 0x5A ">I" (Some (ScaleFloat Samples.hundredth)) (None);
    mk "year_pv_energy" 0x5E ">I" (Some (ScaleFloat Samples.hundredth)) (None);
    mk "total_pv_energy" 0x62 ">I" (Some (ScaleFloat Samples.hundredth)) (None);
    mk "today_hours" 0x66 ">H" (Some (ScaleFloat Samples.tenth)) (None);
    mk "total_hours" 0x68 ">I" (Some (ScaleFloat Samples.tenth)) (None);
    mk "error_count" 0x6C ">H" (None) (None) ].

Definition SAJ_INVERTER_DATA_SENSOR_DESCRIPTIONS : list SajR5MqttEntityDescription :=
  [ mk "device_type" 0x0 ">H" (None) (Some hex4_fn);
    mk "sub_type" 0x2 ">H" (None) (Some hex4_fn);
    mk "protocol_version" 0x4 ">H" (None) (Some version_fn);
    mk "serial_number" 0x6 "20s" (None) (Some Sensor.rstrip_fn);
    mk "product_code" 0x1A "20s" (None) (Some Sensor.rstrip_fn);
    mk "display_software_version" 0x2E ">H" (None) (Some version_fn);
    mk "master_ctrl_software_version" 0x30 ">H" (None) (Some version_fn);
    mk "slave_ctrl_software_version" 0x32 ">H" (None) (Some version_fn);
    mk "display_hardware_version" 0x34 ">H" (None) (Some version_fn);
    mk "ctrl_hardware_version" 0x36 ">H" (None) (Some version_fn);
    mk "power_hardware_version" 0x38 ">H" (None) (Some version_fn) ].

Definition SAJ_CONFIG_DATA_SENSOR_DESCRIPTIONS : list SajR5MqttEntityDescription :=
  [ mk "power_limit" 0x0 ">H" (None) (None) ].

(** [MODBUS_MAX_REGISTERS_PER_QUERY] of const.py. *)
Definition MODBUS_MAX_REGISTERS_PER_QUERY : Z := 0x64.

Definition DEVICE_TYPE_SUNTRIO_3PHASE : Z := 0x0021.
Definition DEVICE_TYPE_SUNTRIO_3PHASE_V2 : Z := 0x0023.

(** A sensor entity: the attribute of the runtime data that holds its
    coordinator, its description, and whether it is the inverter time
    sensor. *)
Record sensor : Type := mkSensor {
  coordinator_attr : string;
  description : SajR5MqttEntityDescription;
  is_time_sensor : bool
}.

Section WithClient.
Context {C : Type} `{MqttClient C}.

(** Reading a coordinator attribute of the runtime data by its name:
    [AttributeError] for a name the dataclass does not declare. *)
Definition coordinator_attribute (s : SajR5MqttData C) (name : string)
  : res (option coordinator) :=
  if String.eqb name "coordinator_realtime_data"
  then Ok (Some (coordinator_realtime_data s))
  else if String.eqb name "coordinator_inverter_data"
  then Ok (coordinator_inverter_data s)
  else Raise (OtherError "AttributeError").

(** The device type: the first word of the inverter data, when there is
    an inverter coordinator and its buffer is not empty. *)
Definition device_type (inv : option coordinator) : option Z :=
  match inv with
  | Some c =>
      match data c with
      | Some (b :: bs) => Some (Struct.be_nat (slice (b :: bs) 0 2))
      | _ => None
      end
  | None => None
  end.

(** [device_type in (DEVICE_TYPE_SUNTRIO_3PHASE, DEVICE_TYPE_SUNTRIO_3PHASE_V2)] *)
Definition is_three_phase (dt : option Z) : bool :=
  match dt with
  | Some z => (z =? DEVICE_TYPE_SUNTRIO_3PHASE) || (z =? DEVICE_TYPE_SUNTRIO_3PHASE_V2)
  | None => false
  end.

(** [description.key.startswith(("l2_", "l3_"))] *)
Definition is_l2_l3 (d : SajR5MqttEntityDescription) : bool :=
  String.prefix "l2_" (key d) || String.prefix "l3_" (key d).

(** The realtime sensors: the L2 and L3 ones only for three phases. *)
Definition realtime_sensors (three_phase : bool) : list sensor :=
  map (fun d => mkSensor "coordinator_realtime_data" d false)
      (List.filter (fun d => negb (negb three_phase && is_l2_l3 d))
                   SAJ_REALTIME_DATA_SENSOR_DESCRIPTIONS).

(** The inverter time sensor, on the realtime coordinator. *)
Definition inverter_time_sensor : sensor :=
  mkSensor "coordinator_realtime_data" Sensor.inverter_time_description true.

(** [async_setup_entry] of sensor.py: the list handed to
    [async_add_entities], when the setup gets that far. *)
Definition async_setup_entry (s : SajR5MqttData C) : res (list sensor) :=
  inv ← coordinator_attribute s "coordinator_inverter_data";
  let three_phase := is_three_phase (device_type inv) in
  let sensors := (realtime_sensors three_phase ++ [inverter_time_sensor])%list in
  inv' ← coordinator_attribute s "coordinator_inverter_data";
  let sensors :=
    match inv' with
    | Some _ =>
        (sensors ++ map (fun d => mkSensor "coordinator_inverter_data" d false)
                        SAJ_INVERTER_DATA_SENSOR_DESCRIPTIONS)%list
    | None => sensors
    end in
  cfg ← coordinator_attribute s "coordinator_config_data";
  match cfg with
  | Some _ =>
      Ok (sensors ++ map (fun d => mkSensor "coordinator_config_data" d false)
                         SAJ_CONFIG_DATA_SENSOR_DESCRIPTIONS)%list
  | None => Ok sensors
  end.

End WithClient.

(** The descriptions of all the sensors sensor.py can create: the three
    tables and the inverter time. *)
Definition all_descriptions : list SajR5MqttEntityDescription :=
  (SAJ_REALTIME_DATA_SENSOR_DESCRIPTIONS ++ [Sensor.inverter_time_description]
   ++ SAJ_INVERTER_DATA_SENSOR_DESCRIPTIONS
   ++ SAJ_CONFIG_DATA_SENSOR_DESCRIPTIONS)%list.



End SensorTables.

(* ===================================================================== *)
(** * entity.py and number.py: lookup by key, names and unique ids *)
(* ===================================================================== *)

Module Naming.

Import Entity.

Definition BRAND : string := "SAJ".
Definition MODEL_SHORT : string := "R5".

(** [get_entity_description_by_key] *)
Definition get_entity_description_by_key
  (descriptions : list SajR5MqttEntityDescription) (k : string)
  : res SajR5MqttEntityDescription :=
  match List.find (fun d => String.eqb (key d) k) descriptions with
  | Some d => Ok d
  | None => Raise ValueError
  end.

(** [c.lower()] for a code point below 256: the letters A to Z and the
    accented capitals 0xC0 to 0xDE, the multiplication sign apart. *)
Definition lower_char (c : ascii) : ascii :=
  let n := N_of_ascii c in
  if (((65 <=? n) && (n <=? 90))
      || ((192 <=? n) && (n <=? 222) && negb (n =? 215)))%N
  then ascii_of_N (n + 32) else c.

(** [s.lower()] *)
Definition str_lower (s : string) : string := str_of (map lower_char (chars s)).

(** [f"{BRAND}_{serial_number}"] *)
Definition unique_id_prefix (serial_number : string) : string :=
  (BRAND ++ "_" ++ serial_number)%string.

(** The name prefix: the serial number, or the model, by the option. *)
Definition name_prefix (serial_number : string) (use_serial_number_prefix : bool)
  : string :=
  if use_serial_number_prefix then (BRAND ++ "_" ++ serial_number)%string
  else (BRAND ++ "_" ++ MODEL_SHORT)%string.

(** [_attr_unique_id] of [SajR5MqttEntity]. *)
Definition entity_unique_id (serial_number k entity_type : string) : string :=
  str_lower (unique_id_prefix serial_number ++ "_" ++ k ++ "_" ++ entity_type)%string.

(** [_attr_name] of [SajR5MqttEntity] and of [SajR5MqttNumber]. *)
Definition entity_name (serial_number : string) (use_serial_number_prefix : bool)
           (k : string) : string :=
  str_lower (name_prefix serial_number use_serial_number_prefix ++ "_" ++ k)%string.

(** [_entity_type] of [SajR5MqttSensorEntity]. *)
Definition sensor_entity_type : string := "sensor".

(** [_attr_unique_id] of [SajR5MqttNumber]. *)
Definition number_unique_id (serial_number k : string) : string :=
  str_lower (BRAND ++ "_" ++ serial_number ++ "_" ++ k ++ "_number")%string.

(** A text that [lower] leaves as it is. *)
Definition is_lower (s : string) : bool := String.eqb (str_lower s) s.

End Naming.

(* ===================================================================== *)
(** * services.py *)
(* ===================================================================== *)

Module Services.

Import Client.

Definition DOMAIN : string := "saj_r5_mqtt".
Definition SERVICE_READ_REGISTER : string := "read_register".
Definition SERVICE_WRITE_REGISTER : string := "write_register".
Definition SERVICE_REFRESH_INVERTER_DATA : string := "refresh_inverter_data".
Definition SERVICE_REFRESH_CONFIG_DATA : string := "refresh_config_data".

Definition ServiceValidationError : exn := OtherError "ServiceValidationError".

(** [int(s, 16) if s.startswith("0x") else int(s)] *)
Definition parse_number (s : string) : res Z :=
  if String.prefix "0x" s then Text.int_base 16 s else Text.int_base 10 s.

(** The [try] block around it: [ValueError] becomes
    [ServiceValidationError]. *)
Definition validated (s : string) : res Z :=
  match parse_number s with
  | Ok z => Ok z
  | Raise ValueError => Raise ServiceValidationError
  | Raise e => Raise e
  end.

(** [attr_register_format and not attr_register_format.startswith(">")] *)
Definition bad_format (fmt : option string) : bool :=
  match fmt with
  | Some f => negb (String.eqb f "") && negb (String.prefix ">" f)
  | None => false
  end.

(** Whether a format is given: [None] and the empty string are not. *)
Definition given_format (fmt : option string) : option string :=
  match fmt with
  | Some f => if String.eqb f "" then None else Some f
  | None => None
  end.

(** [":".join(f"{b:02x}" for b in content)] *)
Fixpoint render_bytes (content : list Byte.byte) : string :=
  match content with
  | [] => ""
  | [b] => Text.format_hex false 2 (Z.of_N (Byte.to_N b))
  | b :: rest =>
      (Text.format_hex false 2 (Z.of_N (Byte.to_N b)) ++ ":" ++ render_bytes rest)%string
  end.

Section WithClient.
Context {C : Type} `{MqttClient C}.

(** The handler [read_register], from the validation of its input on,
    with the client of the entry it found: the ["value"] of the
    response.  A read that returns [None] makes [unpack_from], after it
    has accepted the format, and the rendering loop raise [TypeError]. *)
Definition read_register
  (attr_register attr_register_size : string) (attr_register_format : option string)
  (w : world C) : res string * world C :=
  match validated attr_register with
  | Raise e => (Raise e, w)
  | Ok register_start =>
      match validated attr_register_size with
      | Raise e => (Raise e, w)
      | Ok register_size =>
          if bad_format attr_register_format then (Raise ServiceValidationError, w)
          else
            let '(r, w') := do_read register_start register_size w in
            match r, given_format attr_register_format with
            | Raise e, _ => (Raise e, w')
            | Ok None, Some f =>
                match Struct.parse_format f with
                | Ok _ => (Raise TypeError, w')
                | Raise e => (Raise e, w')
                end
            | Ok None, None => (Raise TypeError, w')
            | Ok (Some content), Some f =>
                match Struct.unpack_from f content 0 with
                | Ok [v] => (Ok (Text.str_of_value v), w')
                | Ok _ => (Raise ValueError, w')
                | Raise e => (Raise e, w')
                end
            | Ok (Some content), None => (Ok (render_bytes content), w')
            end
      end
  end.

(** The handler [write_register], from the validation of its input on:
    the result of the client's write is not looked at. *)
Definition write_register
  (attr_register attr_register_value : string) (w : world C)
  : res unit * world C :=
  match validated attr_register with
  | Raise e => (Raise e, w)
  | Ok register =>
      match validated attr_register_value with
      | Raise e => (Raise e, w)
      | Ok val =>
          let '(r, w') := do_write register val w in
          match r with
          | Raise e => (Raise e, w')
          | Ok _ => (Ok tt, w')
          end
      end
  end.

End WithClient.

(** The states of a config entry. *)
Inductive ConfigEntryState : Type :=
  | LOADED | SETUP_ERROR | MIGRATION_ERROR | SETUP_RETRY | NOT_LOADED
  | FAILED_UNLOAD | SETUP_IN_PROGRESS | UNLOAD_IN_PROGRESS.

#[export] Instance ConfigEntryState_eq_dec : EqDecision ConfigEntryState.
Proof. solve_decision. Defined.

Record ConfigEntry : Type := mkConfigEntry {
  entry_id : string;
  domain : string;
  state : ConfigEntryState
}.

(** [hass.config_entries.async_get_entry(entry_id)]: the entry of that
    id, of whatever domain. *)
Definition async_get_entry (entries : list ConfigEntry) (id : option string)
  : option ConfigEntry :=
  match id with
  | Some i => List.find (fun e => String.eqb (entry_id e) i) entries
  | None => None
  end.

(** [hass.config_entries.async_entries(domain)] *)
Definition async_entries (entries : list ConfigEntry) (dom : string)
  : list ConfigEntry :=
  List.filter (fun e => String.eqb (domain e) dom) entries.

(** [_get_config_entry] *)
Definition _get_config_entry (entries : list ConfigEntry) (id : option string)
  : res ConfigEntry :=
  entry ← match async_get_entry entries id with
          | Some e => Ok e
          | None =>
              match async_entries entries DOMAIN with
              | [] => Raise ServiceValidationError
              | e :: _ => Ok e
              end
          end;
  if bool_decide (state entry = LOADED) then Ok entry
  else Raise ServiceValidationError.

(** [hass.services]: the handler registered under a domain and a name. *)
Definition registry : Type := gmap (string * string) string.

Definition has_service (r : registry) (dom name : string) : bool :=
  bool_decide (is_Some (r !! (dom, name))).

(** [if not has_service: async_register] *)
Definition register_once (dom name handler : string) (r : registry) : registry :=
  if has_service r dom name then r else <[(dom, name) := handler]> r.

(** [async_register_services] *)
Definition async_register_services (r : registry) : registry :=
  register_once DOMAIN SERVICE_REFRESH_INVERTER_DATA "refresh_inverter_data"
    (register_once DOMAIN SERVICE_WRITE_REGISTER "write_register"
       (register_once DOMAIN SERVICE_READ_REGISTER "read_register" r)).

(** [async_remove_services] *)
Definition async_remove_services (r : registry) : registry :=
  delete (DOMAIN, SERVICE_REFRESH_INVERTER_DATA)
    (delete (DOMAIN, SERVICE_WRITE_REGISTER)
       (delete (DOMAIN, SERVICE_READ_REGISTER) r)).

(** The byte two hexadecimal digits denote. *)
Definition byte_of_hex (c1 c2 : ascii) : option Byte.byte :=
  match Text.digit_in 16 c1, Text.digit_in 16 c2 with
  | Some h, Some l => Byte.of_N (Z.to_N (16 * h + l))
  | _, _ => None
  end.

(** Reading a rendering back: pairs of digits with colons between. *)
Fixpoint parse_rendered (fuel : nat) (l : list ascii) : option (list Byte.byte) :=
  match fuel, l with
  | _, [] => Some []
  | S fuel', [c1; c2] =>
      match byte_of_hex c1 c2 with
      | Some b => Some [b]
      | None => None
      end
  | S fuel', c1 :: c2 :: colon :: rest =>
      if ascii_eqb colon ":" then
        match byte_of_hex c1 c2, parse_rendered fuel' rest with
        | Some b, Some bs => Some (b :: bs)
        | _, _ => None
        end
      else None
  | _, _ => None
  end.

End Services.

(* ===================================================================== *)
(** * __init__.py: the birth message *)
(* ===================================================================== *)

Module Birth.

Import Client Coordinator Setup.

Section WithClient.
Context {C : Type} `{MqttClient C}.

(** [on_message] of [async_first_refresh_on_mqtt_birth_message], for a
    message on the birth topic: it runs while the subscription stands;
    it marks mqtt ready, triggers the first refresh and then
    unsubscribes. *)
Definition on_birth_message (hass : hass_t) (entry : entry_t C)
  : res unit * hass_t * entry_t C :=
  if negb (awaiting_birth entry) then (Ok tt, hass, entry)
  else
    let hass' := mkHass (mqtt_available hass) true (birth_topic hass) in
    match runtime_data entry with
    | None => (Raise (OtherError "AttributeError"), hass', entry)
    | Some rd =>
        let '(r, rd') := async_first_refresh rd in
        match r with
        | Raise e => (Raise e, hass', mkEntry (options entry) (Some rd') true)
        | Ok _ => (Ok tt, hass', mkEntry (options entry) (Some rd') false)
        end
    end.

(** [_get_birth_message_topic], over the mqtt configuration: [None] for
    a missing key. *)
Definition _get_birth_message_topic (conf : gmap string (gmap string string))
  : option string :=
  match conf !! "birth_message" with
  | Some birth => birth !! "topic"
  | None => None
  end.

End WithClient.

End Birth.
(* ===================================================================== *)
(** * The register decoder *)
(* ===================================================================== *)

Import Entity Client.
Local Open Scope list_scope.

(** The literals [0.1] and [2.5e-05] denote the sample floats, and print
    as Python prints them. *)
Lemma tenth_literal :
  float_of_str "0.1" = Ok Samples.tenth /\ str_of_float Samples.tenth = "0.1".
Proof. split; vm_compute; reflexivity. Qed.

Lemma f_25e_6_literal :
  float_of_str "2.5e-05" = Ok Samples.f_25e_6
  /\ str_of_float Samples.f_25e_6 = "2.5e-05".
Proof. split; vm_compute; reflexivity. Qed.

(** C2, as the code has it: for a descriptor whose scale is the string
    "0.10" and a buffer whose raw value at the descriptor's offset is 1234,
    the decode produces the string "123.40": two places, as many as the
    scale string has after its point. *)
Theorem string_scale_0_10_renders_123_40 :
  forall (payload : list Byte.byte) (d : SajR5MqttEntityDescription),
    modbus_register_scale d = Some (ScaleStr "0.10") ->
    value_fn d = None ->
    raw_value payload d = Ok (PyInt 1234) ->
    get_entity_description (Some payload) d = (Ok (PyStr "123.40"), []).
Proof.
  intros payload d Hscale Hfn Hraw.
  unfold get_entity_description, decode.
  rewrite Hraw, Hscale, Hfn.
  vm_compute. reflexivity.
Qed.

Lemma string_scale_0_10_renders_123_40_witness :
  raw_value Samples.raw_1234 (Samples.u16_field (Some (ScaleStr "0.10")))
    = Ok (PyInt 1234)
  /\ get_entity_description (Some Samples.raw_1234)
       (Samples.u16_field (Some (ScaleStr "0.10")))
     = (Ok (PyStr "123.40"), []).
Proof.
  split.
  - vm_compute; reflexivity.
  - apply (string_scale_0_10_renders_123_40 Samples.raw_1234
             (Samples.u16_field (Some (ScaleStr "0.10"))));
      vm_compute; reflexivity.
Defined.

(** C2, as the spec states it, fails: on the sample field with scale
    "0.10" and raw value 1234 the decode is not the string "123.4". *)
Lemma string_scale_0_10_is_not_123_4 :
  raw_value Samples.raw_1234 (Samples.u16_field (Some (ScaleStr "0.10")))
    = Ok (PyInt 1234)
  /\ fst (get_entity_description (Some Samples.raw_1234)
            (Samples.u16_field (Some (ScaleStr "0.10"))))
     <> Ok (PyStr "123.4").
Proof.
  split.
  - vm_compute; reflexivity.
  - vm_compute. intros Heq. discriminate Heq.
Qed.

(** ** Digits of a numeric scale *)

Lemma chars_str_of (l : list ascii) : chars (str_of l) = l.
Proof. apply list_ascii_of_string_of_list_ascii. Qed.

Lemma str_of_chars (s : string) : str_of (chars s) = s.
Proof. apply string_of_list_ascii_of_string. Qed.

Lemma is_digit_not_point (c : ascii) : is_digit c = true -> ascii_eqb c "." = false.
Proof.
  unfold ascii_eqb. intros Hd.
  destruct (Ascii.eqb_spec c "."%char) as [->|]; [discriminate Hd | reflexivity].
Qed.

Lemma forallb_rev {A} (f : A -> bool) (l : list A) :
  forallb f (rev l) = forallb f l.
Proof.
  induction l as [|a l IH]; simpl; [reflexivity|].
  rewrite forallb_app, IH. simpl. rewrite andb_true_r. apply andb_comm.
Qed.

(** Searching a point through digits skips them all. *)
Lemma find_from_digits (ds rest : list ascii) (i : Z) :
  forallb is_digit ds = true ->
  find_from (ds ++ "."%char :: rest) "." i = i + Z.of_nat (length ds).
Proof.
  revert i. induction ds as [|c ds IH]; intros i Hds; simpl.
  - lia.
  - simpl in Hds. apply andb_true_iff in Hds as [Hc Hds].
    rewrite (is_digit_not_point c Hc), (IH _ Hds). lia.
Qed.

Lemma split_at_point_app (l ip fp : list ascii) :
  DecoderSpec.split_at_point l = Some (ip, fp) -> l = ip ++ "."%char :: fp.
Proof.
  revert ip. induction l as [|c l IH]; intros ip; simpl; [discriminate|].
  unfold ascii_eqb. destruct (Ascii.eqb_spec c "."%char) as [->|Hc].
  - intros [= <- <-]. reflexivity.
  - destruct (DecoderSpec.split_at_point l) as [[a b]|]; [|discriminate].
    intros [= <- <-]. simpl. f_equal. apply IH. reflexivity.
Qed.

(** For a text in plain decimal notation, the code's count of the
    characters behind the last point is the number of fraction digits. *)
Lemma scale_digits_plain (sc : scale) (n : nat) :
  DecoderSpec.fraction_digits (str_of_scale sc) = Some n ->
  scale_digits sc = Z.of_nat n.
Proof.
  unfold DecoderSpec.fraction_digits, scale_digits, find_char, reversed.
  rewrite chars_str_of.
  set (l := chars (str_of_scale sc)).
  assert (Hgen : forall pre u ip fp,
             l = pre ++ u -> DecoderSpec.split_at_point u = Some (ip, fp) ->
             forallb is_digit fp = true ->
             Z.max 0 (find_from (rev l) "." 0) = Z.of_nat (length fp)).
  { intros pre u ip fp -> Hsplit Hfp.
    apply split_at_point_app in Hsplit as ->.
    rewrite !rev_app_distr. simpl. rewrite <- !app_assoc. simpl.
    rewrite find_from_digits by (rewrite forallb_rev; exact Hfp).
    rewrite length_rev. lia. }
  destruct l as [|c l'] eqn:Hl.
  - simpl. discriminate.
  - destruct (ascii_eqb c "-") eqn:Hc.
    + destruct (DecoderSpec.split_at_point l') as [[ip fp]|] eqn:Hs; [|discriminate].
      destruct (forallb is_digit ip && forallb is_digit fp) eqn:Hd; [|discriminate].
      intros [= <-]. apply andb_true_iff in Hd as [_ Hfp].
      apply (Hgen [c] l' ip fp); auto.
    + destruct (DecoderSpec.split_at_point (c :: l')) as [[ip fp]|] eqn:Hs; [|discriminate].
      destruct (forallb is_digit ip && forallb is_digit fp) eqn:Hd; [|discriminate].
      intros [= <-]. apply andb_true_iff in Hd as [_ Hfp].
      apply (Hgen [] (c :: l') ip fp); auto.
Qed.

Lemma leading_digits_all (ds : list ascii) :
  forallb is_digit ds = true -> DecoderSpec.leading_digits ds = length ds.
Proof.
  induction ds as [|c ds IH]; simpl; [reflexivity|].
  intros Hds. apply andb_true_iff in Hds as [-> Hds]. rewrite IH; auto.
Qed.

Lemma digits_after_point_plain (ip fp : list ascii) :
  forallb is_digit ip = true -> forallb is_digit fp = true ->
  DecoderSpec.digits_after_point (ip ++ "."%char :: fp) = length fp.
Proof.
  intros Hip Hfp. induction ip as [|c ip IH]; simpl.
  - apply leading_digits_all, Hfp.
  - simpl in Hip. apply andb_true_iff in Hip as [Hc Hip].
    rewrite (is_digit_not_point c Hc). apply IH, Hip.
Qed.

(** In plain decimal notation the decimal digits of a text are its
    fraction digits. *)
Lemma decimal_digits_plain (text : string) (n : nat) :
  DecoderSpec.fraction_digits text = Some n ->
  DecoderSpec.decimal_digits text = Z.of_nat n.
Proof.
  unfold DecoderSpec.fraction_digits, DecoderSpec.decimal_digits.
  destruct (chars text) as [|c l]; [discriminate|].
  destruct (ascii_eqb c "-") eqn:Hc.
  - destruct (DecoderSpec.split_at_point l) as [[ip fp]|] eqn:Hs; [|discriminate].
    destruct (forallb is_digit ip && forallb is_digit fp) eqn:Hd; [|discriminate].
    intros [= <-]. apply andb_true_iff in Hd as [Hip Hfp].
    apply split_at_point_app in Hs as ->.
    cbn [DecoderSpec.digits_after_point].
    assert (ascii_eqb c "." = false) as ->.
    { unfold ascii_eqb in *. apply Ascii.eqb_eq in Hc as ->. reflexivity. }
    f_equal. apply digits_after_point_plain; assumption.
  - destruct (DecoderSpec.split_at_point (c :: l)) as [[ip fp]|] eqn:Hs; [|discriminate].
    destruct (forallb is_digit ip && forallb is_digit fp) eqn:Hd; [|discriminate].
    intros [= <-]. apply andb_true_iff in Hd as [Hip Hfp].
    apply split_at_point_app in Hs as ->.
    f_equal. apply digits_after_point_plain; assumption.
Qed.

(** The decode of a number under a float scale: the product rounded to
    the digits the code counts. *)
Lemma decode_float_scale
  (payload : list Byte.byte) (d : SajR5MqttEntityDescription) (raw : Z) (f : float) :
  raw_value payload d = Ok (PyInt raw) ->
  modbus_register_scale d = Some (ScaleFloat f) ->
  value_fn d = None ->
  get_entity_description (Some payload) d
  = DecoderSpec.answer (key d)
      (DecoderSpec.scaled_and_rounded raw f (scale_digits (ScaleFloat f))).
Proof.
  intros Hraw Hscale Hfn.
  unfold get_entity_description, decode, DecoderSpec.answer,
    DecoderSpec.scaled_and_rounded, unable_to_get_value.
  rewrite Hraw, Hscale, Hfn.
  unfold apply_scale, float_of_scale, mul_float.
  cbn [mbind res_bind bind].
  destruct (float_of_int raw) as [x|e]; cbn [mbind res_bind bind]; [|reflexivity].
  destruct (round_float (fmul x f) (scale_digits (ScaleFloat f))) as [r|e];
    reflexivity.
Qed.

(** C8, as the code has it: for a numeric descriptor whose float scale
    prints in plain decimal notation (integer digits, a point, fraction
    digits), the decoded value is the raw value multiplied by the scale and
    rounded to the number of decimal digits of that text. *)
Theorem numeric_scale_rounds_to_decimal_digits :
  forall (payload : list Byte.byte) (d : SajR5MqttEntityDescription)
         (raw : Z) (f : float) (n : nat),
    raw_value payload d = Ok (PyInt raw) ->
    modbus_register_scale d = Some (ScaleFloat f) ->
    value_fn d = None ->
    DecoderSpec.fraction_digits (str_of_float f) = Some n ->
    get_entity_description (Some payload) d
    = DecoderSpec.answer (key d)
        (DecoderSpec.scaled_and_rounded raw f
           (DecoderSpec.decimal_digits (str_of_float f))).
Proof.
  intros payload d raw f n Hraw Hscale Hfn Hplain.
  rewrite (decode_float_scale payload d raw f Hraw Hscale Hfn).
  rewrite (scale_digits_plain (ScaleFloat f) n Hplain).
  rewrite (decimal_digits_plain _ n Hplain).
  reflexivity.
Qed.

(** The example of C8: raw value 1234 with scale 0.1 decodes to 123.4. *)
Lemma numeric_scale_rounds_to_decimal_digits_witness :
  float_of_str "123.4" = Ok Samples.f_123_4
  /\ DecoderSpec.decimal_digits (str_of_float Samples.tenth) = 1
  /\ get_entity_description (Some Samples.raw_1234)
       (Samples.u16_field (Some (ScaleFloat Samples.tenth)))
     = (Ok (PyFloat Samples.f_123_4), []).
Proof.
  split; [vm_compute; reflexivity|].
  split; [vm_compute; reflexivity|].
  rewrite (numeric_scale_rounds_to_decimal_digits Samples.raw_1234
             (Samples.u16_field (Some (ScaleFloat Samples.tenth)))
             1234 Samples.tenth 1);
    vm_compute; reflexivity.
Defined.

(** For the scales 0.1, 0.01 and 0.001 of the source's descriptors and
    the raw values from -1024 to 1023, the float product rounded by
    [round] is the float nearest to the exact decimal product. *)
Lemma decimal_scales_exact_on_small_values :
  forallb (fun raw =>
             match DecoderSpec.scaled_and_rounded raw Samples.tenth 1,
                   DecoderSpec.scaled_and_rounded raw Samples.hundredth 2,
                   DecoderSpec.scaled_and_rounded raw Samples.thousandth 3,
                   DecoderSpec.exact_scaled raw 1,
                   DecoderSpec.exact_scaled raw 2,
                   DecoderSpec.exact_scaled raw 3 with
             | Ok (PyFloat a), Ok (PyFloat b), Ok (PyFloat c),
               PyFloat a', PyFloat b', PyFloat c' =>
                 float_same a a' && float_same b b' && float_same c c'
             | _, _, _, _, _, _ => false
             end)
          DecoderSpec.small_raw_values = true.
Proof. vm_compute. reflexivity. Qed.

(** [pv1_voltage] of the source on a buffer with 1234 in its register. *)
Lemma pv1_voltage_decodes :
  get_entity_description (Some Samples.pv1_buffer) Samples.pv1_voltage
  = (Ok (PyFloat Samples.f_123_4), []).
Proof. vm_compute. reflexivity. Qed.

(** C8, as the spec states it, fails for a scale that prints in exponent
    notation: 2.5e-05 has one decimal digit in its text, the code counts
    the five characters behind the point, and raw value 1 decodes to 3e-05,
    which is the product rounded neither to one place (0.0) nor to the six
    places of 0.000025 (2.5e-05). *)
Lemma exponent_notation_scale_counts_characters :
  raw_value Samples.raw_1 (Samples.u16_field (Some (ScaleFloat Samples.f_25e_6)))
    = Ok (PyInt 1)
  /\ str_of_float Samples.f_25e_6 = "2.5e-05"
  /\ DecoderSpec.decimal_digits (str_of_float Samples.f_25e_6) = 1
  /\ scale_digits (ScaleFloat Samples.f_25e_6) = 5
  /\ get_entity_description (Some Samples.raw_1)
       (Samples.u16_field (Some (ScaleFloat Samples.f_25e_6)))
     <> DecoderSpec.answer "field"
          (DecoderSpec.scaled_and_rounded 1 Samples.f_25e_6
             (DecoderSpec.decimal_digits (str_of_float Samples.f_25e_6)))
  /\ get_entity_description (Some Samples.raw_1)
       (Samples.u16_field (Some (ScaleFloat Samples.f_25e_6)))
     <> DecoderSpec.answer "field"
          (DecoderSpec.scaled_and_rounded 1 Samples.f_25e_6 6).
Proof.
  repeat split; try (vm_compute; reflexivity);
    vm_compute; intros Heq; discriminate Heq.
Qed.

(** ** Fixed-length text *)

Lemma digit_char_ok (d : Z) :
  0 <= d < 10 -> is_digit (digit_char d) = true /\ digit_val (digit_char d) = d.
Proof.
  intros Hd.
  assert (d = 0 \/ d = 1 \/ d = 2 \/ d = 3 \/ d = 4 \/ d = 5 \/ d = 6
          \/ d = 7 \/ d = 8 \/ d = 9) as Hcases by lia.
  repeat (destruct Hcases as [-> | Hcases]; [split; reflexivity|]).
  subst d. split; reflexivity.
Qed.

Lemma digits_val_app (ds1 ds2 : list ascii) (a : Z) :
  digits_val a (ds1 ++ ds2) = digits_val (digits_val a ds1) ds2.
Proof. revert a. induction ds1 as [|c ds1 IH]; intros a; simpl; auto. Qed.

(** The digits produced with enough fuel are digits and denote the
    number. *)
Lemma digits_of_fuel_ok (fuel : nat) :
  forall (n : Z) (acc : list ascii),
    0 <= n < 10 ^ Z.of_nat (S fuel) ->
    exists D,
      digits_of_fuel (S fuel) n acc = D ++ acc
      /\ D <> []
      /\ forallb is_digit D = true
      /\ forall a, digits_val a D = a * 10 ^ Z.of_nat (length D) + n.
Proof.
  induction fuel as [|fuel IH]; intros n acc Hn.
  - assert (n < 10) as Hlt by (simpl in Hn; lia).
    cbn [digits_of_fuel]. apply Z.ltb_lt in Hlt as Hb. rewrite Hb.
    destruct (digit_char_ok (n mod 10)) as [Hdig Hval];
      [apply Z.mod_pos_bound; lia|].
    exists [digit_char (n mod 10)]. repeat split.
    + discriminate.
    + simpl. rewrite Hdig. reflexivity.
    + intros a. simpl. rewrite Hval, Z.mod_small by lia. lia.
  - remember (S fuel) as f eqn:Hf.
    cbn [digits_of_fuel].
    destruct (digit_char_ok (n mod 10)) as [Hdig Hval];
      [apply Z.mod_pos_bound; lia|].
    destruct (n <? 10) eqn:Hlt.
    + apply Z.ltb_lt in Hlt.
      exists [digit_char (n mod 10)]. repeat split.
      * discriminate.
      * simpl. rewrite Hdig. reflexivity.
      * intros a. simpl. rewrite Hval, Z.mod_small by lia. lia.
    + apply Z.ltb_ge in Hlt.
      assert (0 <= n / 10 < 10 ^ Z.of_nat f) as Hdiv.
      { split; [apply Z.div_pos; lia|].
        apply Z.div_lt_upper_bound; [lia|].
        rewrite Nat2Z.inj_succ, Z.pow_succ_r in Hn by lia. lia. }
      subst f.
      destruct (IH (n / 10) (digit_char (n mod 10) :: acc) Hdiv)
        as (D & HD & Hne & Hall & Hv).
      exists (D ++ [digit_char (n mod 10)]). repeat split.
      * rewrite HD, <- app_assoc. reflexivity.
      * destruct D; discriminate.
      * rewrite forallb_app, Hall. simpl. rewrite Hdig. reflexivity.
      * intros a. rewrite digits_val_app, Hv. simpl. rewrite Hval.
        rewrite length_app. simpl length.
        replace (Z.of_nat (length D + 1)) with (Z.succ (Z.of_nat (length D))) by lia.
        rewrite Z.pow_succ_r by lia.
        pose proof (Z.div_mod n 10 ltac:(lia)). lia.
Qed.

Lemma digits_of_ok (n : Z) :
  0 <= n ->
  digits_of n <> [] /\ forallb is_digit (digits_of n) = true
  /\ digits_val 0 (digits_of n) = n.
Proof.
  intros Hn. unfold digits_of.
  destruct (digits_of_fuel_ok (Z.to_nat (Z.log2 n)) n []) as (D & HD & Hne & Hall & Hv).
  - split; [lia|].
    destruct (Z.eq_dec n 0) as [->|Hnz]; [simpl; lia|].
    assert (n < 2 ^ Z.succ (Z.log2 n)) by (apply Z.log2_spec; lia).
    pose proof (Z.log2_nonneg n).
    rewrite Nat2Z.inj_succ, Z2Nat.id by lia.
    assert (2 ^ Z.succ (Z.log2 n) <= 10 ^ Z.succ (Z.log2 n))
      by (apply Z.pow_le_mono_l; lia).
    lia.
  - rewrite HD, app_nil_r. split; [exact Hne|]. split; [exact Hall|].
    rewrite Hv. lia.
Qed.

Lemma is_digit_plain (c : ascii) :
  is_digit c = true ->
  is_space c = false /\ ascii_eqb c "-" = false /\ ascii_eqb c "+" = false
  /\ ascii_eqb c "s" = false.
Proof.
  destruct c as [[] [] [] [] [] [] [] []]; intros Hd;
    try discriminate Hd; repeat split; reflexivity.
Qed.

Lemma lstrip_space_digits (ds : list ascii) :
  forallb is_digit ds = true -> lstrip_space ds = ds.
Proof.
  destruct ds as [|c ds]; [reflexivity|]. simpl.
  intros Hds. apply andb_true_iff in Hds as [Hc _].
  destruct (is_digit_plain c Hc) as [-> _]. reflexivity.
Qed.

Lemma strip_space_digits (ds : list ascii) :
  forallb is_digit ds = true -> strip_space ds = ds.
Proof.
  intros Hds. unfold strip_space.
  rewrite (lstrip_space_digits ds Hds).
  rewrite lstrip_space_digits by (rewrite forallb_rev; exact Hds).
  apply rev_involutive.
Qed.

Lemma digitpart_more_digits (ds acc : list ascii) :
  forallb is_digit ds = true -> digitpart_more ds acc = (rev acc ++ ds, []).
Proof.
  revert acc. induction ds as [|c ds IH]; intros acc Hds; simpl.
  - rewrite app_nil_r. reflexivity.
  - simpl in Hds. apply andb_true_iff in Hds as [Hc Hds].
    rewrite Hc, (IH _ Hds). simpl. rewrite <- app_assoc. reflexivity.
Qed.

(** [int] reads a numeral back. *)
Lemma int_of_str_digits (ds : list ascii) :
  ds <> [] -> forallb is_digit ds = true ->
  int_of_str (str_of ds) = Ok (digits_val 0 ds).
Proof.
  intros Hne Hds. unfold int_of_str.
  rewrite chars_str_of, (strip_space_digits ds Hds).
  destruct ds as [|c ds]; [congruence|].
  simpl in Hds. apply andb_true_iff in Hds as [Hc Hds].
  destruct (is_digit_plain c Hc) as (_ & Hm & Hp & _).
  unfold read_sign. rewrite Hm, Hp.
  unfold digitpart. rewrite Hc, (digitpart_more_digits ds [c] Hds).
  reflexivity.
Qed.

Lemma int_of_str_of_nat (n : Z) : 0 <= n -> int_of_str (str_of_nat n) = Ok n.
Proof.
  intros Hn. destruct (digits_of_ok n Hn) as (Hne & Hall & Hval).
  unfold str_of_nat. rewrite (int_of_str_digits _ Hne Hall), Hval. reflexivity.
Qed.

Lemma chars_append (a b : string) : chars (a ++ b)%string = chars a ++ chars b.
Proof.
  unfold chars. induction a as [|c a IH]; simpl; [reflexivity|].
  rewrite IH. reflexivity.
Qed.


(** A slice from a natural offset is the span of that length there. *)
Lemma slice_span {A} (l : list A) (off n : Z) :
  0 <= off -> 0 <= n ->
  slice l off (off + n) = take (Z.to_nat n) (drop (Z.to_nat off) l).
Proof.
  intros Hoff Hn. unfold slice, clamp_index.
  assert ((off <? 0) = false) as -> by (apply Z.ltb_ge; lia).
  assert ((off + n <? 0) = false) as -> by (apply Z.ltb_ge; lia).
  set (len := Z.of_nat (length l)).
  destruct (Z_le_gt_dec len off) as [Hge|Hlt].
  - rewrite !drop_ge by lia. rewrite !take_nil. reflexivity.
  - rewrite (Z.min_l off len) by lia.
    destruct (Z_le_gt_dec (off + n) len) as [Hfit|Hover].
    + rewrite Z.min_l by lia. f_equal. lia.
    + rewrite Z.min_r by lia.
      rewrite !take_ge; [reflexivity| |]; rewrite length_drop; lia.
Qed.






(** [serial_number] of the source, with its [rstrip] conversion, on a
    buffer that holds "ABC" and padding in its twenty bytes. *)
Lemma serial_number_decodes :
  get_entity_description
    (Some (repeat Byte.x00 6 ++ Samples.abc_padded ++ repeat Byte.x00 15))
    Sensor.serial_number
  = (Ok (PyStr "ABC"), []).
Proof. vm_compute. reflexivity. Qed.


(** ** The decode boundary *)

Lemma parse_format_not_text (fmt : string) (p : Struct.byte_order * bool * nat) :
  Struct.parse_format fmt = Ok p -> endswith_char fmt "s" = false.
Proof.
  unfold Struct.parse_format, endswith_char.
  destruct (chars fmt) as [|o [|c [|x l]]]; try discriminate.
  simpl. unfold ascii_eqb at 1.
  destruct (Ascii.eqb_spec c "s"%char) as [->|]; [|reflexivity].
  destruct (Struct.order_of o); discriminate.
Qed.

(** A buffer too short for the field makes [unpack_from] raise. *)
Lemma unpack_from_short (fmt : string) (buffer : list Byte.byte) (off : Z)
      (ord : Struct.byte_order) (sg : bool) (size : nat) :
  Struct.parse_format fmt = Ok (ord, sg, size) ->
  0 <= off ->
  Z.of_nat (length buffer) < off + Z.of_nat size ->
  Struct.unpack_from fmt buffer off = Raise StructError.
Proof.
  intros Hfmt Hoff Hshort. unfold Struct.unpack_from.
  rewrite Hfmt. cbn [mbind res_bind bind]. cbv zeta.
  assert ((off <? 0) = false) as Hneg by (apply Z.ltb_ge; lia).
  assert ((Z.of_nat (length buffer) - off <? Z.of_nat size) = true) as Hlt
    by (apply Z.ltb_lt; lia).
  rewrite Hneg. cbv iota. rewrite Hneg, Hlt. reflexivity.
Qed.

Lemma decode_short_buffer (p : list Byte.byte) (d : SajR5MqttEntityDescription)
      (ord : Struct.byte_order) (sg : bool) (size : nat) :
  Struct.parse_format (modbus_register_data_type d) = Ok (ord, sg, size) ->
  0 <= modbus_register_offset d ->
  Z.of_nat (length p) < modbus_register_offset d + Z.of_nat size ->
  decode p d = Raise StructError.
Proof.
  intros Hfmt Hoff Hshort. unfold decode, raw_value.
  rewrite (parse_format_not_text _ _ Hfmt).
  rewrite (unpack_from_short _ _ _ _ _ _ Hfmt Hoff Hshort).
  reflexivity.
Qed.

(** What [get_entity_description] makes of the outcome of its [try]
    block. *)
Lemma get_entity_description_some (p : list Byte.byte) (d : SajR5MqttEntityDescription) :
  get_entity_description (Some p) d
  = match decode p d with
    | Ok v => (Ok v, [])
    | Raise e => (Ok PyNone, [unable_to_get_value d e])
    end.
Proof. reflexivity. Qed.

(** C7: the value decode is total.  It never raises; an absent buffer
    gives null without a log record; an exception raised while decoding,
    whichever it is, gives null and one error record naming it, in
    particular [struct.error] for a buffer too short for the field and the
    exception of a conversion function that rejects its value; and the
    sensor's [native_value] answers the same. *)
Theorem decode_never_raises :
  forall (payload : option (list Byte.byte)) (d : SajR5MqttEntityDescription),
    (exists v log, get_entity_description payload d = (Ok v, log))
    /\ Sensor.native_value payload d = get_entity_description payload d
    /\ (payload = None -> get_entity_description payload d = (Ok PyNone, []))
    /\ (forall p e, payload = Some p -> decode p d = Raise e ->
        get_entity_description payload d = (Ok PyNone, [unable_to_get_value d e]))
    /\ (forall p ord sg size,
        payload = Some p ->
        Struct.parse_format (modbus_register_data_type d) = Ok (ord, sg, size) ->
        0 <= modbus_register_offset d ->
        Z.of_nat (length p) < modbus_register_offset d + Z.of_nat size ->
        get_entity_description payload d
        = (Ok PyNone, [unable_to_get_value d StructError]))
    /\ (forall p v fn e,
        payload = Some p ->
        raw_value p d = Ok v ->
        modbus_register_scale d = None ->
        value_fn d = Some fn ->
        fn v = Raise e ->
        get_entity_description payload d = (Ok PyNone, [unable_to_get_value d e])).
Proof.
  intros payload d. repeat split.
  - destruct payload as [p|]; simpl.
    + destruct (decode p d) as [v|e]; eauto.
    + eauto.
  - destruct payload; reflexivity.
  - intros ->. reflexivity.
  - intros p e -> He. rewrite get_entity_description_some, He. reflexivity.
  - intros p ord sg size -> Hfmt Hoff Hshort.
    rewrite get_entity_description_some.
    rewrite (decode_short_buffer p d ord sg size Hfmt Hoff Hshort). reflexivity.
  - intros p v fn e -> Hraw Hscale Hfn He.
    rewrite get_entity_description_some. unfold decode.
    rewrite Hraw, Hscale, Hfn. cbn [mbind res_bind bind]. rewrite He.
    reflexivity.
Qed.

(** ** The inverter time *)

Lemma is_leap_spec (y : Z) : Datetime.is_leap y = true <-> DecoderSpec.leap_year y.
Proof.
  unfold Datetime.is_leap, DecoderSpec.leap_year.
  rewrite andb_true_iff, orb_true_iff, negb_true_iff.
  rewrite !Z.eqb_eq, Z.eqb_neq.
  rewrite <- !Z.mod_divide by lia. tauto.
Qed.

Lemma days_in_month_spec (y m : Z) :
  1 <= m <= 12 -> DecoderSpec.month_days y m (Datetime.days_in_month y m).
Proof.
  intros Hm. unfold Datetime.days_in_month.
  destruct (Z.eqb_spec m 2) as [->|H2].
  - destruct (Datetime.is_leap y) eqn:Hleap.
    + apply DecoderSpec.days_29, is_leap_spec, Hleap.
    + apply DecoderSpec.days_28. rewrite <- is_leap_spec, Hleap. discriminate.
  - destruct ((m =? 4) || (m =? 6) || (m =? 9) || (m =? 11)) eqn:H30.
    + apply DecoderSpec.days_30.
      rewrite !orb_true_iff, !Z.eqb_eq in H30. tauto.
    + apply DecoderSpec.days_31.
      rewrite !orb_false_iff, !Z.eqb_neq in H30. lia.
Qed.

Lemma month_days_fun (y m len : Z) :
  DecoderSpec.month_days y m len ->
  1 <= m <= 12 /\ len = Datetime.days_in_month y m.
Proof.
  intros Hmd. unfold Datetime.days_in_month.
  destruct Hmd as [m Hm | m Hm | Hleap | Hcommon].
  - split; [lia|].
    destruct (Z.eqb_spec m 2); [lia|].
    assert (((m =? 4) || (m =? 6) || (m =? 9) || (m =? 11)) = false) as ->;
      [|reflexivity].
    rewrite !orb_false_iff, !Z.eqb_neq. lia.
  - split; [lia|].
    destruct (Z.eqb_spec m 2); [lia|].
    assert (((m =? 4) || (m =? 6) || (m =? 9) || (m =? 11)) = true) as ->;
      [|reflexivity].
    rewrite !orb_true_iff, !Z.eqb_eq. tauto.
  - split; [lia|]. apply is_leap_spec in Hleap. simpl. rewrite Hleap. reflexivity.
  - split; [lia|]. simpl.
    destruct (Datetime.is_leap y) eqn:Hl; [|reflexivity].
    exfalso. apply Hcommon, is_leap_spec, Hl.
Qed.

(** The constructor's checks accept exactly the valid calendar dates. *)
Lemma fields_ok_spec (y mo d h mi s : Z) :
  Datetime.fields_ok y mo d h mi s = true
  <-> DecoderSpec.valid_calendar_date y mo d h mi s.
Proof.
  unfold Datetime.fields_ok, DecoderSpec.valid_calendar_date, Datetime.between,
    Datetime.MINYEAR, Datetime.MAXYEAR.
  rewrite !andb_true_iff, !Z.leb_le. split.
  - intros (((((Hy & Hmo) & Hd) & Hh) & Hmi) & Hs).
    repeat split; try lia.
    exists (Datetime.days_in_month y mo). split; [|lia].
    apply days_in_month_spec. lia.
  - intros (Hy & (len & Hlen & Hd) & Hh & Hmi & Hs).
    apply month_days_fun in Hlen as [Hmo ->]. repeat split; lia.
Qed.

Lemma byte_val_bound (b : Byte.byte) : 0 <= DecoderSpec.byte_val b < 256.
Proof.
  unfold DecoderSpec.byte_val. pose proof (Byte.to_N_bounded b). lia.
Qed.

(** The year of the two year bytes: high byte times 256 plus low byte. *)
Lemma year_of_bytes (hi lo : Byte.byte) :
  Z.lor (Z.shiftl (DecoderSpec.byte_val hi) 8) (DecoderSpec.byte_val lo)
  = 256 * DecoderSpec.byte_val hi + DecoderSpec.byte_val lo.
Proof.
  pose proof (byte_val_bound lo) as Hlo.
  generalize dependent (DecoderSpec.byte_val lo). intros b Hb.
  generalize (DecoderSpec.byte_val hi). intros a.
  rewrite Z.shiftl_mul_pow2 by lia.
  assert (Z.land (a * 2 ^ 8) b = 0) as Hland.
  { apply Z.bits_inj'. intros n Hn. rewrite Z.land_spec, Z.bits_0.
    destruct (Z_lt_le_dec n 8) as [Hlow|Hhigh].
    - rewrite Z.mul_pow2_bits_low by lia. reflexivity.
    - destruct (Z.eq_dec b 0) as [->|Hnz].
      + rewrite Z.bits_0. apply andb_false_r.
      + rewrite (Z.bits_above_log2 b n); [apply andb_false_r|lia|].
        assert (Z.log2 b < 8) by (apply Z.log2_lt_pow2; lia). lia. }
  rewrite <- Z.lxor_lor by exact Hland.
  rewrite <- Z.add_nocarry_lxor by exact Hland. lia.
Qed.

(** C6: for every eight-byte timestamp span whose fields (year from the
    high and low year bytes, month, day, hour, minute, second) do not form
    a valid calendar date, the timestamp decode returns null, with a
    warning, and raises nothing. *)
Theorem invalid_timestamp_decodes_to_null :
  forall (data : list Byte.byte) (d : SajR5MqttEntityDescription)
         (yh yl mo dd hh mi ss zz : Byte.byte),
    slice data (modbus_register_offset d) (modbus_register_offset d + 8)
    = [yh; yl; mo; dd; hh; mi; ss; zz] ->
    ~ DecoderSpec.valid_calendar_date
        (256 * DecoderSpec.byte_val yh + DecoderSpec.byte_val yl)
        (DecoderSpec.byte_val mo) (DecoderSpec.byte_val dd)
        (DecoderSpec.byte_val hh) (DecoderSpec.byte_val mi)
        (DecoderSpec.byte_val ss) ->
    Sensor.inverter_time_native_value (Some data) d
    = (Ok None, [Sensor.failed_to_parse ValueError]).
Proof.
  intros data d yh yl mo dd hh mi ss zz Hspan Hinvalid.
  unfold Sensor.inverter_time_native_value, Sensor.inverter_time.
  rewrite Hspan. cbn [length Nat.ltb Nat.leb].
  unfold Sensor.getitem. cbn [lookup list_lookup mbind res_bind bind].
  fold (DecoderSpec.byte_val yh) (DecoderSpec.byte_val yl) (DecoderSpec.byte_val mo)
       (DecoderSpec.byte_val dd) (DecoderSpec.byte_val hh) (DecoderSpec.byte_val mi)
       (DecoderSpec.byte_val ss).
  rewrite year_of_bytes. unfold Datetime.new.
  destruct (Datetime.fields_ok _ _ _ _ _ _) eqn:Hok.
  - exfalso. apply Hinvalid, fields_ok_spec, Hok.
  - reflexivity.
Qed.

(** A valid timestamp decodes to that instant in UTC. *)
Lemma valid_timestamp_decodes
      (data : list Byte.byte) (d : SajR5MqttEntityDescription)
      (yh yl mo dd hh mi ss zz : Byte.byte) :
  slice data (modbus_register_offset d) (modbus_register_offset d + 8)
  = [yh; yl; mo; dd; hh; mi; ss; zz] ->
  DecoderSpec.valid_calendar_date
    (256 * DecoderSpec.byte_val yh + DecoderSpec.byte_val yl)
    (DecoderSpec.byte_val mo) (DecoderSpec.byte_val dd)
    (DecoderSpec.byte_val hh) (DecoderSpec.byte_val mi)
    (DecoderSpec.byte_val ss) ->
  Sensor.inverter_time_native_value (Some data) d
  = (Ok (Some (Datetime.mk
                 (256 * DecoderSpec.byte_val yh + DecoderSpec.byte_val yl)
                 (DecoderSpec.byte_val mo) (DecoderSpec.byte_val dd)
                 (DecoderSpec.byte_val hh) (DecoderSpec.byte_val mi)
                 (DecoderSpec.byte_val ss) (Some "UTC"%string))), []).
Proof.
  intros Hspan Hvalid.
  unfold Sensor.inverter_time_native_value, Sensor.inverter_time.
  rewrite Hspan. cbn [length Nat.ltb Nat.leb].
  unfold Sensor.getitem. cbn [lookup list_lookup mbind res_bind bind].
  fold (DecoderSpec.byte_val yh) (DecoderSpec.byte_val yl) (DecoderSpec.byte_val mo)
       (DecoderSpec.byte_val dd) (DecoderSpec.byte_val hh) (DecoderSpec.byte_val mi)
       (DecoderSpec.byte_val ss).
  rewrite year_of_bytes. unfold Datetime.new.
  apply fields_ok_spec in Hvalid. rewrite Hvalid. reflexivity.
Qed.

(** The example of C6: year 2024, month 13 decodes to null. *)
Lemma invalid_timestamp_decodes_to_null_witness :
  256 * DecoderSpec.byte_val Byte.x07 + DecoderSpec.byte_val Byte.xe8 = 2024
  /\ DecoderSpec.byte_val Byte.x0d = 13
  /\ Sensor.inverter_time_native_value (Some Samples.month_13_buffer)
       Sensor.inverter_time_description
     = (Ok None, [Sensor.failed_to_parse ValueError]).
Proof.
  split; [reflexivity|]. split; [reflexivity|].
  apply (invalid_timestamp_decodes_to_null Samples.month_13_buffer
           Sensor.inverter_time_description
           Byte.x07 Byte.xe8 Byte.x0d Byte.x01 Byte.x00 Byte.x00 Byte.x00 Byte.x00).
  - vm_compute; reflexivity.
  - intros (_ & (len & Hlen & _) & _).
    apply month_days_fun in Hlen as [Hmonth _].
    vm_compute in Hmonth. destruct Hmonth as [_ Hle]. apply Hle. reflexivity.
Defined.

(* ===================================================================== *)
(** * The poll coordinators *)
(* ===================================================================== *)

Section CoordinatorFacts.

Import Client Coordinator.
Context {C : Type} `{MqttClient C}.

(** A fetch makes one call on the client, for the block of the
    coordinator's class. *)
Lemma fetch_calls_once (c : coordinator) (w : world C) :
  calls (snd (_async_fetch_data c w))
  = calls w ++ [ReadRegisters (fst (block (cls c))) (snd (block (cls c)))].
Proof.
  unfold _async_fetch_data, do_read.
  destruct (block (cls c)) as [reg_start reg_count].
  destruct (read_registers reg_start reg_count (client w)) as [r cl].
  reflexivity.
Qed.

(** The refresh of a coordinator that is not ready calls nothing and
    leaves it not ready. *)
Lemma refresh_not_ready (c : coordinator) (w : world C) :
  ready c = false ->
  async_refresh c w
  = (Ok tt, mk (cls c) (update_interval c) None false true, w).
Proof.
  intros Hready. unfold async_refresh, _async_update_data.
  rewrite Hready. reflexivity.
Qed.

(** The refresh of a ready coordinator, by the outcome of its fetch. *)
Lemma refresh_ready (c : coordinator) (w : world C) :
  ready c = true ->
  async_refresh c w
  = match fst (_async_fetch_data c w) with
    | Ok d => (Ok tt, mk (cls c) (update_interval c) d true true,
               snd (_async_fetch_data c w))
    | Raise NotImplementedError =>
        (Raise NotImplementedError, c, snd (_async_fetch_data c w))
    | Raise _ => (Ok tt, mk (cls c) (update_interval c) (data c) true false,
                  snd (_async_fetch_data c w))
    end.
Proof.
  intros Hready. unfold async_refresh, _async_update_data.
  rewrite Hready. cbn [negb].
  destruct (_async_fetch_data c w) as [[d|e] w']; cbn [fst snd];
    [|destruct e]; rewrite ?Hready; reflexivity.
Qed.

(** The refresh of a ready coordinator makes exactly one call. *)
Lemma refresh_ready_calls_once (c : coordinator) (w : world C) :
  ready c = true ->
  calls (snd (async_refresh c w))
  = calls w ++ [ReadRegisters (fst (block (cls c))) (snd (block (cls c)))].
Proof.
  intros Hready. rewrite (refresh_ready c w Hready), <- fetch_calls_once.
  destruct (fst (_async_fetch_data c w)) as [d|e]; [|destruct e]; reflexivity.
Qed.


Lemma tick_not_ready (k : kind) (s : SajR5MqttData C) :
  none_ready s ->
  none_ready (snd (tick k s))
  /\ mqtt_client (snd (tick k s)) = mqtt_client s
  /\ forall k', is_Some (coordinator_of k' (snd (tick k s)))
                <-> is_Some (coordinator_of k' s).
Proof.
  intros [Hrt Hinv]. destruct k; unfold tick.
  - rewrite (refresh_not_ready _ _ Hrt). cbn.
    split; [split; [reflexivity|exact Hinv]|].
    split; [reflexivity|]. intros []; cbn; [|reflexivity].
    split; intros _; eauto.
  - destruct (coordinator_inverter_data s) as [c|] eqn:Hc.
    + rewrite (refresh_not_ready _ _ (Hinv c eq_refl)). cbn.
      split; [split; [exact Hrt|intros c' [= <-]; reflexivity]|].
      split; [reflexivity|]. intros []; cbn; rewrite ?Hc; [reflexivity|].
      split; intros _; eauto.
    + cbn. split; [split; [exact Hrt|rewrite Hc; discriminate]|].
      split; reflexivity.
Qed.

Lemma ticks_not_ready (ks : list kind) (s : SajR5MqttData C) :
  none_ready s ->
  none_ready (ticks ks s)
  /\ mqtt_client (ticks ks s) = mqtt_client s
  /\ forall k', is_Some (coordinator_of k' (ticks ks s))
                <-> is_Some (coordinator_of k' s).
Proof.
  revert s. induction ks as [|k ks IH]; intros s Hs; cbn [ticks].
  - split; [exact Hs|]. split; reflexivity.
  - destruct (tick_not_ready k s Hs) as (Hs' & Hw & Hex).
    destruct (IH _ Hs') as (Hs'' & Hw' & Hex').
    split; [exact Hs''|]. split; [congruence|].
    intros k'. rewrite Hex', Hex. reflexivity.
Qed.

(** The first tick of a coordinator after the readiness signal makes one
    call, for the block of its class. *)
Lemma tick_after_ready (k : kind) (s : SajR5MqttData C) (c : coordinator) :
  coordinator_of k s = Some c ->
  calls (mqtt_client (snd (tick k (mark_coordinators_ready s))))
  = calls (mqtt_client s)
    ++ [ReadRegisters (fst (block (cls c))) (snd (block (cls c)))].
Proof.
  intros Hc. destruct k; cbn in Hc.
  - injection Hc as <-.
    unfold tick, mark_coordinators_ready.
    cbn [coordinator_realtime_data mqtt_client coordinator_inverter_data].
    pose proof (refresh_ready_calls_once
                  (set_ready (coordinator_realtime_data s) true)
                  (mqtt_client s) eq_refl) as Hcalls.
    destruct (async_refresh _ _) as [[r rt] w]. exact Hcalls.
  - unfold tick, mark_coordinators_ready.
    cbn [coordinator_realtime_data mqtt_client coordinator_inverter_data].
    rewrite Hc.
    pose proof (refresh_ready_calls_once (set_ready c true)
                  (mqtt_client s) eq_refl) as Hcalls.
    destruct (async_refresh _ _) as [[r c'] w]. exact Hcalls.
Qed.

(** C4: while no coordinator is ready, no run of scheduled ticks makes a
    call on the mqtt client; once the readiness signal has marked the
    coordinators ready, the very next tick of a coordinator makes exactly
    one [read_registers] call, for its register block. *)
Theorem not_ready_ticks_call_nothing_then_one :
  forall (s : SajR5MqttData C) (ks : list kind) (k : kind) (c : coordinator),
    none_ready s ->
    coordinator_of k s = Some c ->
    calls (mqtt_client (ticks ks s)) = calls (mqtt_client s)
    /\ calls (mqtt_client
                (snd (tick k (mark_coordinators_ready (ticks ks s)))))
       = calls (mqtt_client s)
         ++ [ReadRegisters (fst (block (cls c))) (snd (block (cls c)))].
Proof.
  intros s ks k c Hs Hc.
  destruct (ticks_not_ready ks s Hs) as (Hs' & Hw & Hex).
  split; [rewrite Hw; reflexivity|].
  assert (exists c', coordinator_of k (ticks ks s) = Some c' /\ cls c' = cls c)
    as (c' & Hc' & Hcls).
  { clear Hex Hw Hs'. revert s c Hs Hc.
    induction ks as [|k0 ks IH]; intros s c Hs Hc; cbn [ticks]; [eauto|].
    destruct (tick_not_ready k0 s Hs) as (Hs1 & _ & _).
    assert (exists c1, coordinator_of k (snd (tick k0 s)) = Some c1
                       /\ cls c1 = cls c) as (c1 & Hc1 & Hcls1).
    { destruct Hs as [Hrt Hinv]. destruct k0; unfold tick.
      - rewrite (refresh_not_ready _ _ Hrt). destruct k; cbn in *.
        + injection Hc as <-. eauto.
        + eauto.
      - destruct (coordinator_inverter_data s) as [ci|] eqn:Hci.
        + rewrite (refresh_not_ready _ _ (Hinv ci eq_refl)).
          destruct k; cbn in *; [eauto|].
          rewrite Hci in Hc. injection Hc as <-. eauto.
        + cbn. eauto. }
    destruct (IH _ c1 Hs1 Hc1) as (c' & Hc' & Hcls'). exists c'. split; congruence. }
  rewrite (tick_after_ready k _ c' Hc'), Hw, Hcls. reflexivity.
Qed.

(** The readiness signal itself: [async_first_refresh] marks the
    coordinators ready and refreshes them, one read for the realtime
    block and then, unless the first refresh raised, one for the inverter
    block when there is an inverter coordinator. *)
Lemma first_refresh_reads_each_block (s : SajR5MqttData C) :
  exists rest,
    calls (mqtt_client (snd (async_first_refresh s)))
    = calls (mqtt_client s)
      ++ ReadRegisters (fst (block (cls (coordinator_realtime_data s))))
                       (snd (block (cls (coordinator_realtime_data s))))
         :: rest
    /\ (rest = []
        \/ exists c, coordinator_inverter_data s = Some c
                     /\ rest = [ReadRegisters (fst (block (cls c)))
                                              (snd (block (cls c)))]).
Proof.
  unfold async_first_refresh, async_refresh_coordinators, mark_coordinators_ready.
  cbn [coordinator_realtime_data mqtt_client coordinator_inverter_data].
  pose proof (refresh_ready_calls_once
                (set_ready (coordinator_realtime_data s) true)
                (mqtt_client s) eq_refl) as Hrt.
  destruct (async_refresh (set_ready (coordinator_realtime_data s) true)
              (mqtt_client s)) as [[r rt] w].
  cbn [snd set_ready cls] in Hrt.
  destruct r as [[]|e]; destruct (coordinator_inverter_data s) as [c|];
    cbn [snd mqtt_client].
  - pose proof (refresh_ready_calls_once (set_ready c true) w eq_refl) as Hinv.
    destruct (async_refresh (set_ready c true) w) as [[r' c'] w'].
    cbn [snd set_ready cls mqtt_client] in Hinv |- *.
    exists [ReadRegisters (fst (block (cls c))) (snd (block (cls c)))].
    split; [|right; eauto].
    rewrite Hinv, Hrt, <- app_assoc. reflexivity.
  - exists []. split; [exact Hrt|left; reflexivity].
  - exists []. split; [exact Hrt|left; reflexivity].
  - exists []. split; [exact Hrt|left; reflexivity].
Qed.

End CoordinatorFacts.



(** Three ticks before the readiness signal call nothing; the inverter
    coordinator's first tick after it reads the inverter block. *)
Lemma not_ready_ticks_call_nothing_then_one_witness :
  Client.calls
    (Coordinator.mqtt_client
       (Coordinator.ticks
          [Coordinator.Realtime; Coordinator.Inverter; Coordinator.Realtime]
          Samples.fresh_data))
  = []
  /\ Client.calls
       (Coordinator.mqtt_client
          (snd (Coordinator.tick Coordinator.Inverter
                  (Coordinator.mark_coordinators_ready
                     (Coordinator.ticks
                        [Coordinator.Realtime; Coordinator.Inverter;
                         Coordinator.Realtime]
                        Samples.fresh_data)))))
     = [Client.ReadRegisters 0x8F00 0x1D].
Proof.
  apply (not_ready_ticks_call_nothing_then_one Samples.fresh_data
           [Coordinator.Realtime; Coordinator.Inverter; Coordinator.Realtime]
           Coordinator.Inverter
           (Coordinator.init Coordinator.Inverter 300)).
  - split; [reflexivity|]. intros c [= <-]. reflexivity.
  - reflexivity.
Defined.

(* ===================================================================== *)
(** * Setup *)
(* ===================================================================== *)

Section SetupFacts.

Import Client Coordinator Setup.
Context {C : Type} `{MqttClient C}.

(** coordinator.py defines no configuration-data coordinator. *)
Lemma no_config_coordinator_class (scan_interval : Z) :
  instantiate "SajR5MqttConfigDataCoordinator" scan_interval = Raise ImportError.
Proof. reflexivity. Qed.

(** The dataclass has no field for a configuration-data coordinator. *)
Lemma no_config_coordinator_field
      (w : world C) (rt : coordinator) (inv cfg : option coordinator) :
  SajR5MqttData_new
    [ ("mqtt_client"%string, AClient w);
      ("coordinator_realtime_data"%string, ACoordinator (Some rt));
      ("coordinator_inverter_data"%string, ACoordinator inv);
      ("coordinator_config_data"%string, ACoordinator cfg) ]
  = Raise TypeError.
Proof. reflexivity. Qed.

(** The body of [async_setup_entry] raises on every input. *)
Lemma async_setup_entry_raises (hass : hass_t) (entry : entry_t C) (w : world C) :
  exists e, async_setup_entry hass entry w = Raise e.
Proof.
  unfold async_setup_entry.
  destruct (mqtt_available hass); cbn [negb]; [|eauto].
  destruct (options entry !! CONF_SCAN_INTERVAL_REALTIME_DATA) as [i|]; [|eauto].
  change (instantiate "SajR5MqttRealtimeDataCoordinator" i)
    with (Ok (init Realtime i)).
  cbn [mbind res_bind bind].
  destruct (optional_interval (options entry) CONF_SCAN_INTERVAL_INVERTER_DATA)
    as [j|]; cbn [optional_coordinator].
  - change (instantiate "SajR5MqttInverterDataCoordinator" j)
      with (Ok (init Inverter j)).
    cbn [mbind res_bind bind].
    destruct (optional_interval (options entry) CONF_SCAN_INTERVAL_CONFIG_DATA)
      as [k|]; cbn [optional_coordinator].
    + rewrite no_config_coordinator_class. cbn [mbind res_bind bind]. eauto.
    + cbn [mbind res_bind bind]. rewrite no_config_coordinator_field. eauto.
  - cbn [mbind res_bind bind].
    destruct (optional_interval (options entry) CONF_SCAN_INTERVAL_CONFIG_DATA)
      as [k|]; cbn [optional_coordinator].
    + rewrite no_config_coordinator_class. cbn [mbind res_bind bind]. eauto.
    + cbn [mbind res_bind bind]. rewrite no_config_coordinator_field. eauto.
Qed.

(** C1 fails on the code: setup never stores a configuration-data
    coordinator.  Loading __init__.py raises [ImportError], because
    coordinator.py defines no [SajR5MqttConfigDataCoordinator], and leaves
    the entry without runtime data; the body of [async_setup_entry] would
    raise on every input too, at the class that does not exist when a
    configuration-data interval is supplied, and at the dataclass, which
    has no field [coordinator_config_data], when none is. *)
Theorem setup_stores_no_config_coordinator :
  forall (hass : hass_t) (entry : entry_t C) (w : world C),
    setup hass entry w = (Raise ImportError, entry)
    /\ (exists e, async_setup_entry hass entry w = Raise e)
    /\ (forall i,
        mqtt_available hass = true ->
        is_Some (options entry !! CONF_SCAN_INTERVAL_REALTIME_DATA) ->
        options entry !! CONF_SCAN_INTERVAL_CONFIG_DATA = Some i -> i <> 0 ->
        async_setup_entry hass entry w = Raise ImportError).
Proof.
  intros hass entry w. split; [reflexivity|].
  split; [apply async_setup_entry_raises|].
  intros i Havail [rt Hrt] Hcfg Hi.
  assert (optional_interval (options entry) CONF_SCAN_INTERVAL_CONFIG_DATA
          = Some i) as Hopt.
  { unfold optional_interval. rewrite Hcfg.
    apply Z.eqb_neq in Hi. rewrite Hi. reflexivity. }
  unfold async_setup_entry. rewrite Havail, Hrt, Hopt. cbn [negb].
  change (instantiate "SajR5MqttRealtimeDataCoordinator" rt)
    with (Ok (init Realtime rt)).
  cbn [mbind res_bind bind].
  destruct (optional_interval (options entry) CONF_SCAN_INTERVAL_INVERTER_DATA)
    as [j|]; reflexivity.
Qed.

End SetupFacts.

(** Setup with a configuration-data interval of 300 seconds. *)
Lemma setup_with_config_interval :
  Samples.options_with_config !! Setup.CONF_SCAN_INTERVAL_CONFIG_DATA = Some 300
  /\ Setup.setup (Setup.mkHass true true None)
       (Setup.mkEntry Samples.options_with_config None false)
       Samples.next_read_null
     = (Raise ImportError, Setup.mkEntry Samples.options_with_config None false)
  /\ Setup.async_setup_entry (Setup.mkHass true true None)
       (Setup.mkEntry Samples.options_with_config None false)
       Samples.next_read_null
     = Raise ImportError.
Proof. repeat split; vm_compute; reflexivity. Qed.

(* ===================================================================== *)
(** * The power-limit number entity *)
(* ===================================================================== *)

Section NumberFacts.

Import Number.
Context {C : Type} `{MqttClient C}.





End NumberFacts.


(* ===================================================================== *)
(** * The Transport Bridge *)
(* ===================================================================== *)

Section BridgeFacts.

Import Bridge.

Lemma scan_app (slot : option request) (t1 t2 : list action) :
  scan slot (t1 ++ t2)
  = match scan slot t1 with
    | Some slot' => scan slot' t2
    | None => None
    end.
Proof.
  revert slot. induction t1 as [|a t1 IH]; intros slot; [reflexivity|].
  destruct a as [r|r o|m]; cbn [scan app].
  - destruct slot; [reflexivity|apply IH].
  - destruct slot as [r'|]; [|apply IH].
    destruct (bool_decide (r = r')); [apply IH|reflexivity].
  - apply IH.
Qed.

Lemma start_next_consistent (q : list request) (tr : list action) :
  scan None tr = Some None -> Forall sound tr ->
  consistent (start_next q tr).
Proof.
  intros Hscan Hsound. destruct q as [|r q]; cbn [start_next].
  - split; [exact Hscan|]. split; [reflexivity|exact Hsound].
  - split; [|split].
    + cbn [trace in_flight]. rewrite scan_app, Hscan. reflexivity.
    + cbn [in_flight]. discriminate.
    + cbn [trace]. apply Forall_app. split; [exact Hsound|].
      constructor; [exact I|constructor].
Qed.

Lemma scan_resolve_in_flight (tr : list action) (r : request) (o : outcome) :
  scan None tr = Some (Some r) -> scan None (tr ++ [Resolve r o]) = Some None.
Proof.
  intros Hscan. rewrite scan_app, Hscan. cbn [scan].
  rewrite bool_decide_true by reflexivity. reflexivity.
Qed.

Lemma scan_resolve_waiting (q : list request) (o : outcome) :
  scan None (map (fun r => Resolve r o) q) = Some None.
Proof. induction q as [|r q IH]; [reflexivity|exact IH]. Qed.

Lemma step_consistent (s : state) (e : event) :
  consistent s -> consistent (step s e).
Proof.
  intros (Hscan & Hqueue & Hsound).
  destruct s as [fl q tr]. cbn [in_flight queue trace] in *.
  destruct e as [r|m| | |]; destruct fl as [r0|]; cbn [step in_flight queue trace].
  - split; [exact Hscan|]. split; [discriminate|exact Hsound].
  - rewrite (Hqueue eq_refl). apply start_next_consistent; assumption.
  - destruct (matches (frame r0) m) eqn:Hm.
    + apply start_next_consistent.
      * apply scan_resolve_in_flight, Hscan.
      * apply Forall_app. split; [exact Hsound|].
        constructor; [exact Hm|constructor].
    + split; [|split].
      * cbn [trace in_flight]. rewrite scan_app, Hscan. reflexivity.
      * discriminate.
      * apply Forall_app. split; [exact Hsound|].
        constructor; [exact I|constructor].
  - split; [|split].
    + cbn [trace in_flight]. rewrite scan_app, Hscan. reflexivity.
    + exact Hqueue.
    + apply Forall_app. split; [exact Hsound|].
      constructor; [exact I|constructor].
  - apply start_next_consistent.
    + apply scan_resolve_in_flight, Hscan.
    + apply Forall_app. split; [exact Hsound|].
      constructor; [exact I|constructor].
  - split; [exact Hscan|]. split; [exact Hqueue|exact Hsound].
  - split; [|split].
    + cbn [trace in_flight].
      change (Resolve r0 TransportDown :: map (fun q0 => Resolve q0 TransportDown) q)
        with ([Resolve r0 TransportDown] ++ map (fun q0 => Resolve q0 TransportDown) q).
      rewrite app_assoc, scan_app, (scan_resolve_in_flight _ _ _ Hscan).
      apply scan_resolve_waiting.
    + reflexivity.
    + apply Forall_app. split; [exact Hsound|].
      constructor; [exact I|]. apply Forall_map, Forall_forall. intros; exact I.
  - split; [exact Hscan|]. split; [exact Hqueue|exact Hsound].
  - split; [|split].
    + apply scan_resolve_in_flight, Hscan.
    + reflexivity.
    + apply Forall_app. split; [exact Hsound|].
      constructor; [exact I|constructor].
  - split; [exact Hscan|]. split; [reflexivity|exact Hsound].
Qed.

Lemma run_consistent (evs : list event) : consistent (run evs).
Proof.
  unfold run.
  assert (consistent initial) as Hinit.
  { split; [reflexivity|]. split; [reflexivity|constructor]. }
  revert Hinit. generalize initial.
  induction evs as [|e evs IH]; intros s Hs; cbn [fold_left]; [exact Hs|].
  apply IH, step_consistent, Hs.
Qed.

(** In a serialized trace, the request of a publish resolves before the
    next publish. *)
Lemma scan_between_publishes
      (r1 r2 : request) (t2 t3 : list action) (slot : option request) :
  scan (Some r1) (t2 ++ Publish r2 :: t3) = Some slot ->
  exists o, In (Resolve r1 o) t2.
Proof.
  induction t2 as [|a t2 IH]; cbn [app scan]; [discriminate|].
  destruct a as [r|r o|m]; cbn [scan].
  - discriminate.
  - destruct (bool_decide_reflect (r = r1)) as [->|Hne]; [|discriminate].
    intros _. exists o. left. reflexivity.
  - intros Hscan. destruct (IH Hscan) as [o Ho]. exists o. right. exact Ho.
Qed.

(** C5: whatever the callers and the bus do, the bridge publishes the
    request of a second call only after the request published before it
    has resolved; and a resolution by a response is by a matching one. *)
Theorem second_publish_follows_first_resolution :
  forall (evs : list event) (r1 r2 : request) (t1 t2 t3 : list action),
    trace (run evs) = t1 ++ Publish r1 :: t2 ++ Publish r2 :: t3 ->
    exists o, In (Resolve r1 o) t2 /\ sound (Resolve r1 o).
Proof.
  intros evs r1 r2 t1 t2 t3 Htrace.
  destruct (run_consistent evs) as (Hscan & _ & Hsound).
  rewrite Htrace in Hscan, Hsound.
  rewrite scan_app in Hscan.
  destruct (scan None t1) as [[r0|]|]; cbn [scan] in Hscan; try discriminate.
  destruct (scan_between_publishes r1 r2 t2 t3 _ Hscan) as [o Ho].
  exists o. split; [exact Ho|].
  rewrite List.Forall_forall in Hsound. apply Hsound.
  apply in_or_app. right. right. apply in_or_app. left. exact Ho.
Qed.

End BridgeFacts.

(** Two calls before any answer: the second request is published after
    the first has timed out. *)
Lemma second_publish_follows_first_resolution_witness :
  Bridge.trace
    (Bridge.run [Bridge.Submit Samples.first_request;
                 Bridge.Submit Samples.second_request;
                 Bridge.Deadline])
  = [Bridge.Publish Samples.first_request;
     Bridge.Resolve Samples.first_request Bridge.Timeout;
     Bridge.Publish Samples.second_request]
  /\ exists o,
       In (Bridge.Resolve Samples.first_request o)
          [Bridge.Resolve Samples.first_request Bridge.Timeout]
       /\ Bridge.sound (Bridge.Resolve Samples.first_request o).
Proof.
  split; [reflexivity|].
  apply (second_publish_follows_first_resolution
           [Bridge.Submit Samples.first_request;
            Bridge.Submit Samples.second_request;
            Bridge.Deadline]
           Samples.first_request Samples.second_request
           [] [Bridge.Resolve Samples.first_request Bridge.Timeout] []).
  reflexivity.
Defined.

(* ===================================================================== *)
(** * Lookup of a description by its key *)
(* ===================================================================== *)

Section LookupFacts.

Import Naming SensorTables.

Lemma find_first {A} (p : A -> bool) (l : list A) :
  match List.find p l with
  | Some x => exists pre post, l = pre ++ x :: post /\ p x = true
                               /\ forall y, In y pre -> p y = false
  | None => forall y, In y l -> p y = false
  end.
Proof.
  induction l as [|a l IH]; cbn [List.find]; [intros y []|].
  destruct (p a) eqn:Ha.
  - exists [], l. split; [reflexivity|]. split; [exact Ha|intros y []].
  - destruct (List.find p l) as [x|].
    + destruct IH as (pre & post & -> & Hx & Hpre).
      exists (a :: pre), post. split; [reflexivity|]. split; [exact Hx|].
      intros y [<-|Hy]; auto.
    + intros y [<-|Hy]; auto.
Qed.

(** X1  entity.py: [get_entity_description_by_key] answers the first
    description that
    carries the key, and raises [ValueError] exactly when none does. *)
Theorem lookup_by_key_first_or_value_error :
  forall (descriptions : list SajR5MqttEntityDescription) (k : string),
    match get_entity_description_by_key descriptions k with
    | Ok d =>
        exists pre post,
          descriptions = pre ++ d :: post /\ key d = k
          /\ forall d', In d' pre -> key d' <> k
    | Raise e =>
        e = ValueError /\ forall d, In d descriptions -> key d <> k
    end.
Proof.
  intros descriptions k. unfold get_entity_description_by_key.
  pose proof (find_first (fun d => String.eqb (key d) k) descriptions) as Hfind.
  destruct (List.find _ descriptions) as [d|].
  - destruct Hfind as (pre & post & Heq & Hd & Hpre).
    exists pre, post. split; [exact Heq|]. split; [apply String.eqb_eq, Hd|].
    intros d' Hin. apply String.eqb_neq, Hpre, Hin.
  - split; [reflexivity|]. intros d Hin. apply String.eqb_neq, Hfind, Hin.
Qed.

End LookupFacts.

(* ===================================================================== *)
(** * Names and unique ids *)
(* ===================================================================== *)

Section NamingFacts.

Import Naming SensorTables.

Lemma chars_str_lower (s : string) : chars (str_lower s) = map lower_char (chars s).
Proof. unfold str_lower. apply chars_str_of. Qed.

Lemma chars_inj (a b : string) : chars a = chars b -> a = b.
Proof.
  intros Heq. rewrite <- (str_of_chars a), <- (str_of_chars b), Heq. reflexivity.
Qed.

Lemma is_lower_fixed (s : string) : is_lower s = true -> str_lower s = s.
Proof. unfold is_lower. apply String.eqb_eq. Qed.

(** Two entities of one device and one type with equal unique ids have
    keys that are equal up to case. *)
Lemma unique_id_determines_key (sn k1 k2 t : string) :
  entity_unique_id sn k1 t = entity_unique_id sn k2 t ->
  str_lower k1 = str_lower k2.
Proof.
  unfold entity_unique_id. intros Heq. apply (f_equal chars) in Heq.
  rewrite !chars_str_lower, !chars_append, !map_app in Heq.
  apply app_inv_head, app_inv_head, app_inv_tail in Heq.
  apply chars_inj. rewrite !chars_str_lower. exact Heq.
Qed.

Lemma NoDup_map_on {A B} (f : A -> B) (l : list A) :
  (forall x y, In x l -> In y l -> f x = f y -> x = y) ->
  NoDup l -> NoDup (map f l).
Proof.
  intros Hinj Hnd. induction Hnd as [|a l Hnotin Hnd IH]; cbn [map].
  - constructor.
  - constructor.
    + intros Hin. apply list_elem_of_In, in_map_iff in Hin as (y & Hy & Hyin).
      apply Hnotin, list_elem_of_In.
      assert (y = a) as <-; [|exact Hyin].
      apply Hinj; [right; exact Hyin|left; reflexivity|exact Hy].
    + apply IH. intros x y Hx Hy. apply Hinj; right; assumption.
Qed.

Lemma keys_lower_and_distinct :
  forallb is_lower (map key all_descriptions) = true
  /\ NoDup (map key all_descriptions).
Proof.
  split; [vm_compute; reflexivity|].
  apply (bool_decide_eq_true_1 _). vm_compute. reflexivity.
Qed.

(** X2  entity.py and sensor.py: the sensors of one device have
    pairwise different unique ids: over
    the three tables and the inverter time, no two descriptions give the
    same [_attr_unique_id]. *)
Theorem sensor_unique_ids_distinct :
  forall serial_number : string,
    NoDup (map (fun d => entity_unique_id serial_number (key d) sensor_entity_type)
               all_descriptions).
Proof.
  intros sn. destruct keys_lower_and_distinct as [Hlower Hnodup].
  rewrite <- (map_map key (fun k => entity_unique_id sn k sensor_entity_type)).
  apply NoDup_map_on; [|exact Hnodup].
  intros k1 k2 H1 H2 Heq. rewrite forallb_forall in Hlower.
  apply unique_id_determines_key in Heq.
  rewrite (is_lower_fixed k1 (Hlower k1 H1)) in Heq.
  rewrite (is_lower_fixed k2 (Hlower k2 H2)) in Heq. exact Heq.
Qed.

(** X3  entity.py and number.py: a sensor and a number entity of one
    device never share a unique id,
    whatever their keys: the entity type at the end tells them apart. *)
Theorem sensor_and_number_ids_differ :
  forall (serial_number k k' : string),
    entity_unique_id serial_number k sensor_entity_type
    <> number_unique_id serial_number k'.
Proof.
  intros sn k k'.
  unfold entity_unique_id, number_unique_id, unique_id_prefix, sensor_entity_type.
  intros Heq. apply (f_equal chars) in Heq.
  rewrite !chars_str_lower, !chars_append, !map_app in Heq.
  apply (f_equal (@rev ascii)) in Heq.
  rewrite !rev_app_distr in Heq. cbn in Heq. discriminate Heq.
Qed.

End NamingFacts.

(* ===================================================================== *)
(** * The descriptor tables against the register blocks *)
(* ===================================================================== *)

Section TableFacts.

Import SensorTables Coordinator.




(** X5  sensor.py and coordinator.py: the inverter time is read from the
    realtime buffer at an offset where
    only two bytes of the block are left: on a buffer of the length of the
    realtime block the sensor has no value, whatever the bytes. *)
Theorem inverter_time_outside_realtime_block :
  forall data : list Byte.byte,
    Z.of_nat (length data) = 2 * snd (block Realtime) ->
    Sensor.inverter_time_native_value (Some data) Sensor.inverter_time_description
    = (Ok None, []).
Proof.
  intros data Hlen. cbn in Hlen.
  unfold Sensor.inverter_time_native_value, Sensor.inverter_time.
  change (modbus_register_offset Sensor.inverter_time_description) with 110.
  rewrite (slice_span data 110 8) by lia.
  assert (length (take (Z.to_nat 8) (drop (Z.to_nat 110) data)) = 2%nat) as Hspan.
  { rewrite length_take, length_drop. lia. }
  rewrite Hspan. reflexivity.
Qed.

End TableFacts.


Lemma inverter_time_outside_realtime_block_witness :
  Sensor.inverter_time_native_value
    (Some (repeat Byte.x00 110 ++ [Byte.x07; Byte.xe8]))
    Sensor.inverter_time_description
  = (Ok None, []).
Proof.
  apply (inverter_time_outside_realtime_block
           (repeat Byte.x00 110 ++ [Byte.x07; Byte.xe8])).
  reflexivity.
Defined.

(* ===================================================================== *)
(** * The decoder on the descriptors of the tables *)
(* ===================================================================== *)

Section TableDecodeFacts.

Import SensorTables.

(** Every scale of the tables is a float that prints in plain decimal
    notation, on a descriptor without conversion function. *)
Lemma table_scales_plain :
  forallb (fun d =>
             match modbus_register_scale d with
             | None => true
             | Some (ScaleStr _) => false
             | Some (ScaleFloat f) =>
                 match DecoderSpec.fraction_digits (str_of_float f), value_fn d with
                 | Some _, None => true
                 | _, _ => false
                 end
             end) all_descriptions = true.
Proof. vm_compute. reflexivity. Qed.

(** X6  entity.py and sensor.py: for every descriptor of the tables that
    has a scale, the decoded
    value is the raw value multiplied by the scale and rounded to the
    number of decimal digits of the scale's text. *)
Theorem table_scales_round_to_their_decimal_digits :
  forall (d : SajR5MqttEntityDescription) (f : float)
         (payload : list Byte.byte) (raw : Z),
    In d all_descriptions ->
    modbus_register_scale d = Some (ScaleFloat f) ->
    raw_value payload d = Ok (PyInt raw) ->
    get_entity_description (Some payload) d
    = DecoderSpec.answer (key d)
        (DecoderSpec.scaled_and_rounded raw f
           (DecoderSpec.decimal_digits (str_of_float f))).
Proof.
  intros d f payload raw Hin Hscale Hraw.
  pose proof table_scales_plain as Hall.
  rewrite forallb_forall in Hall. specialize (Hall d Hin).
  rewrite Hscale in Hall.
  destruct (DecoderSpec.fraction_digits (str_of_float f)) as [n|] eqn:Hplain;
    [|discriminate Hall].
  destruct (value_fn d) eqn:Hfn; [discriminate Hall|].
  rewrite (decode_float_scale payload d raw f Hraw Hscale Hfn).
  rewrite (scale_digits_plain (ScaleFloat f) n Hplain).
  rewrite (decimal_digits_plain _ n Hplain). reflexivity.
Qed.

(** The two bytes at a natural offset, read as an unsigned big-endian
    word. *)
Lemma unpack_u16 (payload : list Byte.byte) (off : Z) (hi lo : Byte.byte) :
  0 <= off ->
  payload !! Z.to_nat off = Some hi ->
  payload !! S (Z.to_nat off) = Some lo ->
  Struct.unpack_from ">H" payload off
  = Ok [PyInt (256 * DecoderSpec.byte_val hi + DecoderSpec.byte_val lo)].
Proof.
  intros Hoff Hhi Hlo. unfold Struct.unpack_from.
  change (Struct.parse_format ">H") with (Ok (Struct.BigEndian, false, 2%nat)).
  cbn [mbind res_bind bind]. cbv zeta.
  assert ((off <? 0) = false) as Hneg by (apply Z.ltb_ge; lia).
  rewrite Hneg. cbv iota. rewrite Hneg.
  pose proof (lookup_lt_Some _ _ _ Hlo) as Hlen.
  assert ((Z.of_nat (length payload) - off <? Z.of_nat 2) = false) as ->
    by (apply Z.ltb_ge; lia).
  rewrite (drop_S _ _ _ Hhi), (drop_S _ _ _ Hlo).
  unfold Struct.be_nat, DecoderSpec.byte_val.
  cbn [firstn fold_left]. rewrite take_0. cbn [fold_left]. do 3 f_equal. lia.
Qed.

Lemma word_bytes (hi lo : Byte.byte) :
  Z.land (Z.shiftr (256 * DecoderSpec.byte_val hi + DecoderSpec.byte_val lo) 8) 0xFF
  = DecoderSpec.byte_val hi
  /\ Z.land (256 * DecoderSpec.byte_val hi + DecoderSpec.byte_val lo) 0xFF
     = DecoderSpec.byte_val lo.
Proof.
  pose proof (byte_val_bound hi) as Hhi. pose proof (byte_val_bound lo) as Hlo.
  generalize dependent (DecoderSpec.byte_val lo). intros l Hl.
  generalize dependent (DecoderSpec.byte_val hi). intros h Hh.
  change 0xFF with (Z.ones 8). rewrite !Z.land_ones by lia.
  rewrite Z.shiftr_div_pow2 by lia. change (2 ^ 8) with 256.
  assert ((256 * h + l) / 256 = h) as ->.
  { rewrite Z.mul_comm, Z.div_add_l by lia. rewrite Z.div_small by lia. lia. }
  split.
  - apply Z.mod_small. lia.
  - rewrite Z.add_comm, Z.mul_comm, Z.mod_add by lia. apply Z.mod_small. lia.
Qed.

Lemma str_of_int_nat (z : Z) : 0 <= z -> Text.str_of_int z = str_of_nat z.
Proof.
  intros Hz. unfold Text.str_of_int.
  assert ((z <? 0) = false) as -> by (apply Z.ltb_ge; lia). reflexivity.
Qed.

(** X7  sensor.py: a version field renders the two bytes of its register
    as two
    decimal numbers with a point between: the high byte, then the low
    byte. *)
Theorem version_field_is_major_point_minor :
  forall (payload : list Byte.byte) (d : SajR5MqttEntityDescription)
         (hi lo : Byte.byte),
    modbus_register_data_type d = ">H"%string ->
    modbus_register_scale d = None ->
    value_fn d = Some version_fn ->
    0 <= modbus_register_offset d ->
    payload !! Z.to_nat (modbus_register_offset d) = Some hi ->
    payload !! S (Z.to_nat (modbus_register_offset d)) = Some lo ->
    get_entity_description (Some payload) d
    = (Ok (PyStr (str_of_nat (DecoderSpec.byte_val hi) ++ "."
                  ++ str_of_nat (DecoderSpec.byte_val lo))%string), []).
Proof.
  intros payload d hi lo Hdt Hscale Hfn Hoff Hhi Hlo.
  unfold get_entity_description, decode, raw_value.
  rewrite Hdt, Hscale, Hfn.
  change (endswith_char ">H" "s") with false. cbv iota.
  rewrite (unpack_u16 payload _ hi lo Hoff Hhi Hlo).
  cbn [mbind res_bind bind]. unfold version_fn.
  destruct (word_bytes hi lo) as [-> ->].
  rewrite !str_of_int_nat by apply byte_val_bound. reflexivity.
Qed.

(** X8  sensor.py: the working mode field never lacks a value: the
    register's mode by
    its name for 1 to 4, and [UNKNOWN_] with the number for every other
    register value. *)
Theorem working_mode_field_always_named :
  forall (payload : list Byte.byte) (d : SajR5MqttEntityDescription)
         (hi lo : Byte.byte),
    modbus_register_data_type d = ">H"%string ->
    modbus_register_scale d = None ->
    value_fn d = Some working_mode_fn ->
    0 <= modbus_register_offset d ->
    payload !! Z.to_nat (modbus_register_offset d) = Some hi ->
    payload !! S (Z.to_nat (modbus_register_offset d)) = Some lo ->
    let z := 256 * DecoderSpec.byte_val hi + DecoderSpec.byte_val lo in
    get_entity_description (Some payload) d
    = (Ok (PyStr (if z =? 1 then "WAIT"
                  else if z =? 2 then "NORMAL"
                  else if z =? 3 then "FAULT"
                  else if z =? 4 then "UPDATE"
                  else ("UNKNOWN_" ++ str_of_nat z)%string)), []).
Proof.
  intros payload d hi lo Hdt Hscale Hfn Hoff Hhi Hlo z.
  unfold get_entity_description, decode, raw_value.
  rewrite Hdt, Hscale, Hfn.
  change (endswith_char ">H" "s") with false. cbv iota.
  rewrite (unpack_u16 payload _ hi lo Hoff Hhi Hlo).
  cbn [mbind res_bind bind]. fold z.
  assert (0 <= z) as Hz.
  { pose proof (byte_val_bound hi). pose proof (byte_val_bound lo). lia. }
  unfold working_mode_fn, WorkingMode_members.
  cbn [List.find equals_int WorkingMode_value].
  destruct (z =? 1); [reflexivity|].
  destruct (z =? 2); [reflexivity|].
  destruct (z =? 3); [reflexivity|].
  destruct (z =? 4); [reflexivity|].
  cbn [Text.str_of_value]. rewrite str_of_int_nat by exact Hz. reflexivity.
Qed.

End TableDecodeFacts.

(** [pv1_voltage] on the sample buffer. *)
Lemma table_scales_round_to_their_decimal_digits_witness :
  get_entity_description (Some Samples.pv1_buffer) Samples.pv1_voltage
  = DecoderSpec.answer "pv1_voltage"
      (DecoderSpec.scaled_and_rounded 1234 Samples.tenth
         (DecoderSpec.decimal_digits (str_of_float Samples.tenth))).
Proof.
  apply (table_scales_round_to_their_decimal_digits Samples.pv1_voltage
           Samples.tenth Samples.pv1_buffer 1234).
  - right. left. reflexivity.
  - reflexivity.
  - vm_compute. reflexivity.
Defined.

(** A protocol version register holding 0x0102 reads "1.2". *)
Lemma version_field_is_major_point_minor_witness :
  get_entity_description (Some [Byte.x00; Byte.x00; Byte.x00; Byte.x00;
                                Byte.x01; Byte.x02])
    (SensorTables.mk "protocol_version" 0x4 ">H" None (Some SensorTables.version_fn))
  = (Ok (PyStr "1.2"), []).
Proof.
  apply (version_field_is_major_point_minor
           [Byte.x00; Byte.x00; Byte.x00; Byte.x00; Byte.x01; Byte.x02]
           (SensorTables.mk "protocol_version" 0x4 ">H" None
              (Some SensorTables.version_fn))
           Byte.x01 Byte.x02); first [reflexivity | cbn; lia].
Defined.

(** A working mode register holding 2 reads NORMAL. *)
Lemma working_mode_field_always_named_witness :
  get_entity_description (Some [Byte.x00; Byte.x02])
    (SensorTables.mk "inverter_working_mode" 0x0 ">H" None
       (Some SensorTables.working_mode_fn))
  = (Ok (PyStr "NORMAL"), []).
Proof.
  apply (working_mode_field_always_named [Byte.x00; Byte.x02]
           (SensorTables.mk "inverter_working_mode" 0x0 ">H" None
              (Some SensorTables.working_mode_fn))
           Byte.x00 Byte.x02); first [reflexivity | cbn; lia].
Defined.

(* ===================================================================== *)
(** * services.py *)
(* ===================================================================== *)

Section NumberTextFacts.

Import Text Services.

Lemma digits_in_step (base : Z) (c : ascii) (d : Z) (l : list ascii)
      (a : Z) (seen au : bool) :
  digit_in base c = Some d -> ascii_eqb c "_" = false ->
  digits_in base (c :: l) a seen au = digits_in base l (base * a + d) true false.
Proof. intros Hd Hu. cbn [digits_in]. rewrite Hu, Hd. reflexivity. Qed.







End NumberTextFacts.
Section NumberParseFacts.

Import Text Services.






(** In base 10 no prefix is looked for. *)
Lemma int_base_10_eq (s : string) :
  int_base 10 s
  = match digits_in 10 (snd (read_sign (strip (chars s)))) 0 false false with
    | Some n => Ok (if fst (read_sign (strip (chars s))) then - n else n)
    | None => Raise ValueError
    end.
Proof.
  unfold int_base. destruct (read_sign (strip (chars s))) as [neg l].
  destruct l as [|z [|x l']]; reflexivity.
Qed.






Lemma lstrip_snoc (l : list ascii) (c : ascii) :
  Text.is_space c = false -> lstrip (l ++ [c]) = lstrip l ++ [c].
Proof.
  intros Hc. induction l as [|x l IH]; cbn [lstrip app].
  - rewrite Hc. reflexivity.
  - destruct (Text.is_space x); [exact IH|reflexivity].
Qed.

Lemma rstrip_cons (c : ascii) (l : list ascii) :
  Text.is_space c = false ->
  rev (lstrip (rev (c :: l))) = c :: rev (lstrip (rev l)).
Proof.
  intros Hc. cbn [rev]. rewrite (lstrip_snoc _ _ Hc), rev_app_distr. reflexivity.
Qed.

(** Stripping keeps a first character that is no white space. *)
Lemma strip_cons (c : ascii) (l : list ascii) :
  Text.is_space c = false ->
  strip (c :: l) = c :: rev (lstrip (rev l)).
Proof.
  intros Hc. unfold strip. cbn [lstrip]. rewrite Hc.
  apply (rstrip_cons _ _ Hc).
Qed.

(** The decimal reader stops at the letter of a prefix. *)
Lemma decimal_reader_rejects_prefix (x : ascii) (l : list ascii) :
  x = "x"%char \/ x = "X"%char ->
  int_base 10 (str_of ("0"%char :: x :: l)) = Raise ValueError
  /\ int_base 10 (str_of ("-"%char :: "0"%char :: x :: l)) = Raise ValueError
  /\ int_base 10 (str_of ("+"%char :: "0"%char :: x :: l)) = Raise ValueError.
Proof.
  intros Hcase.
  assert (Text.is_space x = false) as Hsp by (destruct Hcase; subst x; reflexivity).
  assert (forall rest seen, digits_in 10 (x :: rest) 0 seen false = None) as Hd
      by (intros rest seen; destruct Hcase; subst x; reflexivity).
  rewrite !int_base_10_eq, !chars_str_of.
  rewrite (strip_cons "-"), (strip_cons "+"), (strip_cons "0") by reflexivity.
  rewrite !(rstrip_cons "0") by reflexivity.
  rewrite !(rstrip_cons x) by exact Hsp.
  change (read_sign ("-"%char :: "0"%char :: x :: rev (lstrip (rev l))))
    with (true, "0"%char :: x :: rev (lstrip (rev l))).
  change (read_sign ("+"%char :: "0"%char :: x :: rev (lstrip (rev l))))
    with (false, "0"%char :: x :: rev (lstrip (rev l))).
  change (read_sign ("0"%char :: x :: rev (lstrip (rev l))))
    with (false, "0"%char :: x :: rev (lstrip (rev l))).
  cbn [fst snd].
  rewrite (digits_in_step 10 "0" 0) by reflexivity.
  rewrite Hd. repeat split; reflexivity.
Qed.

End NumberParseFacts.



(** X10  services.py, the number reader of the handlers: a hexadecimal
    numeral is read only after the exact prefix [0x]; a sign before the
    prefix, or the prefix [0X], makes the text invalid. *)
Theorem signed_or_capital_prefix_is_invalid (s : string) :
  Services.validated ("-0x" ++ s) = Raise Services.ServiceValidationError
  /\ Services.validated ("+0x" ++ s) = Raise Services.ServiceValidationError
  /\ Services.validated ("0X" ++ s) = Raise Services.ServiceValidationError.
Proof.
  destruct (decimal_reader_rejects_prefix "x" (chars s) (or_introl eq_refl))
    as (_ & Hm & Hp).
  destruct (decimal_reader_rejects_prefix "X" (chars s) (or_intror eq_refl))
    as (H0 & _ & _).
  unfold Services.validated, Services.parse_number.
  rewrite <- (str_of_chars s).
  change ("-0x" ++ str_of (chars s))%string
    with (str_of ("-"%char :: "0"%char :: "x"%char :: chars s)).
  change ("+0x" ++ str_of (chars s))%string
    with (str_of ("+"%char :: "0"%char :: "x"%char :: chars s)).
  change ("0X" ++ str_of (chars s))%string
    with (str_of ("0"%char :: "X"%char :: chars s)).
  replace (String.prefix "0x" (str_of ("-"%char :: "0"%char :: "x"%char :: chars s)))
    with false by reflexivity.
  replace (String.prefix "0x" (str_of ("+"%char :: "0"%char :: "x"%char :: chars s)))
    with false by reflexivity.
  replace (String.prefix "0x" (str_of ("0"%char :: "X"%char :: chars s)))
    with false by reflexivity.
  rewrite Hm, Hp, H0. repeat split; reflexivity.
Qed.

Section ServiceFacts.

Import Text Services.
Context {C : Type} `{MqttClient C}.

(** The number reader raises nothing but the validation error. *)
Lemma validated_cases (s : string) :
  (exists z, validated s = Ok z) \/ validated s = Raise ServiceValidationError.
Proof.
  assert (forall base, (exists z, int_base base s = Ok z)
                       \/ int_base base s = Raise ValueError) as Hint.
  { intros base. unfold int_base.
    destruct (read_sign (strip (chars s))) as [neg l].
    match goal with
    | |- context [digits_in base ?b 0 false false] =>
        destruct (digits_in base b 0 false false)
    end; eauto. }
  unfold validated, parse_number.
  destruct (String.prefix "0x" s);
    [destruct (Hint 16) as [[z ->]| ->] | destruct (Hint 10) as [[z ->]| ->]];
    eauto.
Qed.

Lemma do_read_calls (a n : Z) (w : world C) :
  calls (snd (do_read a n w)) = calls w ++ [ReadRegisters a n].
Proof. unfold do_read. destruct (read_registers a n (client w)). reflexivity. Qed.

Lemma do_write_calls (a v : Z) (w : world C) :
  calls (snd (do_write a v w)) = calls w ++ [WriteRegister a v].
Proof.
  unfold do_write. destruct (Client.write_register a v (client w)). reflexivity.
Qed.

Lemma read_register_world (a n : Z) (fmt : option string) (w : world C)
      (reg size : string) :
  validated reg = Ok a -> validated size = Ok n -> bad_format fmt = false ->
  snd (read_register reg size fmt w) = snd (do_read a n w).
Proof.
  intros Ha Hn Hf. unfold read_register. rewrite Ha, Hn, Hf.
  destruct (do_read a n w) as [r w']. cbn [snd].
  destruct r as [[content|]|e]; destruct (given_format fmt) as [f|];
    try reflexivity.
  - destruct (Struct.unpack_from f content 0) as [[|v [|v' l]]|e]; reflexivity.
  - destruct (Struct.parse_format f); reflexivity.
Qed.

End ServiceFacts.

(** X11  services.py, [read_register]: whatever the input, the handler
    either rejects it with the validation error before the client is
    called, or calls the client exactly once, to read the registers the
    two texts denote; it never writes. *)
Theorem read_register_rejects_or_reads_once
  {C : Type} `{MqttClient C}
  (reg size : string) (fmt : option string) (w : world C) :
  (Services.read_register reg size fmt w
     = (Raise Services.ServiceValidationError, w)
   /\ (Services.validated reg = Raise Services.ServiceValidationError
       \/ Services.validated size = Raise Services.ServiceValidationError
       \/ Services.bad_format fmt = true))
  \/ (exists a n,
        Services.validated reg = Ok a /\ Services.validated size = Ok n
        /\ Services.bad_format fmt = false
        /\ calls (snd (Services.read_register reg size fmt w))
           = calls w ++ [ReadRegisters a n]).
Proof.
  destruct (validated_cases reg) as [[a Ha]|Ha].
  - destruct (validated_cases size) as [[n Hn]|Hn].
    + destruct (Services.bad_format fmt) eqn:Hf.
      * left. split; [|auto].
        unfold Services.read_register. rewrite Ha, Hn, Hf. reflexivity.
      * right. exists a, n. repeat split; try assumption.
        rewrite (read_register_world a n fmt w reg size Ha Hn Hf).
        apply do_read_calls.
    + left. split; [|auto].
      unfold Services.read_register. rewrite Ha, Hn. reflexivity.
  - left. split; [|auto].
    unfold Services.read_register. rewrite Ha. reflexivity.
Qed.

(** X12  services.py, [write_register]: whatever the input, the handler
    either rejects it with the validation error before the client is
    called, or calls the client exactly once, to write the value to the
    register the two texts denote; and when that call returns, the
    handler returns normally whatever the result, [None] included. *)
Theorem write_register_rejects_or_writes_once
  {C : Type} `{MqttClient C} (reg val : string) (w : world C) :
  (Services.write_register reg val w
     = (Raise Services.ServiceValidationError, w)
   /\ (Services.validated reg = Raise Services.ServiceValidationError
       \/ Services.validated val = Raise Services.ServiceValidationError))
  \/ (exists a v,
        Services.validated reg = Ok a /\ Services.validated val = Ok v
        /\ calls (snd (Services.write_register reg val w))
           = calls w ++ [WriteRegister a v]
        /\ forall r c', write_register a v (client w) = (Ok r, c') ->
                        fst (Services.write_register reg val w) = Ok tt).
Proof.
  destruct (validated_cases reg) as [[a Ha]|Ha].
  - destruct (validated_cases val) as [[v Hv]|Hv].
    + right. exists a, v. split; [exact Ha|]. split; [exact Hv|].
      unfold Services.write_register. rewrite Ha, Hv.
      pose proof (do_write_calls a v w) as Hc.
      unfold do_write in *.
      destruct (write_register a v (client w)) as [r c] eqn:E.
      split.
      * destruct r; exact Hc.
      * intros r' c' Heq. injection Heq as -> _. reflexivity.
    + left. split; [|auto].
      unfold Services.write_register. rewrite Ha, Hv. reflexivity.
  - left. split; [|auto].
    unfold Services.write_register. rewrite Ha. reflexivity.
Qed.

Section RenderFacts.

Import Text Services.

(** A byte is rendered as two digits that denote it. *)
Lemma render_byte_digits (b : Byte.byte) :
  exists c1 c2,
    chars (format_hex false 2 (Z.of_N (Byte.to_N b))) = [c1; c2]
    /\ byte_of_hex c1 c2 = Some b.
Proof. destruct b; do 2 eexists; split; reflexivity. Qed.

Lemma render_bytes_cons (b b' : Byte.byte) (bs : list Byte.byte) :
  chars (render_bytes (b :: b' :: bs))
  = chars (format_hex false 2 (Z.of_N (Byte.to_N b)))
    ++ ":"%char :: chars (render_bytes (b' :: bs)).
Proof.
  change (render_bytes (b :: b' :: bs))
    with (format_hex false 2 (Z.of_N (Byte.to_N b))
          ++ ":" ++ render_bytes (b' :: bs))%string.
  rewrite chars_append. reflexivity.
Qed.

(** The rendering reads back as the bytes. *)
Lemma parse_rendered_render (bs : list Byte.byte) :
  forall fuel, (length bs <= fuel)%nat ->
               parse_rendered fuel (chars (render_bytes bs)) = Some bs.
Proof.
  induction bs as [|b bs IH]; intros fuel Hfuel.
  - destruct fuel; reflexivity.
  - destruct fuel as [|fuel]; [cbn in Hfuel; lia|].
    destruct (render_byte_digits b) as (c1 & c2 & Hc & Hb).
    destruct bs as [|b' bs].
    + change (render_bytes [b]) with (format_hex false 2 (Z.of_N (Byte.to_N b))).
      rewrite Hc. cbn [parse_rendered]. rewrite Hb. reflexivity.
    + rewrite render_bytes_cons, Hc. cbn [app parse_rendered].
      change (ascii_eqb ":" ":") with true. cbn iota.
      rewrite Hb, IH by (cbn [length] in *; lia). reflexivity.
Qed.

Lemma render_bytes_injective (a b : list Byte.byte) :
  render_bytes a = render_bytes b -> a = b.
Proof.
  intros Heq.
  pose proof (parse_rendered_render a (length a + length b)%nat ltac:(lia)) as Ha.
  pose proof (parse_rendered_render b (length a + length b)%nat ltac:(lia)) as Hb.
  rewrite Heq in Ha. congruence.
Qed.

Lemma render_bytes_length (bs : list Byte.byte) :
  String.length (render_bytes bs) = (3 * length bs - 1)%nat.
Proof.
  assert (forall s, String.length s = length (chars s)) as Hlen.
  { intros s. induction s as [|c s IHs]; cbn; [reflexivity|].
    f_equal. exact IHs. }
  rewrite Hlen.
  induction bs as [|b bs IH]; [reflexivity|].
  destruct (render_byte_digits b) as (c1 & c2 & Hc & _).
  destruct bs as [|b' bs].
  - change (render_bytes [b]) with (format_hex false 2 (Z.of_N (Byte.to_N b))).
    rewrite Hc. reflexivity.
  - rewrite render_bytes_cons, Hc. cbn [app length] in *. lia.
Qed.

End RenderFacts.

(** X13  services.py, [read_register] without a format ([None] or the
    empty text): the response is the bytes the client returned, each as
    two lower-case hexadecimal digits, with colons between; it has three
    characters a byte less one, and no other bytes give the same
    response. *)
Theorem raw_response_determines_the_bytes
  {C : Type} `{MqttClient C}
  (reg size : string) (fmt : option string) (w : world C)
  (a n : Z) (content : list Byte.byte) (c' : C) :
  Services.validated reg = Ok a ->
  Services.validated size = Ok n ->
  Services.given_format fmt = None ->
  read_registers a n (client w) = (Ok (Some content), c') ->
  fst (Services.read_register reg size fmt w)
    = Ok (Services.render_bytes content)
  /\ String.length (Services.render_bytes content) = (3 * length content - 1)%nat
  /\ forall other,
       Services.render_bytes other = Services.render_bytes content ->
       other = content.
Proof.
  intros Ha Hn Hf Hread. split; [|split].
  - assert (Services.bad_format fmt = false) as Hb.
    { destruct fmt as [f|]; [|reflexivity].
      cbn in Hf |- *. destruct (String.eqb f ""); [reflexivity|discriminate]. }
    unfold Services.read_register. rewrite Ha, Hn, Hb.
    unfold do_read. rewrite Hread, Hf. reflexivity.
  - apply render_bytes_length.
  - intros other. apply render_bytes_injective.
Qed.

Lemma raw_response_determines_the_bytes_witness :
  fst (Services.read_register "0x8F00" "1" (Some "")
         (mkWorld (mkScript [Ok (Some [Byte.x00; Byte.x21])] []) []))
    = Ok "00:21"
  /\ String.length "00:21" = 5%nat
  /\ forall other, Services.render_bytes other = "00:21" ->
                   other = [Byte.x00; Byte.x21].
Proof.
  apply (raw_response_determines_the_bytes
           "0x8F00" "1" (Some "")
           (mkWorld (mkScript [Ok (Some [Byte.x00; Byte.x21])] []) [])
           36608 1 [Byte.x00; Byte.x21] (mkScript [] []));
    reflexivity.
Defined.

Section ConfigEntryFacts.

Import Services.

Lemma find_some_in {A : Type} (f : A -> bool) (l : list A) (x : A) :
  List.find f l = Some x -> In x l /\ f x = true.
Proof. apply List.find_some. Qed.

(** X14  services.py, [_get_config_entry]: an entry it returns is
    loaded; it is the entry of the requested id, of whatever domain,
    or, when the id is absent or names no entry, the first entry of the
    integration's domain. *)
Theorem returned_config_entry_is_loaded
  (entries : list Services.ConfigEntry) (id : option string)
  (e : Services.ConfigEntry) :
  Services._get_config_entry entries id = Ok e ->
  Services.state e = Services.LOADED
  /\ In e entries
  /\ (id = Some (Services.entry_id e)
      \/ (Services.async_get_entry entries id = None
          /\ Services.domain e = Services.DOMAIN
          /\ exists before after,
               entries = before ++ e :: after
               /\ Forall (fun x => Services.domain x <> Services.DOMAIN) before)).
Proof.
  unfold Services._get_config_entry. intros Hget.
  assert (exists e0,
             match Services.async_get_entry entries id with
             | Some e1 => Ok e1
             | None =>
                 match Services.async_entries entries Services.DOMAIN with
                 | [] => Raise Services.ServiceValidationError
                 | e1 :: _ => Ok e1
                 end
             end = Ok e0
             /\ (if bool_decide (Services.state e0 = Services.LOADED)
                 then Ok e0 else Raise Services.ServiceValidationError) = Ok e)
    as (e0 & Hsel & Hst).
  { destruct (match Services.async_get_entry entries id with
              | Some e1 => Ok e1
              | None => _
              end) as [e0|err]; [|discriminate Hget].
    exists e0. split; [reflexivity|exact Hget]. }
  destruct (bool_decide (Services.state e0 = Services.LOADED)) eqn:Hl;
    [|discriminate Hst].
  injection Hst as <-. apply bool_decide_eq_true in Hl.
  split; [exact Hl|].
  destruct (Services.async_get_entry entries id) as [e1|] eqn:Hfound.
  - injection Hsel as ->.
    destruct id as [i|]; [|discriminate Hfound].
    cbn [Services.async_get_entry] in Hfound.
    apply find_some_in in Hfound as [Hin Heq].
    apply String.eqb_eq in Heq. split; [exact Hin|]. left. congruence.
  - assert (forall l,
               match List.filter
                       (fun x => String.eqb (Services.domain x) Services.DOMAIN) l
               with
               | [] => Raise Services.ServiceValidationError
               | e1 :: _ => Ok e1
               end = Ok e0 ->
               Services.domain e0 = Services.DOMAIN
               /\ exists before after,
                    l = before ++ e0 :: after
                    /\ Forall (fun x => Services.domain x <> Services.DOMAIN) before)
      as Hfirst.
    { induction l as [|x l IH]; [discriminate|].
      cbn [List.filter].
      destruct (String.eqb (Services.domain x) Services.DOMAIN) eqn:Hd.
      - intros Heq. injection Heq as ->. apply String.eqb_eq in Hd.
        split; [exact Hd|]. exists [], l. split; [reflexivity|constructor].
      - intros Heq. destruct (IH Heq) as (Hdom & before & after & -> & Hall).
        split; [exact Hdom|]. exists (x :: before), after.
        split; [reflexivity|]. constructor; [|exact Hall].
        apply String.eqb_neq. exact Hd. }
    destruct (Hfirst entries Hsel) as (Hdom & before & after & Hent & Hall).
    split; [rewrite Hent; apply in_elt|].
    right. split; [reflexivity|]. split; [exact Hdom|].
    exists before, after. split; assumption.
Qed.

Lemma returned_config_entry_is_loaded_witness :
  Services.state (Services.mkConfigEntry "b2" "saj_r5_mqtt" Services.LOADED)
    = Services.LOADED
  /\ In (Services.mkConfigEntry "b2" "saj_r5_mqtt" Services.LOADED)
        [Services.mkConfigEntry "a1" "mqtt" Services.LOADED;
         Services.mkConfigEntry "b2" "saj_r5_mqtt" Services.LOADED]
  /\ (Some "zz" = Some "b2"
      \/ (Services.async_get_entry
            [Services.mkConfigEntry "a1" "mqtt" Services.LOADED;
             Services.mkConfigEntry "b2" "saj_r5_mqtt" Services.LOADED]
            (Some "zz") = None
          /\ "saj_r5_mqtt" = Services.DOMAIN
          /\ exists before after,
               [Services.mkConfigEntry "a1" "mqtt" Services.LOADED;
                Services.mkConfigEntry "b2" "saj_r5_mqtt" Services.LOADED]
               = before ++ Services.mkConfigEntry "b2" "saj_r5_mqtt" Services.LOADED
                           :: after
               /\ Forall (fun x => Services.domain x <> Services.DOMAIN) before)).
Proof.
  apply (returned_config_entry_is_loaded
           [Services.mkConfigEntry "a1" "mqtt" Services.LOADED;
            Services.mkConfigEntry "b2" "saj_r5_mqtt" Services.LOADED]
           (Some "zz")
           (Services.mkConfigEntry "b2" "saj_r5_mqtt" Services.LOADED)).
  reflexivity.
Defined.

(** X15  services.py, [_get_config_entry]: the fallback looks at the first
    entry of the domain only; when that one is not loaded the call is
    rejected, whatever entries follow it. *)
Theorem fallback_stops_at_first_entry
  (before after : list Services.ConfigEntry) (id : option string)
  (e : Services.ConfigEntry) :
  Services.async_get_entry (before ++ e :: after) id = None ->
  Forall (fun x => Services.domain x <> Services.DOMAIN) before ->
  Services.domain e = Services.DOMAIN ->
  Services.state e <> Services.LOADED ->
  Services._get_config_entry (before ++ e :: after) id
  = Raise Services.ServiceValidationError.
Proof.
  intros Hnone Hbefore Hdom Hstate.
  unfold Services._get_config_entry. rewrite Hnone.
  assert (Services.async_entries (before ++ e :: after) Services.DOMAIN
          = e :: Services.async_entries after Services.DOMAIN) as ->.
  { unfold Services.async_entries. rewrite List.filter_app.
    replace (List.filter
               (fun x => String.eqb (Services.domain x) Services.DOMAIN) before)
      with (@nil Services.ConfigEntry).
    - cbn [app List.filter]. rewrite Hdom, String.eqb_refl. reflexivity.
    - symmetry. clear Hnone.
      induction Hbefore as [|x l Hx _ IH]; [reflexivity|].
      cbn [List.filter]. apply String.eqb_neq in Hx. rewrite Hx. exact IH. }
  cbn. rewrite bool_decide_eq_false_2 by exact Hstate. reflexivity.
Qed.

Lemma fallback_stops_at_first_entry_witness :
  Services._get_config_entry
    ([] ++ Services.mkConfigEntry "a1" "saj_r5_mqtt" Services.SETUP_RETRY
        :: [Services.mkConfigEntry "b2" "saj_r5_mqtt" Services.LOADED]) None
  = Raise Services.ServiceValidationError.
Proof.
  apply (fallback_stops_at_first_entry
           [] [Services.mkConfigEntry "b2" "saj_r5_mqtt" Services.LOADED] None
           (Services.mkConfigEntry "a1" "saj_r5_mqtt" Services.SETUP_RETRY)).
  - reflexivity.
  - constructor.
  - reflexivity.
  - discriminate.
Defined.

End ConfigEntryFacts.

Section RegistryFacts.

Import Services.

Lemma has_service_lookup (r : registry) (dom name : string) :
  has_service r dom name = true <-> is_Some (r !! (dom, name)).
Proof. unfold has_service. apply bool_decide_eq_true. Qed.

(** A registration keeps what is registered and adds its own name only
    where nothing was. *)
Lemma register_once_lookup (dom name handler : string) (r : registry)
      (k : string * string) :
  register_once dom name handler r !! k
  = match r !! k with
    | Some v => Some v
    | None => if decide (k = (dom, name)) then Some handler else None
    end.
Proof.
  unfold register_once, has_service, registry in *.
  destruct (decide (k = (dom, name))) as [->|Hne].
  - destruct (r !! (dom, name)) as [v|] eqn:Hk.
    + rewrite bool_decide_eq_true_2 by eauto. exact Hk.
    + rewrite bool_decide_eq_false_2 by apply is_Some_None.
      apply lookup_insert_eq.
  - destruct (bool_decide (is_Some (r !! (dom, name)))).
    + destruct (r !! k); reflexivity.
    + rewrite lookup_insert_ne by congruence. destruct (r !! k); reflexivity.
Qed.

Lemma register_services_lookup (r : registry) (k : string * string) :
  async_register_services r !! k
  = match r !! k with
    | Some v => Some v
    | None =>
        if decide (k = (DOMAIN, SERVICE_READ_REGISTER)) then Some "read_register"
        else if decide (k = (DOMAIN, SERVICE_WRITE_REGISTER))
             then Some "write_register"
        else if decide (k = (DOMAIN, SERVICE_REFRESH_INVERTER_DATA))
             then Some "refresh_inverter_data"
        else None
    end.
Proof.
  unfold async_register_services. rewrite !register_once_lookup.
  destruct (r !! k); [reflexivity|].
  repeat match goal with
         | |- context [decide (k = ?x)] => destruct (decide (k = x))
         end; reflexivity.
Qed.

Lemma remove_services_lookup (r : registry) (k : string * string) :
  async_remove_services r !! k
  = if decide (k = (DOMAIN, SERVICE_READ_REGISTER)) then None
    else if decide (k = (DOMAIN, SERVICE_WRITE_REGISTER)) then None
    else if decide (k = (DOMAIN, SERVICE_REFRESH_INVERTER_DATA)) then None
    else r !! k.
Proof.
  unfold async_remove_services, registry in *.
  repeat match goal with
         | |- context [decide (k = ?x)] => destruct (decide (k = x)) as [->|?]
         end;
    repeat first [ rewrite lookup_delete_eq
                 | rewrite lookup_delete_ne by first [congruence | cbv; congruence] ];
    reflexivity.
Qed.

(** X16  services.py, [async_register_services]: afterwards the three
    services exist; a handler that was registered before stays the
    registered one; no other name is added; and registering again, as
    the setup of a second entry does, changes nothing. *)
Theorem registering_services_is_idempotent (r : registry) :
  has_service (async_register_services r) DOMAIN SERVICE_READ_REGISTER = true
  /\ has_service (async_register_services r) DOMAIN SERVICE_WRITE_REGISTER = true
  /\ has_service (async_register_services r) DOMAIN SERVICE_REFRESH_INVERTER_DATA
     = true
  /\ (forall k v, r !! k = Some v -> async_register_services r !! k = Some v)
  /\ (forall k, r !! k = None ->
                k <> (DOMAIN, SERVICE_READ_REGISTER) ->
                k <> (DOMAIN, SERVICE_WRITE_REGISTER) ->
                k <> (DOMAIN, SERVICE_REFRESH_INVERTER_DATA) ->
                async_register_services r !! k = None)
  /\ async_register_services (async_register_services r)
     = async_register_services r.
Proof.
  repeat split.
  - apply has_service_lookup. rewrite register_services_lookup.
    destruct (r !! _); eauto.
  - apply has_service_lookup. rewrite register_services_lookup.
    destruct (r !! _); eauto.
  - apply has_service_lookup. rewrite register_services_lookup.
    destruct (r !! _); eauto.
  - intros k v Hk. rewrite register_services_lookup, Hk. reflexivity.
  - intros k Hk H1 H2 H3. rewrite register_services_lookup, Hk.
    rewrite !decide_False by assumption. reflexivity.
  - apply map_eq. intros k.
    rewrite (register_services_lookup (async_register_services r)).
    rewrite !(register_services_lookup r).
    destruct (r !! k); [reflexivity|].
    repeat match goal with
           | |- context [decide (k = ?x)] => destruct (decide (k = x))
           end; reflexivity.
Qed.

(** X17  services.py, [async_remove_services] after
    [async_register_services]: the three services are gone, also when
    they were registered before by another entry, and every other name
    is as it was. *)
Theorem removing_services_removes_them_for_all (r : registry) :
  has_service (async_remove_services (async_register_services r))
    DOMAIN SERVICE_READ_REGISTER = false
  /\ has_service (async_remove_services (async_register_services r))
       DOMAIN SERVICE_WRITE_REGISTER = false
  /\ has_service (async_remove_services (async_register_services r))
       DOMAIN SERVICE_REFRESH_INVERTER_DATA = false
  /\ async_remove_services (async_register_services r)
     = async_remove_services r.
Proof.
  assert (forall r' name,
             In name [SERVICE_READ_REGISTER; SERVICE_WRITE_REGISTER;
                      SERVICE_REFRESH_INVERTER_DATA] ->
             has_service (async_remove_services r') DOMAIN name = false) as Hgone.
  { intros r' name Hin. unfold has_service.
    apply bool_decide_eq_false_2. rewrite remove_services_lookup.
    cbn [In] in Hin. destruct Hin as [<-|[<-|[<-|[]]]];
      cbn; apply is_Some_None. }
  repeat split; try (apply Hgone; cbn [In]; tauto).
  apply map_eq. intros k. rewrite !remove_services_lookup.
  repeat match goal with
         | |- context [decide (k = ?x)] => destruct (decide (k = x))
         end; try reflexivity.
  rewrite register_services_lookup.
  rewrite !decide_False by assumption. destruct (r !! k); reflexivity.
Qed.

End RegistryFacts.

(* ===================================================================== *)
(** * coordinator.py: runs of scheduled polls *)
(* ===================================================================== *)

Section PollingFacts.

Import Client Coordinator.
Context {C : Type} `{MqttClient C}.

(** A refresh keeps the class and the readiness of its coordinator, and
    makes one read when the coordinator is ready, none when it is not. *)
Lemma refresh_frame (c : coordinator) (w : world C) :
  cls (snd (fst (async_refresh c w))) = cls c
  /\ ready (snd (fst (async_refresh c w))) = ready c
  /\ calls (snd (async_refresh c w))
     = calls w
       ++ (if ready c
           then [ReadRegisters (fst (block (cls c))) (snd (block (cls c)))]
           else []).
Proof.
  destruct (ready c) eqn:Hready.
  - rewrite (refresh_ready_calls_once c w Hready).
    rewrite (refresh_ready c w Hready).
    destruct (fst (_async_fetch_data c w)) as [d|e]; [|destruct e];
      cbn [fst snd cls ready]; auto.
  - rewrite (refresh_not_ready c w Hready). cbn [fst snd cls ready calls].
    rewrite app_nil_r. auto.
Qed.

(** One tick: the coordinators keep their classes and their readiness,
    and the client receives the read of the ticked coordinator when
    there is one and it is ready. *)
Lemma tick_frame (k : kind) (s : SajR5MqttData C) :
  (forall k', option_map cls (coordinator_of k' (snd (tick k s)))
              = option_map cls (coordinator_of k' s))
  /\ (forall k', option_map ready (coordinator_of k' (snd (tick k s)))
                 = option_map ready (coordinator_of k' s))
  /\ calls (mqtt_client (snd (tick k s)))
     = calls (mqtt_client s)
       ++ match coordinator_of k s with
          | Some c =>
              if ready c
              then [ReadRegisters (fst (block (cls c))) (snd (block (cls c)))]
              else []
          | None => []
          end.
Proof.
  destruct k; unfold tick.
  - destruct (refresh_frame (coordinator_realtime_data s) (mqtt_client s))
      as (Hcls & Hready & Hcalls).
    destruct (async_refresh (coordinator_realtime_data s) (mqtt_client s))
      as [[r rt] w].
    cbn [fst snd] in *. cbn [coordinator_of mqtt_client coordinator_realtime_data].
    split; [|split; [|exact Hcalls]].
    + intros []; cbn; [rewrite Hcls|]; reflexivity.
    + intros []; cbn; [rewrite Hready|]; reflexivity.
  - cbn [coordinator_of].
    destruct (coordinator_inverter_data s) as [c|] eqn:Hc.
    + destruct (refresh_frame c (mqtt_client s)) as (Hcls & Hready & Hcalls).
      destruct (async_refresh c (mqtt_client s)) as [[r c'] w].
      cbn [fst snd] in *. cbn [mqtt_client].
      split; [|split; [|exact Hcalls]].
      * intros []; cbn; rewrite ?Hc; cbn; [|rewrite Hcls]; reflexivity.
      * intros []; cbn; rewrite ?Hc; cbn; [|rewrite Hready]; reflexivity.
    + cbn [snd]. rewrite app_nil_r. repeat split; reflexivity.
Qed.

Lemma ticks_frame (ks : list kind) :
  forall s : SajR5MqttData C,
    (forall k', option_map cls (coordinator_of k' (ticks ks s))
                = option_map cls (coordinator_of k' s))
    /\ (forall k', option_map ready (coordinator_of k' (ticks ks s))
                   = option_map ready (coordinator_of k' s))
    /\ calls (mqtt_client (ticks ks s))
       = calls (mqtt_client s)
         ++ flat_map
              (fun k =>
                 match coordinator_of k s with
                 | Some c =>
                     if ready c
                     then [ReadRegisters (fst (block (cls c)))
                                         (snd (block (cls c)))]
                     else []
                 | None => []
                 end) ks.
Proof.
  induction ks as [|k ks IH]; intros s; cbn [ticks flat_map].
  - rewrite app_nil_r. repeat split; reflexivity.
  - destruct (tick_frame k s) as (Hcls & Hready & Hcalls).
    destruct (IH (snd (tick k s))) as (Hcls' & Hready' & Hcalls').
    split; [intros k'; rewrite Hcls'; apply Hcls|].
    split; [intros k'; rewrite Hready'; apply Hready|].
    rewrite Hcalls', Hcalls, <- app_assoc. f_equal. f_equal.
    apply flat_map_ext. intros k'.
    specialize (Hcls k'). specialize (Hready k').
    destruct (coordinator_of k' (snd (tick k s))) as [c1|];
      destruct (coordinator_of k' s) as [c0|]; cbn in Hcls, Hready;
      try discriminate; [|reflexivity].
    injection Hcls as ->. injection Hready as ->. reflexivity.
Qed.

(** X18  coordinator.py: polling only reads.  Whatever the state of the
    coordinators and the answers of the client, the calls a run of
    scheduled polls adds are reads of one of the two fixed register
    blocks, each of at most [MODBUS_MAX_REGISTERS_PER_QUERY]
    registers. *)
Theorem polling_only_reads_the_fixed_blocks
  (ks : list kind) (s : SajR5MqttData C) :
  exists added,
    calls (mqtt_client (ticks ks s)) = calls (mqtt_client s) ++ added
    /\ Forall (fun c =>
                 (c = ReadRegisters 0x0100 0x38 \/ c = ReadRegisters 0x8F00 0x1D)
                 /\ exists start count,
                      c = ReadRegisters start count
                      /\ 1 <= count
                         <= SensorTables.MODBUS_MAX_REGISTERS_PER_QUERY) added.
Proof.
  destruct (ticks_frame ks s) as (_ & _ & Hcalls).
  eexists. split; [exact Hcalls|].
  apply List.Forall_flat_map, List.Forall_forall. intros k _.
  destruct (coordinator_of k s) as [c|]; [|constructor].
  destruct (ready c); [|constructor].
  constructor; [|constructor].
  destruct (cls c); cbn [block fst snd].
  - split; [left; reflexivity|]. do 2 eexists. split; [reflexivity|].
    unfold SensorTables.MODBUS_MAX_REGISTERS_PER_QUERY. lia.
  - split; [right; reflexivity|]. do 2 eexists. split; [reflexivity|].
    unfold SensorTables.MODBUS_MAX_REGISTERS_PER_QUERY. lia.
Qed.

(** X19  coordinator.py: readiness is a latch.  Once the coordinators
    are ready, every scheduled poll of a coordinator that exists makes
    exactly one read of its block, whatever the earlier reads returned
    or raised, and the coordinators stay ready. *)
Theorem ready_polls_read_once_each
  (ks : list kind) (s : SajR5MqttData C) :
  ready (coordinator_realtime_data s) = true ->
  (forall c, coordinator_inverter_data s = Some c -> ready c = true) ->
  calls (mqtt_client (ticks ks s))
  = calls (mqtt_client s)
    ++ flat_map
         (fun k =>
            match coordinator_of k s with
            | Some c => [ReadRegisters (fst (block (cls c))) (snd (block (cls c)))]
            | None => []
            end) ks
  /\ ready (coordinator_realtime_data (ticks ks s)) = true
  /\ (forall c, coordinator_inverter_data (ticks ks s) = Some c -> ready c = true).
Proof.
  intros Hrt Hinv.
  destruct (ticks_frame ks s) as (_ & Hready & Hcalls).
  split; [|split].
  - rewrite Hcalls. f_equal. apply flat_map_ext. intros k.
    destruct k; cbn [coordinator_of].
    + rewrite Hrt. reflexivity.
    + destruct (coordinator_inverter_data s) as [c|] eqn:Hc; [|reflexivity].
      rewrite (Hinv c eq_refl). reflexivity.
  - specialize (Hready Realtime). cbn in Hready. congruence.
  - intros c Hc. specialize (Hready Inverter). cbn [coordinator_of] in Hready.
    rewrite Hc in Hready. cbn in Hready.
    destruct (coordinator_inverter_data s) as [c0|]; [|discriminate Hready].
    cbn in Hready. rewrite (Hinv c0 eq_refl) in Hready. congruence.
Qed.

End PollingFacts.

Lemma ready_polls_read_once_each_witness :
  calls (Coordinator.mqtt_client
           (Coordinator.ticks
              [Coordinator.Realtime; Coordinator.Inverter; Coordinator.Realtime]
              (Coordinator.mkData
                 (mkWorld (mkScript [Raise TimeoutError; Ok None] []) [])
                 (Coordinator.mk Coordinator.Realtime 60 None true true) None)))
  = [] ++ [ReadRegisters 0x0100 0x38; ReadRegisters 0x0100 0x38]
  /\ Coordinator.ready
       (Coordinator.coordinator_realtime_data
          (Coordinator.ticks
             [Coordinator.Realtime; Coordinator.Inverter; Coordinator.Realtime]
             (Coordinator.mkData
                (mkWorld (mkScript [Raise TimeoutError; Ok None] []) [])
                (Coordinator.mk Coordinator.Realtime 60 None true true) None)))
     = true
  /\ (forall c,
        Coordinator.coordinator_inverter_data
          (Coordinator.ticks
             [Coordinator.Realtime; Coordinator.Inverter; Coordinator.Realtime]
             (Coordinator.mkData
                (mkWorld (mkScript [Raise TimeoutError; Ok None] []) [])
                (Coordinator.mk Coordinator.Realtime 60 None true true) None))
        = Some c -> Coordinator.ready c = true).
Proof.
  apply (ready_polls_read_once_each
           [Coordinator.Realtime; Coordinator.Inverter; Coordinator.Realtime]
           (Coordinator.mkData
              (mkWorld (mkScript [Raise TimeoutError; Ok None] []) [])
              (Coordinator.mk Coordinator.Realtime 60 None true true) None)).
  - reflexivity.
  - intros c Hc. discriminate Hc.
Defined.

(* ===================================================================== *)
(** * __init__.py: the birth message *)
(* ===================================================================== *)

Section BirthFacts.

Import Client Coordinator Setup Birth.
Context {C : Type} `{MqttClient C}.

(** The first refresh leaves the realtime coordinator ready. *)
Lemma first_refresh_ready (rd : SajR5MqttData C) :
  ready (coordinator_realtime_data (snd (async_first_refresh rd))) = true.
Proof.
  unfold async_first_refresh, async_refresh_coordinators, mark_coordinators_ready.
  cbn [coordinator_realtime_data mqtt_client coordinator_inverter_data].
  destruct (refresh_frame (set_ready (coordinator_realtime_data rd) true)
              (mqtt_client rd)) as (_ & Hready & _).
  destruct (async_refresh (set_ready (coordinator_realtime_data rd) true)
              (mqtt_client rd)) as [[r rt] w].
  cbn [fst snd set_ready ready] in Hready.
  destruct r as [[]|e]; destruct (coordinator_inverter_data rd) as [c|];
    cbn [snd coordinator_realtime_data]; try exact Hready.
  destruct (async_refresh (set_ready c true) w) as [[r' c'] w'].
  exact Hready.
Qed.

(** X20  __init__.py, [on_message] of
    [async_first_refresh_on_mqtt_birth_message]: a birth message marks
    mqtt ready and runs the first refresh, which leaves the realtime
    coordinator ready; when the refresh does not raise, the subscription
    ends, so that a further birth message changes nothing and reads
    nothing; when it raises, mqtt is marked ready all the same and the
    subscription stays. *)
Theorem birth_message_refreshes_once
  (hass : hass_t) (entry : entry_t C) (rd : SajR5MqttData C) :
  awaiting_birth entry = true ->
  runtime_data entry = Some rd ->
  mqtt_ready (snd (fst (on_birth_message hass entry))) = true
  /\ runtime_data (snd (on_birth_message hass entry))
     = Some (snd (async_first_refresh rd))
  /\ ready (coordinator_realtime_data (snd (async_first_refresh rd))) = true
  /\ (fst (fst (on_birth_message hass entry)) = Ok tt ->
      awaiting_birth (snd (on_birth_message hass entry)) = false
      /\ on_birth_message (snd (fst (on_birth_message hass entry)))
                          (snd (on_birth_message hass entry))
         = (Ok tt, snd (fst (on_birth_message hass entry)),
            snd (on_birth_message hass entry)))
  /\ (forall e, fst (fst (on_birth_message hass entry)) = Raise e ->
                awaiting_birth (snd (on_birth_message hass entry)) = true).
Proof.
  intros Hawait Hrd. pose proof (first_refresh_ready rd) as Hready.
  unfold on_birth_message. rewrite Hawait, Hrd. cbn [negb].
  destruct (async_first_refresh rd) as [r rd'].
  cbn [snd] in Hready |- *.
  destruct r as [[]|e]; cbn [fst snd mqtt_ready runtime_data awaiting_birth negb].
  - repeat split; intros; first [assumption | discriminate | reflexivity].
  - repeat split; intros; first [assumption | discriminate | reflexivity].
Qed.

End BirthFacts.

Lemma birth_message_refreshes_once_witness :
  Setup.mqtt_ready
    (snd (fst (Birth.on_birth_message
                 (Setup.mkHass true false (Some "homeassistant/status"))
                 (Setup.mkEntry ∅ (Some Samples.fresh_data) true)))) = true
  /\ Setup.runtime_data
       (snd (Birth.on_birth_message
               (Setup.mkHass true false (Some "homeassistant/status"))
               (Setup.mkEntry ∅ (Some Samples.fresh_data) true)))
     = Some (snd (Coordinator.async_first_refresh Samples.fresh_data))
  /\ Coordinator.ready
       (Coordinator.coordinator_realtime_data
          (snd (Coordinator.async_first_refresh Samples.fresh_data))) = true
  /\ (fst (fst (Birth.on_birth_message
                  (Setup.mkHass true false (Some "homeassistant/status"))
                  (Setup.mkEntry ∅ (Some Samples.fresh_data) true))) = Ok tt ->
      Setup.awaiting_birth
        (snd (Birth.on_birth_message
                (Setup.mkHass true false (Some "homeassistant/status"))
                (Setup.mkEntry ∅ (Some Samples.fresh_data) true))) = false
      /\ Birth.on_birth_message
           (snd (fst (Birth.on_birth_message
                        (Setup.mkHass true false (Some "homeassistant/status"))
                        (Setup.mkEntry ∅ (Some Samples.fresh_data) true))))
           (snd (Birth.on_birth_message
                   (Setup.mkHass true false (Some "homeassistant/status"))
                   (Setup.mkEntry ∅ (Some Samples.fresh_data) true)))
         = (Ok tt,
            snd (fst (Birth.on_birth_message
                        (Setup.mkHass true false (Some "homeassistant/status"))
                        (Setup.mkEntry ∅ (Some Samples.fresh_data) true))),
            snd (Birth.on_birth_message
                   (Setup.mkHass true false (Some "homeassistant/status"))
                   (Setup.mkEntry ∅ (Some Samples.fresh_data) true))))
  /\ (forall e,
        fst (fst (Birth.on_birth_message
                    (Setup.mkHass true false (Some "homeassistant/status"))
                    (Setup.mkEntry ∅ (Some Samples.fresh_data) true))) = Raise e ->
        Setup.awaiting_birth
          (snd (Birth.on_birth_message
                  (Setup.mkHass true false (Some "homeassistant/status"))
                  (Setup.mkEntry ∅ (Some Samples.fresh_data) true))) = true).
Proof.
  apply (birth_message_refreshes_once
           (Setup.mkHass true false (Some "homeassistant/status"))
           (Setup.mkEntry ∅ (Some Samples.fresh_data) true)
           Samples.fresh_data); reflexivity.
Defined.

(* ===================================================================== *)
(** * sensor.py: the setup of the platform *)
(* ===================================================================== *)

Section SensorSetupFacts.

Import Client Coordinator SensorTables.
Context {C : Type} `{MqttClient C}.

(** X21  sensor.py, [async_setup_entry]: the setup reads the attribute
    [coordinator_config_data] of the runtime data, which the dataclass
    [SajR5MqttData] of coordinator.py does not declare; so for every
    runtime data the setup raises [AttributeError], after it has built
    the other sensors and before it hands any to Home Assistant. *)
Theorem sensor_setup_always_raises (s : SajR5MqttData C) :
  SensorTables.async_setup_entry s = Raise (OtherError "AttributeError")
  /\ exists inv, coordinator_attribute s "coordinator_inverter_data" = Ok inv.
Proof.
  split; [|eexists; reflexivity].
  unfold SensorTables.async_setup_entry.
  change (coordinator_attribute s "coordinator_inverter_data")
    with (Ok (coordinator_inverter_data s) : res (option coordinator)).
  change (coordinator_attribute s "coordinator_config_data")
    with (Raise (OtherError "AttributeError") : res (option coordinator)).
  reflexivity.
Qed.

Lemma byte_of_val (b : Byte.byte) (n : N) :
  DecoderSpec.byte_val b = Z.of_N n -> Byte.of_N n = Some b.
Proof.
  unfold DecoderSpec.byte_val. intros Hb. apply N2Z.inj in Hb.
  rewrite <- Hb. apply Byte.of_to_N.
Qed.

(** X22  sensor.py, [async_setup_entry], the detection of three phases:
    the inverter counts as three-phase exactly when there is an inverter
    coordinator whose buffer starts with the word 0x0021 or 0x0023, or
    is the single byte 0x21 or 0x23; with no inverter coordinator,
    before its first successful poll, or with an empty buffer it counts
    as single-phase. *)
Theorem three_phase_iff_device_type_word (inv : option coordinator) :
  is_three_phase (device_type inv) = true
  <-> exists c v rest,
        inv = Some c
        /\ (v = Byte.x21 \/ v = Byte.x23)
        /\ (data c = Some [v] \/ data c = Some (Byte.x00 :: v :: rest)).
Proof.
  split.
  - destruct inv as [c|]; [|discriminate].
    unfold device_type. destruct (data c) as [[|b [|b2 rest]]|] eqn:Hdata;
      try discriminate.
    + intros Hthree. exists c, b, []. split; [reflexivity|].
      split; [|left; exact Hdata].
      change (slice [b] 0 2) with [b] in Hthree.
      unfold is_three_phase, Struct.be_nat in Hthree. cbn [fold_left] in Hthree.
      fold (DecoderSpec.byte_val b) in Hthree.
      unfold DEVICE_TYPE_SUNTRIO_3PHASE, DEVICE_TYPE_SUNTRIO_3PHASE_V2 in Hthree.
      assert (DecoderSpec.byte_val b = Z.of_N 33
              \/ DecoderSpec.byte_val b = Z.of_N 35) as Hv
          by (apply orb_true_iff in Hthree as [Hv|Hv]; apply Z.eqb_eq in Hv; lia).
      destruct Hv as [Hv|Hv]; apply byte_of_val in Hv; cbn in Hv;
        [left|right]; congruence.
    + intros Hthree.
      assert (slice (b :: b2 :: rest) 0 2 = [b; b2]) as Hslice
          by (apply (slice_span (b :: b2 :: rest) 0 2); lia).
      rewrite Hslice in Hthree.
      unfold is_three_phase, Struct.be_nat in Hthree. cbn [fold_left] in Hthree.
      fold (DecoderSpec.byte_val b) (DecoderSpec.byte_val b2) in Hthree.
      pose proof (byte_val_bound b) as Hb. pose proof (byte_val_bound b2) as Hb2.
      unfold DEVICE_TYPE_SUNTRIO_3PHASE, DEVICE_TYPE_SUNTRIO_3PHASE_V2 in Hthree.
      assert (DecoderSpec.byte_val b = Z.of_N 0
              /\ (DecoderSpec.byte_val b2 = Z.of_N 33
                  \/ DecoderSpec.byte_val b2 = Z.of_N 35)) as [H0 Hv].
      { apply orb_true_iff in Hthree as [Hv|Hv]; apply Z.eqb_eq in Hv; lia. }
      apply byte_of_val in H0. cbn in H0.
      exists c, b2, rest. split; [reflexivity|]. split.
      * destruct Hv as [Hv|Hv]; apply byte_of_val in Hv; cbn in Hv;
          [left|right]; congruence.
      * right. rewrite Hdata. congruence.
  - intros (c & v & rest & -> & Hv & Hdata). unfold device_type.
    destruct Hdata as [-> | ->].
    + destruct Hv as [-> | ->]; reflexivity.
    + assert (slice (Byte.x00 :: v :: rest) 0 2 = [Byte.x00; v]) as ->
          by (apply (slice_span (Byte.x00 :: v :: rest) 0 2); lia).
      destruct Hv as [-> | ->]; reflexivity.
Qed.

End SensorSetupFacts.
